(** * sql-agent: the query page, the API client and the safety contracts

  A shallow embedding of the TypeScript client of sql-agent (the query,
  history, connections, login and dashboard pages, components/DataTable.tsx
  and Layout.tsx, the token check of App.tsx, the stores of lib/store.ts
  and the axios client of lib/api) together with the parts of the backend
  contract the client relies on.

  Conventions.
  - JavaScript strings are [string]; whitespace is ASCII whitespace.
  - JavaScript numbers that occur here (ids, counts, row caps) are
    integers and are modelled as [Z].
  - [undefined] and absent object fields are [None]. *)

From Stdlib Require Import ZArith Ascii Permutation.
From stdpp Require Import gmap strings list fin_maps pretty.

Local Open Scope Z_scope.

(* ===================================================================== *)
(** * JavaScript values                                                   *)
(* ===================================================================== *)

Module Js.

(** Values of type [any] that reach the client through JSON. *)
Inductive value :=
| VUndefined
| VNull
| VBool (b : bool)
| VNum (n : Z)
| VStr (s : string).

#[global] Instance value_eq_dec : EqDecision value.
Proof. solve_decision. Defined.

(** [ToBoolean]. *)
Definition truthy (v : value) : bool :=
  match v with
  | VUndefined | VNull => false
  | VBool b => b
  | VNum n => negb (n =? 0)
  | VStr s => negb (bool_decide (s = ""))
  end.

(** Truthiness of a [string] and of a [string | undefined]. *)
Definition truthy_str (s : string) : bool := negb (bool_decide (s = "")).

Definition truthy_opt (o : option string) : bool :=
  match o with Some s => truthy_str s | None => false end.

(** [a || b] on [string | undefined]. *)
Definition or_else (a b : option string) : option string :=
  if truthy_opt a then a else b.

(** [String(v)]. *)
Definition to_string (v : value) : string :=
  match v with
  | VUndefined => "undefined"
  | VNull => "null"
  | VBool true => "true"
  | VBool false => "false"
  | VNum n => pretty n
  | VStr s => s
  end.

(** [v === null]. *)
Definition is_null (v : value) : bool :=
  match v with VNull => true | _ => false end.

(** [a[i]] on an array: out of range reads give [undefined]. *)
Definition index (a : list value) (i : nat) : value :=
  default VUndefined (a !! i).

(** [obj[key] = v] on a plain object, given by its own properties, for
    a value that is a primitive or [null]: the key [__proto__] names the
    prototype accessor of such an object, and the assignment stores no
    property under it. *)
Definition assign (obj : gmap string value) (key : string) (v : value)
  : gmap string value :=
  if bool_decide (key = "__proto__") then obj else <[key := v]> obj.

(** [s.trim()], on the blanks of ASCII (space, tab, line feed, vertical
    tab, form feed, carriage return); the white space the language knows
    beyond ASCII is not stripped here. *)
Fixpoint trim_start (s : string) : string :=
  match s with
  | String c s' => if Ascii.is_space c then trim_start s' else s
  | EmptyString => EmptyString
  end.

Definition trim (s : string) : string :=
  String.rev (trim_start (String.rev (trim_start s))).

(** [xs.slice(0, e)]: a negative end counts from the end of the array. *)
Definition slice0 {A} (xs : list A) (e : Z) : list A :=
  let len := Z.of_nat (length xs) in
  let k := if e <? 0 then Z.max (len + e) 0 else Z.min e len in
  take (Z.to_nat k) xs.

(** [xs.sort(cmp)]: a stable sort driven by the sign of [cmp]. Where
    [cmp] is not a consistent order the language leaves the result to the
    engine, up to its being a rearrangement of [xs]; this is one such
    rearrangement. *)
Fixpoint sort_insert {A} (cmp : A -> A -> Z) (x : A) (l : list A) : list A :=
  match l with
  | [] => [x]
  | y :: l' => if cmp x y <=? 0 then x :: l else y :: sort_insert cmp x l'
  end.

Definition sort {A} (cmp : A -> A -> Z) (l : list A) : list A :=
  foldr (sort_insert cmp) [] l.

(** The relational comparison [a < b] on operands of the same primitive
    type; mixed operands go through [ToNumber], which is left to the
    caller of the components below. *)
Definition lt_same_type (a b : value) : bool :=
  match a, b with
  | VNum x, VNum y => x <? y
  | VStr s, VStr t => String.ltb s t
  | VBool x, VBool y => negb x && y
  | _, _ => false
  end.

End Js.

(* ===================================================================== *)
(** * components/DataTable.tsx                                            *)
(* ===================================================================== *)

Module DataTable.
Import Js.

Inductive direction := asc | desc.

(** The component state that decides what is rendered. *)
Record SortState := {
  sortColumn : option nat;
  sortDirection : direction
}.

Definition initial : SortState :=
  {| sortColumn := None; sortDirection := asc |}.

Definition handleSort (st : SortState) (colIndex : nat) : SortState :=
  if bool_decide (sortColumn st = Some colIndex)
  then {| sortColumn := sortColumn st;
          sortDirection := match sortDirection st with asc => desc | desc => asc end |}
  else {| sortColumn := Some colIndex; sortDirection := asc |}.

Inductive text_node := TText (s : string) | TNum (n : Z).

Record header_cell := { label : string; indicator : option direction }.
Record body_cell := { text : string; italic : bool }.

Inductive rendered :=
| NoData (message : string)
| Table (thead : list header_cell) (tbody : list (list body_cell))
        (notice : option (list text_node)).

Definition defaultMaxRows : Z := 100.

Section Render.
(** [aVal < bVal] of the language, on arbitrary cell values. *)
Variable js_lt : value -> value -> bool.

Definition compareRows (st : SortState) (a b : list value) : Z :=
  match sortColumn st with
  | None => 0
  | Some c =>
      let aVal := index a c in
      let bVal := index b c in
      if is_null aVal then 1
      else if is_null bVal then -1
      else
        let comparison :=
          if js_lt aVal bVal then -1 else if js_lt bVal aVal then 1 else 0 in
        match sortDirection st with
        | asc => comparison
        | desc => - comparison
        end
  end.

Definition sortedRows (rows : list (list value)) (maxRows : Z) (st : SortState)
  : list (list value) :=
  slice0 (sort (compareRows st) rows) maxRows.

Definition render_cell (cell : value) : body_cell :=
  {| text := if is_null cell then "NULL" else to_string cell;
     italic := is_null cell |}.

Definition render_header (st : SortState) (i : nat) (col : string) : header_cell :=
  {| label := col;
     indicator := if bool_decide (sortColumn st = Some i)
                  then Some (sortDirection st) else None |}.

Definition DataTable (columns : list string) (rows : list (list value))
    (maxRows : Z) (st : SortState) : rendered :=
  if bool_decide (length columns = 0%nat) then NoData "No data to display"
  else
    Table (imap (render_header st) columns)
          (map (map render_cell) (sortedRows rows maxRows st))
          (if Z.of_nat (length rows) >? maxRows
           then Some [TText "Showing "; TNum maxRows; TText " of ";
                      TNum (Z.of_nat (length rows)); TText " rows"]
           else None).
End Render.

(** Number of [<tr>] elements in the table body. *)
Definition body_rows (r : rendered) : nat :=
  match r with
  | NoData _ => 0
  | Table _ tbody _ => length tbody
  end.

Definition notice_of (r : rendered) : option (list text_node) :=
  match r with
  | NoData _ => None
  | Table _ _ n => n
  end.

End DataTable.

(* ===================================================================== *)
(** * types/index.ts                                                      *)
(* ===================================================================== *)

Module Types.
Import Js.

Record User := { user_id : Z; user_email : string; user_created_at : string }.

Record Connection := {
  conn_id : Z;
  conn_name : string;
  conn_db_type : string;
  conn_host : option string;
  conn_port : option Z;
  conn_database_name : option string;
  conn_username : option string;
  conn_ssl_enabled : bool;
  conn_is_readonly : bool;
  conn_created_at : string;
  conn_last_used_at : option string
}.

Record ConnectionCreate := {
  name : string;
  db_type : string;
  host : option string;
  port : option Z;
  database_name : option string;
  username : option string;
  password : option string;
  ssl_enabled : option bool;
  is_readonly : option bool
}.

(** [Partial<ConnectionCreate>]: every field may be absent. *)
Record PartialConnectionCreate := {
  p_name : option string;
  p_db_type : option string;
  p_host : option string;
  p_port : option Z;
  p_database_name : option string;
  p_username : option string;
  p_password : option string;
  p_ssl_enabled : option bool;
  p_is_readonly : option bool
}.

(** A full descriptor used where a partial one is expected. *)
Definition as_partial (d : ConnectionCreate) : PartialConnectionCreate :=
  {| p_name := Some (name d); p_db_type := Some (db_type d);
     p_host := host d; p_port := port d;
     p_database_name := database_name d; p_username := username d;
     p_password := password d; p_ssl_enabled := ssl_enabled d;
     p_is_readonly := is_readonly d |}.

Record Column := {
  col_name : string;
  col_data_type : string;
  col_is_nullable : bool;
  col_is_primary_key : bool;
  col_foreign_key : option string
}.

Record Table := {
  tbl_name : string;
  tbl_columns : list Column;
  tbl_row_count : option Z
}.

Record Schema := { tables : list Table; cached_at : option string }.

Record QueryResult := {
  qr_columns : list string;
  qr_rows : list (list value);
  qr_row_count : Z;
  qr_execution_time_ms : Z
}.

Record AskResponse := {
  ask_sql : option string;
  ask_explanation : option string;
  ask_columns : option (list string);
  ask_rows : option (list (list value));
  ask_row_count : option Z;
  ask_execution_time_ms : option Z;
  ask_error : option string
}.

Record QueryHistory := {
  hist_id : Z;
  hist_connection_id : Z;
  natural_language_query : option string;
  generated_sql : option string;
  executed_at : string;
  hist_execution_time_ms : option Z;
  hist_row_count : option Z;
  hist_status : option string;
  error_message : option string;
  is_favorite : bool
}.

Record ChartSuggestion := {
  chart_type : string;
  chart_reason : string;
  chart_config : gmap string value
}.

(** The element type of [detectParameters]'s [parameters]; an absent
    [default] is [VUndefined]. *)
Record ParameterSpec := {
  param_name : string;
  param_label : string;
  param_type : string;
  param_description : option string;
  param_default : value;
  param_required : bool;
  param_options : option (list string)
}.

Record DetectResult := {
  needs_parameters : bool;
  parameters : list ParameterSpec;
  clarification : option string
}.

Record FeedbackData := {
  fb_connection_id : Z;
  fb_natural_language : string;
  fb_original_sql : string;
  fb_corrected_sql : string
}.

Record LoginResult := { access_token : string }.
Record TestResult := { test_success : bool; test_message : string }.
Record FavoriteResult := { fav_is_favorite : bool }.

(** The JSON body of a response with an error status, as the pages read
    it ([err.response.data]), for bodies whose [detail] is a string or
    absent. The body of a validation error (status 422), whose [detail]
    is a list, is outside this type. *)
Record ErrorBody := {
  err_sql : option string;
  err_explanation : option string;
  err_error : option string;
  err_detail : option string
}.

Definition empty_error_body : ErrorBody :=
  {| err_sql := None; err_explanation := None; err_error := None; err_detail := None |}.

End Types.

(* ===================================================================== *)
(** * lib/api: the shared axios client                                    *)
(* ===================================================================== *)

Module Api.
Import Js Types.

(** The browser globals the client reads and writes. *)
Record Browser := {
  localStorage : gmap string string;
  href : string
}.

Inductive method := GET | POST | PUT | DELETE.

(** One constructor per function of [authApi], [connectionsApi],
    [queryApi] and [vizApi], carrying that function's arguments. *)
Inductive call :=
| AuthLogin (email pwd : string)
| AuthLogout
| AuthMe
| ConnectionsList
| ConnectionsCreate (data : ConnectionCreate)
| ConnectionsUpdate (id : Z) (data : PartialConnectionCreate)
| ConnectionsDelete (id : Z)
| ConnectionsTest (id : Z)
| ConnectionsGetSchema (id : Z)
| ConnectionsRefreshSchema (id : Z)
| ConnectionsPreviewTable (connectionId : Z) (tableName : string)
| QueryGenerate (connectionId : Z) (naturalLanguage : string)
| QueryExecute (connectionId : Z) (sql : string)
| QueryAsk (connectionId : Z) (naturalLanguage : string) (autoExecute : bool)
           (params : option (gmap string value))
| QueryDetectParameters (connectionId : Z) (naturalLanguage : string)
| QueryHistoryList (connectionId : option Z) (limit : Z)
| QueryToggleFavorite (historyId : Z)
| QuerySuggestions (connectionId : Z)
| QuerySubmitFeedback (data : FeedbackData)
| VizSuggest (columns : list string) (sampleData : list (list value)).

(** What the function returns from [res.data] on success. *)
Definition response_of (c : call) : Type :=
  match c with
  | AuthLogin _ _ => LoginResult
  | AuthLogout => unit
  | AuthMe => User
  | ConnectionsList => list Connection
  | ConnectionsCreate _ => Connection
  | ConnectionsUpdate _ _ => Connection
  | ConnectionsDelete _ => unit
  | ConnectionsTest _ => TestResult
  | ConnectionsGetSchema _ => Schema
  | ConnectionsRefreshSchema _ => Schema
  | ConnectionsPreviewTable _ _ => value
  | QueryGenerate _ _ => AskResponse
  | QueryExecute _ _ => QueryResult
  | QueryAsk _ _ _ _ => AskResponse
  | QueryDetectParameters _ _ => DetectResult
  | QueryHistoryList _ _ => list QueryHistory
  | QueryToggleFavorite _ => FavoriteResult
  | QuerySuggestions _ => list string
  | QuerySubmitFeedback _ => unit
  | VizSuggest _ _ => list ChartSuggestion
  end.

Definition method_of (c : call) : method :=
  match c with
  | AuthLogin _ _ | AuthLogout => POST
  | AuthMe => GET
  | ConnectionsList => GET
  | ConnectionsCreate _ => POST
  | ConnectionsUpdate _ _ => PUT
  | ConnectionsDelete _ => DELETE
  | ConnectionsTest _ => POST
  | ConnectionsGetSchema _ => GET
  | ConnectionsRefreshSchema _ => POST
  | ConnectionsPreviewTable _ _ => GET
  | QueryGenerate _ _ | QueryExecute _ _ | QueryAsk _ _ _ _
  | QueryDetectParameters _ _ => POST
  | QueryHistoryList _ _ => GET
  | QueryToggleFavorite _ => PUT
  | QuerySuggestions _ => GET
  | QuerySubmitFeedback _ => POST
  | VizSuggest _ _ => POST
  end.

(** [if (connectionId)] on a [number | undefined]. *)
Definition truthy_id (o : option Z) : option Z :=
  match o with
  | Some n => if n =? 0 then None else Some n
  | None => None
  end.

Definition path_of (c : call) : string :=
  match c with
  | AuthLogin _ _ => "/auth/login"
  | AuthLogout => "/auth/logout"
  | AuthMe => "/auth/me"
  | ConnectionsList | ConnectionsCreate _ => "/connections"
  | ConnectionsUpdate id _ | ConnectionsDelete id => "/connections/" +:+ pretty id
  | ConnectionsTest id => "/connections/" +:+ pretty id +:+ "/test"
  | ConnectionsGetSchema id => "/connections/" +:+ pretty id +:+ "/schema"
  | ConnectionsRefreshSchema id => "/connections/" +:+ pretty id +:+ "/refresh-schema"
  | ConnectionsPreviewTable id t =>
      "/connections/" +:+ pretty id +:+ "/tables/" +:+ t +:+ "/preview"
  | QueryGenerate _ _ => "/query/generate"
  | QueryExecute _ _ => "/query/execute"
  | QueryAsk _ _ _ _ => "/query/ask"
  | QueryDetectParameters _ _ => "/query/detect-parameters"
  | QueryHistoryList connectionId limit =>
      "/query/history?" +:+
      match truthy_id connectionId with
      | Some n => "connection_id=" +:+ pretty n +:+ "&"
      | None => ""
      end +:+ "limit=" +:+ pretty limit
  | QueryToggleFavorite historyId => "/query/history/" +:+ pretty historyId +:+ "/favorite"
  | QuerySuggestions connectionId => "/query/suggestions?connection_id=" +:+ pretty connectionId
  | QuerySubmitFeedback _ => "/query/feedback"
  | VizSuggest _ _ => "/visualize/suggest"
  end.

Definition baseURL : string := "/api".

(** The request as it leaves the client. *)
Record Request := {
  req_method : method;
  req_url : string;
  req_headers : gmap string string;
  req_call : call
}.

Definition default_headers : gmap string string :=
  {[ "Content-Type" := "application/json" ]}.

(** [api.interceptors.request.use]: add the auth token to requests. *)
Definition request_interceptor (b : Browser) (config : Request) : Request :=
  match localStorage b !! "token" with
  | Some token =>
      if truthy_str token
      then {| req_method := req_method config; req_url := req_url config;
              req_headers := <["Authorization" := "Bearer " +:+ token]> (req_headers config);
              req_call := req_call config |}
      else config
  | None => config
  end.

(** How the server answers a request. [Failure] is a response whose
    status lies outside 2xx; [NoResponse] is a request that never got
    one. *)
Inductive reply (A : Type) :=
| Success (data : A)
| Failure (status : Z) (data : ErrorBody)
| NoResponse (message : string).
Arguments Success {A} data.
Arguments Failure {A} status data.
Arguments NoResponse {A} message.

(** The error object a rejected request throws. *)
Record AxiosError := {
  response : option (Z * ErrorBody);
  message : string
}.

Definition error_status (e : AxiosError) : option Z := fst <$> response e.
Definition error_data (e : AxiosError) : option ErrorBody := snd <$> response e.

(** [api.interceptors.response.use]: handle auth errors. The assignment
    to [href] starts a navigation to the login page, which replaces the
    document; the field records the assignment, and a handler that is
    running goes on with the cells of the page that is about to go. *)
Definition response_error_interceptor (error : AxiosError) (b : Browser) : Browser :=
  if bool_decide (error_status error = Some 401)
  then {| localStorage := delete "token" (localStorage b); href := "/login" |}
  else b.

(** A backend: its state and how it answers each call. *)
Record server (W : Type) := {
  respond : forall c : call, W -> reply (response_of c) * W
}.
Arguments respond {W} s c w.

(** What a handler runs against. *)
Record Env (W : Type) := {
  browser : Browser;
  backend : W;
  sent : list Request;
  console : list string
}.
Arguments browser {W} e.
Arguments backend {W} e.
Arguments sent {W} e.
Arguments console {W} e.

Inductive outcome (A : Type) :=
| Return (a : A)
| Throw (e : AxiosError).
Arguments Return {A} a.
Arguments Throw {A} e.

(** Handlers of a page with state [S], run against a backend [W]. *)
Definition M (W S A : Type) : Type := S -> Env W -> outcome A * S * Env W.

Definition ret {W S A} (a : A) : M W S A := fun s e => (Return a, s, e).

Definition bind {W S A B} (m : M W S A) (k : A -> M W S B) : M W S B :=
  fun s e =>
    match m s e with
    | (Return a, s', e') => k a s' e'
    | (Throw err, s', e') => (Throw err, s', e')
    end.

(** [try { m } catch (err) { h err }]. *)
Definition try_catch {W S A} (m : M W S A) (h : AxiosError -> M W S A) : M W S A :=
  fun s e =>
    match m s e with
    | (Return a, s', e') => (Return a, s', e')
    | (Throw err, s', e') => h err s' e'
    end.

(** [try { m } finally { f }]. *)
Definition finally {W S A} (m : M W S A) (f : M W S unit) : M W S A :=
  fun s e =>
    match m s e with
    | (r, s', e') =>
        match f s' e' with
        | (Return _, s'', e'') => (r, s'', e'')
        | (Throw err, s'', e'') => (Throw err, s'', e'')
        end
    end.

(** A state setter of the page. *)
Definition modify {W S} (f : S -> S) : M W S unit := fun s e => (Return tt, f s, e).

Definition console_error {W S} (msg : string) : M W S unit :=
  fun s e =>
    (Return tt, s,
     {| browser := browser e; backend := backend e; sent := sent e;
        console := console e ++ [msg] |}).

Definition succeeded {A} (r : reply A) : bool :=
  match r with Success _ => true | _ => false end.

(** The error a reply makes the call throw, if any. *)
Definition error_of_reply {A} (r : reply A) : option AxiosError :=
  match r with
  | Success _ => None
  | Failure status data =>
      Some {| response := Some (status, data);
              message := "Request failed with status code " +:+ pretty status |}
  | NoResponse msg => Some {| response := None; message := msg |}
  end.

(** Whether the function passes data to [api.post] or [api.put]. *)
Definition has_body (c : call) : bool :=
  match c with
  | AuthLogin _ _ => true
  | ConnectionsCreate _ | ConnectionsUpdate _ _ => true
  | QueryGenerate _ _ | QueryExecute _ _ | QueryAsk _ _ _ _
  | QueryDetectParameters _ _ => true
  | QuerySubmitFeedback _ => true
  | VizSuggest _ _ => true
  | _ => false
  end.

(** What axios does to a request after the request interceptors: a
    request without data goes out without a [Content-Type] header. *)
Definition dispatched (config : Request) : Request :=
  if has_body (req_call config) then config
  else {| req_method := req_method config; req_url := req_url config;
          req_headers := delete "Content-Type" (req_headers config);
          req_call := req_call config |}.

(** The request [api] sends for a call, given the browser it runs in. *)
Definition outgoing (b : Browser) (c : call) : Request :=
  dispatched
    (request_interceptor b
       {| req_method := method_of c; req_url := baseURL +:+ path_of c;
          req_headers := default_headers; req_call := c |}).

(** One request through [api]: the request interceptor, the exchange
    with the backend, then the response interceptors. *)
Definition request {W S} (srv : server W) (c : call) : M W S (response_of c) :=
  fun s e =>
    let config := outgoing (browser e) c in
    let '(r, w') := respond srv c (backend e) in
    match r with
    | Success data =>
        (Return data, s,
         {| browser := browser e; backend := w'; sent := sent e ++ [config];
            console := console e |})
    | Failure status data =>
        let err := {| response := Some (status, data);
                      message := "Request failed with status code " +:+ pretty status |} in
        (Throw err, s,
         {| browser := response_error_interceptor err (browser e); backend := w';
            sent := sent e ++ [config]; console := console e |})
    | NoResponse msg =>
        let err := {| response := None; message := msg |} in
        (Throw err, s,
         {| browser := response_error_interceptor err (browser e); backend := w';
            sent := sent e ++ [config]; console := console e |})
    end.

(** [localStorage.removeItem(key)]. *)
Definition removeItem {W S} (key : string) : M W S unit :=
  fun s e =>
    (Return tt, s,
     {| browser := {| localStorage := delete key (localStorage (browser e));
                      href := href (browser e) |};
        backend := backend e; sent := sent e; console := console e |}).

Declare Scope handler_scope.
Delimit Scope handler_scope with handler.
Notation "x <- m ;; k" := (bind m (fun x => k))
  (at level 100, m at next level, right associativity) : handler_scope.
Notation "m ;;; k" := (bind m (fun _ => k))
  (at level 100, right associativity) : handler_scope.

Section Client.
Context {W S : Type} (srv : server W).
Local Open Scope handler_scope.

Definition authApi_login (email pwd : string) : M W S LoginResult :=
  request srv (AuthLogin email pwd).

Definition authApi_logout : M W S unit :=
  request srv AuthLogout ;;; removeItem "token".

Definition connectionsApi_list : M W S (list Connection) :=
  request srv ConnectionsList.

Definition connectionsApi_create (data : ConnectionCreate) : M W S Connection :=
  request srv (ConnectionsCreate data).

Definition connectionsApi_update (id : Z) (data : PartialConnectionCreate)
  : M W S Connection :=
  request srv (ConnectionsUpdate id data).

Definition connectionsApi_delete (id : Z) : M W S unit :=
  request srv (ConnectionsDelete id).

Definition connectionsApi_test (id : Z) : M W S TestResult :=
  request srv (ConnectionsTest id).

Definition queryApi_generate (connectionId : Z) (naturalLanguage : string)
  : M W S AskResponse :=
  request srv (QueryGenerate connectionId naturalLanguage).

Definition queryApi_execute (connectionId : Z) (sql : string) : M W S QueryResult :=
  request srv (QueryExecute connectionId sql).

Definition queryApi_ask (connectionId : Z) (naturalLanguage : string)
    (autoExecute : bool) (params : option (gmap string value)) : M W S AskResponse :=
  request srv (QueryAsk connectionId naturalLanguage autoExecute params).

Definition queryApi_detectParameters (connectionId : Z) (naturalLanguage : string)
  : M W S DetectResult :=
  request srv (QueryDetectParameters connectionId naturalLanguage).

Definition queryApi_history (connectionId : option Z) (limit : Z)
  : M W S (list QueryHistory) :=
  request srv (QueryHistoryList connectionId limit).

Definition queryApi_toggleFavorite (historyId : Z) : M W S FavoriteResult :=
  request srv (QueryToggleFavorite historyId).

Definition queryApi_submitFeedback (data : FeedbackData) : M W S unit :=
  request srv (QuerySubmitFeedback data).

Definition vizApi_suggest (columns : list string) (sampleData : list (list value))
  : M W S (list ChartSuggestion) :=
  request srv (VizSuggest columns sampleData).

End Client.

(** The calls that ask the backend to generate SQL from a question. *)
Definition is_generation (c : call) : bool :=
  match c with
  | QueryGenerate _ _ | QueryAsk _ _ _ _ => true
  | _ => false
  end.

Definition is_execution (c : call) : bool :=
  match c with
  | QueryExecute _ _ => true
  | _ => false
  end.

Definition is_feedback (c : call) : bool :=
  match c with
  | QuerySubmitFeedback _ => true
  | _ => false
  end.

Definition calls {W} (e : Env W) : list call := req_call <$> sent e.

Definition initial_env {W} (b : Browser) (w : W) : Env W :=
  {| browser := b; backend := w; sent := []; console := [] |}.


(** The calls made between two environments of one run. *)
Definition new_calls {W} (e e' : Env W) : list call :=
  drop (length (calls e)) (calls e').

(** ** Reasoning about handlers *)

(** [wp m Q s e]: running [m] from page [s] in environment [e] ends in an
    outcome, a page and an environment that satisfy [Q]. *)
Definition wp {W S A} (m : M W S A) (Q : outcome A -> S -> Env W -> Prop)
    (s : S) (e : Env W) : Prop :=
  let '(o, s', e') := m s e in Q o s' e'.

(** What one request through the client does to the environment. *)
Definition exchanged {W} (srv : server W) (c : call) (e : Env W)
    (o : outcome (response_of c)) (e' : Env W) : Prop :=
  sent e' = sent e ++ [outgoing (browser e) c] /\
  console e' = console e /\
  backend e' = (respond srv c (backend e)).2 /\
  match (respond srv c (backend e)).1 with
  | Success data => o = Return data /\ browser e' = browser e
  | r => exists err, error_of_reply r = Some err /\ o = Throw err /\
                     browser e' = response_error_interceptor err (browser e)
  end.

End Api.

(* ===================================================================== *)
(** * Dates: [new Date().toISOString()]                                   *)
(* ===================================================================== *)

Module JsDate.

(** An instant, by its UTC calendar fields. *)
Record Date := {
  year : Z;
  month : Z;        (* 1..12 *)
  day : Z;          (* 1..31 *)
  hours : Z;
  minutes : Z;
  seconds : Z;
  milliseconds : Z
}.

Definition digit (n : Z) : ascii := ascii_of_N (Z.to_N (48 + n mod 10)).

Definition pad2 (n : Z) : string :=
  String (digit (n / 10)) (String (digit n) "").

Definition pad3 (n : Z) : string :=
  String (digit (n / 100)) (pad2 n).

Definition pad4 (n : Z) : string :=
  String (digit (n / 1000)) (pad3 n).

Definition pad6 (n : Z) : string :=
  String (digit (n / 100000)) (String (digit (n / 10000)) (pad4 n)).

(** Four digits for the years 0 to 9999, otherwise a sign and six digits. *)
Definition year_string (y : Z) : string :=
  if (0 <=? y) && (y <=? 9999) then pad4 y
  else if y <? 0 then String "-" (pad6 (- y))
  else String "+" (pad6 y).

Definition date_string (d : Date) : string :=
  year_string (year d) +:+ "-" +:+ pad2 (month d) +:+ "-" +:+ pad2 (day d).

Definition time_string (d : Date) : string :=
  pad2 (hours d) +:+ ":" +:+ pad2 (minutes d) +:+ ":" +:+ pad2 (seconds d)
  +:+ "." +:+ pad3 (milliseconds d) +:+ "Z".

Definition toISOString (d : Date) : string :=
  date_string d +:+ "T" +:+ time_string d.

(** [s.split(sep)[0]] for a one-character separator. *)
Fixpoint split_head (sep : ascii) (s : string) : string :=
  match s with
  | EmptyString => EmptyString
  | String c s' => if bool_decide (c = sep) then EmptyString else String c (split_head sep s')
  end.


End JsDate.

(* ===================================================================== *)
(** * pages/Query.tsx                                                     *)
(* ===================================================================== *)

Module QueryPage.
Import Js Types Api.
Local Open Scope handler_scope.

(** The [useState] cells the submit, parameter and edit handlers read or
    write. The schema sidebar, the copy indicator and the view mode have
    cells of their own, which these handlers leave alone. *)
Record Page := {
  selectedConnection : option Connection;
  query : string;
  loading : bool;
  result : option AskResponse;
  chartType : string;
  chartSuggestions : list ChartSuggestion;
  editableSql : string;
  isEditing : bool;
  detectedParams : list ParameterSpec;
  paramValues : gmap string value;
  showParamDialog : bool;
  pendingQuery : string
}.

Definition initial_page : Page :=
  {| selectedConnection := None; query := ""; loading := false; result := None;
     chartType := "bar"; chartSuggestions := [];
     editableSql := ""; isEditing := false;
     detectedParams := []; paramValues := ∅; showParamDialog := false;
     pendingQuery := "" |}.

Definition with_selectedConnection (c : option Connection) (s : Page) : Page :=
  {| selectedConnection := c; query := query s; loading := loading s;
     result := result s; chartType := chartType s;
     chartSuggestions := chartSuggestions s; editableSql := editableSql s;
     isEditing := isEditing s; detectedParams := detectedParams s;
     paramValues := paramValues s; showParamDialog := showParamDialog s;
     pendingQuery := pendingQuery s |}.

Definition with_query (q : string) (s : Page) : Page :=
  {| selectedConnection := selectedConnection s; query := q; loading := loading s;
     result := result s; chartType := chartType s;
     chartSuggestions := chartSuggestions s; editableSql := editableSql s;
     isEditing := isEditing s; detectedParams := detectedParams s;
     paramValues := paramValues s; showParamDialog := showParamDialog s;
     pendingQuery := pendingQuery s |}.

Definition with_loading (b : bool) (s : Page) : Page :=
  {| selectedConnection := selectedConnection s; query := query s; loading := b;
     result := result s; chartType := chartType s;
     chartSuggestions := chartSuggestions s; editableSql := editableSql s;
     isEditing := isEditing s; detectedParams := detectedParams s;
     paramValues := paramValues s; showParamDialog := showParamDialog s;
     pendingQuery := pendingQuery s |}.

Definition with_result (r : option AskResponse) (s : Page) : Page :=
  {| selectedConnection := selectedConnection s; query := query s; loading := loading s;
     result := r; chartType := chartType s;
     chartSuggestions := chartSuggestions s; editableSql := editableSql s;
     isEditing := isEditing s; detectedParams := detectedParams s;
     paramValues := paramValues s; showParamDialog := showParamDialog s;
     pendingQuery := pendingQuery s |}.

Definition with_chartType (t : string) (s : Page) : Page :=
  {| selectedConnection := selectedConnection s; query := query s; loading := loading s;
     result := result s; chartType := t;
     chartSuggestions := chartSuggestions s; editableSql := editableSql s;
     isEditing := isEditing s; detectedParams := detectedParams s;
     paramValues := paramValues s; showParamDialog := showParamDialog s;
     pendingQuery := pendingQuery s |}.

Definition with_chartSuggestions (l : list ChartSuggestion) (s : Page) : Page :=
  {| selectedConnection := selectedConnection s; query := query s; loading := loading s;
     result := result s; chartType := chartType s;
     chartSuggestions := l; editableSql := editableSql s;
     isEditing := isEditing s; detectedParams := detectedParams s;
     paramValues := paramValues s; showParamDialog := showParamDialog s;
     pendingQuery := pendingQuery s |}.

Definition with_editableSql (v : string) (s : Page) : Page :=
  {| selectedConnection := selectedConnection s; query := query s; loading := loading s;
     result := result s; chartType := chartType s;
     chartSuggestions := chartSuggestions s; editableSql := v;
     isEditing := isEditing s; detectedParams := detectedParams s;
     paramValues := paramValues s; showParamDialog := showParamDialog s;
     pendingQuery := pendingQuery s |}.

Definition with_isEditing (b : bool) (s : Page) : Page :=
  {| selectedConnection := selectedConnection s; query := query s; loading := loading s;
     result := result s; chartType := chartType s;
     chartSuggestions := chartSuggestions s; editableSql := editableSql s;
     isEditing := b; detectedParams := detectedParams s;
     paramValues := paramValues s; showParamDialog := showParamDialog s;
     pendingQuery := pendingQuery s |}.

Definition with_detectedParams (l : list ParameterSpec) (s : Page) : Page :=
  {| selectedConnection := selectedConnection s; query := query s; loading := loading s;
     result := result s; chartType := chartType s;
     chartSuggestions := chartSuggestions s; editableSql := editableSql s;
     isEditing := isEditing s; detectedParams := l;
     paramValues := paramValues s; showParamDialog := showParamDialog s;
     pendingQuery := pendingQuery s |}.

Definition with_paramValues (m : gmap string value) (s : Page) : Page :=
  {| selectedConnection := selectedConnection s; query := query s; loading := loading s;
     result := result s; chartType := chartType s;
     chartSuggestions := chartSuggestions s; editableSql := editableSql s;
     isEditing := isEditing s; detectedParams := detectedParams s;
     paramValues := m; showParamDialog := showParamDialog s;
     pendingQuery := pendingQuery s |}.

Definition with_showParamDialog (b : bool) (s : Page) : Page :=
  {| selectedConnection := selectedConnection s; query := query s; loading := loading s;
     result := result s; chartType := chartType s;
     chartSuggestions := chartSuggestions s; editableSql := editableSql s;
     isEditing := isEditing s; detectedParams := detectedParams s;
     paramValues := paramValues s; showParamDialog := b;
     pendingQuery := pendingQuery s |}.

Definition with_pendingQuery (q : string) (s : Page) : Page :=
  {| selectedConnection := selectedConnection s; query := query s; loading := loading s;
     result := result s; chartType := chartType s;
     chartSuggestions := chartSuggestions s; editableSql := editableSql s;
     isEditing := isEditing s; detectedParams := detectedParams s;
     paramValues := paramValues s; showParamDialog := showParamDialog s;
     pendingQuery := q |}.

(** [result?.sql]. *)
Definition result_sql (r : option AskResponse) : option string := r ≫= ask_sql.

(** The effect that syncs the editable SQL with the result,
    [useEffect(..., [result?.sql])]: it runs after a render in which
    [result?.sql] differs from its value at the previous render. *)
Definition sync_editable (previous : option string) (s : Page) : Page :=
  if bool_decide (result_sql (result s) = previous) then s
  else
    match result_sql (result s) with
    | Some sql =>
        if truthy_str sql then with_isEditing false (with_editableSql sql s) else s
    | None => s
    end.

Section Handlers.
Context {W : Type} (srv : server W).

Local Abbreviation H := (M W Page).

Definition setLoading (b : bool) : H unit := modify (with_loading b).
Definition setChartType (t : string) : H unit := modify (with_chartType t).
Definition setChartSuggestions (l : list ChartSuggestion) : H unit :=
  modify (with_chartSuggestions l).
Definition setEditableSql (v : string) : H unit := modify (with_editableSql v).
Definition setIsEditing (b : bool) : H unit := modify (with_isEditing b).
Definition setDetectedParams (l : list ParameterSpec) : H unit :=
  modify (with_detectedParams l).
Definition setParamValues (m : gmap string value) : H unit := modify (with_paramValues m).
Definition setShowParamDialog (b : bool) : H unit := modify (with_showParamDialog b).
Definition setPendingQuery (q : string) : H unit := modify (with_pendingQuery q).
Definition setSelectedConnection (c : option Connection) : H unit :=
  modify (with_selectedConnection c).

(** [setResult(prev => f prev)], followed by the sync effect of the
    render it causes. *)
Definition updateResult (f : option AskResponse -> option AskResponse) : H unit :=
  modify (fun s => sync_editable (result_sql (result s)) (with_result (f (result s)) s)).

Definition setResult (r : option AskResponse) : H unit := updateResult (fun _ => r).

(** The result both [catch] blocks of the question path build. *)
Definition error_result (err : AxiosError) : AskResponse :=
  let responseData := error_data err in
  {| ask_sql := Some (default "" (or_else (responseData ≫= err_sql) (Some "")));
     ask_explanation := Some (default "" (or_else (responseData ≫= err_explanation) (Some "")));
     ask_columns := None; ask_rows := None; ask_row_count := None;
     ask_execution_time_ms := None;
     ask_error :=
       or_else (responseData ≫= err_error)
         (or_else (responseData ≫= err_detail)
            (or_else (Some (message err)) (Some "Query failed"))) |}.

(** The body of [paramResult.parameters.forEach] that fills [defaults];
    [today] is [new Date().toISOString().split('T')[0]]. *)
Definition add_default (today : string) (defaults : gmap string value) (p : ParameterSpec)
  : gmap string value :=
  if negb (bool_decide (param_default p = VNull))
     && negb (bool_decide (param_default p = VUndefined))
  then assign defaults (param_name p) (param_default p)
  else if bool_decide (param_type p = "date")
  then assign defaults (param_name p) (VStr today)
  else defaults.

Definition default_values (now : JsDate.Date) (ps : list ParameterSpec) : gmap string value :=
  foldl (add_default (JsDate.split_head "T" (JsDate.toISOString now))) ∅ ps.

(** [executeWithParams]; [cl] holds the values its closure captured. *)
Definition executeWithParams (cl : Page) (naturalLanguage : string)
    (params : option (gmap string value)) : H unit :=
  match selectedConnection cl with
  | None => ret tt
  | Some conn =>
      setLoading true ;;;
      setShowParamDialog false ;;;
      finally
        (try_catch
           (response <- queryApi_ask srv (conn_id conn) naturalLanguage true params ;;
            setResult (Some response) ;;;
            match ask_columns response, ask_rows response with
            | Some columns, Some rows =>
                if (0 <? Z.of_nat (length rows))
                then
                  try_catch
                    (suggestions <- vizApi_suggest srv columns (slice0 rows 10) ;;
                     setChartSuggestions suggestions ;;;
                     match suggestions with
                     | first :: _ => setChartType (chart_type first)
                     | [] => ret tt
                     end)
                    (fun _ => ret tt)
                else ret tt
            | _, _ => ret tt
            end)
           (fun err => setResult (Some (error_result err))))
        (setLoading false)
  end.

(** What [handleSubmit] does with the detection result once it has
    arrived; [now] is the instant the defaults are computed at. *)
Definition on_detected (now : JsDate.Date) (cl : Page) (paramResult : DetectResult)
  : H unit :=
  if needs_parameters paramResult
     && (0 <? Z.of_nat (length (parameters paramResult)))
  then
    setDetectedParams (parameters paramResult) ;;;
    setParamValues (default_values now (parameters paramResult)) ;;;
    setPendingQuery (trim (query cl)) ;;;
    setShowParamDialog true ;;;
    setLoading false
  else
    executeWithParams cl (trim (query cl)) None.

(** [handleSubmit]; [cl] holds the values its closure captured. *)
Definition handleSubmit (now : JsDate.Date) (cl : Page) : H unit :=
  match selectedConnection cl with
  | None => ret tt
  | Some conn =>
      if negb (truthy_str (trim (query cl))) then ret tt
      else
        setLoading true ;;;
        setResult None ;;;
        setChartSuggestions [] ;;;
        setDetectedParams [] ;;;
        setShowParamDialog false ;;;
        try_catch
          (paramResult <- queryApi_detectParameters srv (conn_id conn) (trim (query cl)) ;;
           on_detected now cl paramResult)
          (fun err =>
             setResult (Some (error_result err)) ;;;
             setLoading false)
  end.

Definition handleParamSubmit (cl : Page) : H unit :=
  if truthy_str (pendingQuery cl)
  then executeWithParams cl (pendingQuery cl) (Some (paramValues cl))
  else ret tt.

(** [{ ...prev!, columns, rows, row_count, execution_time_ms, error: undefined }]. *)
Definition with_execution (execResult : QueryResult) (prev : option AskResponse)
  : AskResponse :=
  {| ask_sql := prev ≫= ask_sql;
     ask_explanation := prev ≫= ask_explanation;
     ask_columns := Some (qr_columns execResult);
     ask_rows := Some (qr_rows execResult);
     ask_row_count := Some (qr_row_count execResult);
     ask_execution_time_ms := Some (qr_execution_time_ms execResult);
     ask_error := None |}.

(** [{ ...prev!, error: msg }]. *)
Definition with_error (msg : option string) (prev : option AskResponse) : AskResponse :=
  {| ask_sql := prev ≫= ask_sql;
     ask_explanation := prev ≫= ask_explanation;
     ask_columns := prev ≫= ask_columns;
     ask_rows := prev ≫= ask_rows;
     ask_row_count := prev ≫= ask_row_count;
     ask_execution_time_ms := prev ≫= ask_execution_time_ms;
     ask_error := msg |}.

(** The object [handleRunModifiedSql] passes to [submitFeedback]. *)
Definition correction (conn : Connection) (cl : Page) (original_sql : string)
  : FeedbackData :=
  {| fb_connection_id := conn_id conn;
     fb_natural_language := query cl;
     fb_original_sql := original_sql;
     fb_corrected_sql := trim (editableSql cl) |}.

(** [handleRunModifiedSql]; [cl] holds the values its closure captured. *)
Definition handleRunModifiedSql (cl : Page) : H unit :=
  match selectedConnection cl with
  | None => ret tt
  | Some conn =>
      if negb (truthy_str (trim (editableSql cl))) then ret tt
      else
        setLoading true ;;;
        finally
          (try_catch
             (execResult <- queryApi_execute srv (conn_id conn) (trim (editableSql cl)) ;;
              updateResult (fun prev => Some (with_execution execResult prev)) ;;;
              match result_sql (result cl) with
              | Some original_sql =>
                  if isEditing cl && truthy_str original_sql
                  then
                    try_catch
                      (queryApi_submitFeedback srv (correction conn cl original_sql))
                      (fun feedbackErr => console_error "Failed to submit feedback:")
                  else ret tt
              | None => ret tt
              end ;;;
              setIsEditing false)
             (fun err =>
                updateResult (fun prev =>
                  Some (with_error
                          (or_else (error_data err ≫= err_detail)
                             (or_else (Some (message err)) (Some "Execution failed")))
                          prev))))
          (setLoading false)
  end.

(** The textarea's [onChange], with the [result] its render closed over. *)
Definition onChangeSql (r : AskResponse) (v : string) : H unit :=
  setEditableSql v ;;;
  setIsEditing (negb (bool_decide (Some v = ask_sql r))).

(** The Reset button's [onClick]. *)
Definition onResetSql (r : AskResponse) : H unit :=
  setEditableSql (default "" (or_else (ask_sql r) (Some ""))) ;;;
  setIsEditing false.

(** The Cancel button of the parameter dialog. *)
Definition onCancelParams : H unit :=
  setShowParamDialog false ;;;
  setDetectedParams [].

(** The parameter inputs' [onChange]. *)
Definition onChangeParam (name : string) (v : value) : H unit :=
  modify (fun s => with_paramValues (<[name := v]> (paramValues s)) s).

(** What [handleSelectConnection] does to the cells above. *)
Definition handleSelectConnection (conn : Connection) : H unit :=
  setSelectedConnection (Some conn) ;;;
  setResult None ;;;
  try_catch
    (_ <- request srv (ConnectionsGetSchema (conn_id conn)) ;;
     try_catch (_ <- request srv (QuerySuggestions (conn_id conn)) ;; ret tt)
               (fun _ => ret tt))
    (fun err => console_error "Failed to fetch schema:").

End Handlers.

(** ** What the page renders, as far as it enables the handlers *)

(** The SQL textarea is part of the error view when the result carries
    SQL, and always part of the success view. *)
Definition textarea_of (s : Page) : option AskResponse :=
  match selectedConnection s, result s with
  | Some _, Some r =>
      if truthy_opt (ask_error r)
      then (if truthy_opt (ask_sql r) then Some r else None)
      else Some r
  | _, _ => None
  end.

(** The "Run Modified SQL" and "Reset" buttons sit under the textarea
    while [isEditing] holds; Run is disabled while loading. *)
Definition edit_buttons_of (s : Page) : option AskResponse :=
  if isEditing s then textarea_of s else None.

Definition dialog_shown (s : Page) : bool :=
  showParamDialog s && (0 <? Z.of_nat (length (detectedParams s))).

(** [detectedParams.some(p => p.required && !paramValues[p.name])]. *)
Definition required_missing (s : Page) : bool :=
  existsb (fun p => param_required p
                    && negb (truthy (default VUndefined (paramValues s !! param_name p))))
          (detectedParams s).

(** What the user can do to the page. *)
Inductive event :=
| SelectConnection (conn : Connection)
| TypeQuery (q : string)
| Submit (now : JsDate.Date)
| ChangeParam (name : string) (v : value)
| SubmitParams
| CancelParams
| EditSql (v : string)
| ResetSql
| RunModifiedSql
| ChooseChartType (t : string).

(** What [isEditing] stands for: the text in the editor is not the SQL
    the result carries. *)
Definition edit_invariant (s : Page) : Prop :=
  isEditing s = true ->
  forall gen, result_sql (result s) = Some gen -> gen <> "" -> editableSql s <> gen.

Section Steps.
Context {W : Type} (srv : server W).

(** The handler an event runs on the rendered page [s], when the element
    that fires it is rendered and enabled. *)
Definition handler_of (ev : event) (s : Page) : option (M W Page unit) :=
  match ev with
  | SelectConnection conn => Some (handleSelectConnection srv conn)
  | TypeQuery q => Some (modify (with_query q))
  | Submit now => Some (handleSubmit srv now s)
  | ChangeParam name v =>
      if dialog_shown s then Some (onChangeParam name v) else None
  | SubmitParams =>
      if dialog_shown s && negb (loading s || required_missing s)
      then Some (handleParamSubmit srv s) else None
  | CancelParams =>
      if dialog_shown s then Some onCancelParams else None
  | EditSql v => (fun r => onChangeSql r v) <$> textarea_of s
  | ResetSql => onResetSql <$> edit_buttons_of s
  | RunModifiedSql =>
      if loading s then None
      else (fun _ => handleRunModifiedSql srv s) <$> edit_buttons_of s
  | ChooseChartType t => Some (setChartType t)
  end.


(** The page and environment after an event; an event whose element is
    not rendered changes nothing. *)
Definition perform (ev : event) (x : Page * Env W) : Page * Env W :=
  match handler_of ev x.1 with
  | Some h => let '(_, s', e') := h x.1 x.2 in (s', e')
  | None => x
  end.

End Steps.

End QueryPage.

(* ===================================================================== *)
(** * pages/History.tsx                                                   *)
(* ===================================================================== *)

Module HistoryPage.
Import Js Types Api.
Local Open Scope handler_scope.

(** The [useState] cell [toggleFavorite] reads and writes. *)
Record Page := { history : list QueryHistory }.

Definition with_is_favorite (b : bool) (h : QueryHistory) : QueryHistory :=
  {| hist_id := hist_id h; hist_connection_id := hist_connection_id h;
     natural_language_query := natural_language_query h;
     generated_sql := generated_sql h; executed_at := executed_at h;
     hist_execution_time_ms := hist_execution_time_ms h;
     hist_row_count := hist_row_count h; hist_status := hist_status h;
     error_message := error_message h; is_favorite := b |}.

Section Handlers.
Context {W : Type} (srv : server W).

(** [toggleFavorite]; [cl] holds the [history] its closure captured. *)
Definition toggleFavorite (cl : Page) (id : Z) : M W Page unit :=
  try_catch
    (result <- queryApi_toggleFavorite srv id ;;
     modify (fun _ =>
       {| history :=
            map (fun h => if bool_decide (hist_id h = id)
                          then with_is_favorite (fav_is_favorite result) h else h)
                (history cl) |}))
    (fun err => console_error "Failed to toggle favorite:").

End Handlers.

(** The favorite flag the page shows for entry [id]. *)
Definition shown_favorite (p : Page) (id : Z) : option bool :=
  is_favorite <$> head (filter (fun h => hist_id h = id) (history p)).

End HistoryPage.

(* ===================================================================== *)
(** * The connections page ([ConnectionsPage])                            *)
(* ===================================================================== *)

Module ConnectionsPage.
Import Js Types Api.
Local Open Scope handler_scope.

Record Page := {
  connections : list Connection;
  loading : bool;
  showModal : bool;
  editingConnection : option Connection;
  formData : ConnectionCreate
}.

Definition empty_form : ConnectionCreate :=
  {| name := ""; db_type := "postgres"; host := Some ""; port := Some 5432;
     database_name := Some ""; username := Some ""; password := Some "";
     ssl_enabled := Some false; is_readonly := Some true |}.

(** [conn.port || undefined]. *)
Definition truthy_port (o : option Z) : option Z :=
  match o with
  | Some n => if n =? 0 then None else Some n
  | None => None
  end.

(** The form [handleEdit] opens for [conn]. *)
Definition edit_form (conn : Connection) : ConnectionCreate :=
  {| name := conn_name conn;
     db_type := conn_db_type conn;
     host := or_else (conn_host conn) (Some "");
     port := truthy_port (conn_port conn);
     database_name := or_else (conn_database_name conn) (Some "");
     username := or_else (conn_username conn) (Some "");
     password := Some "";
     ssl_enabled := Some (conn_ssl_enabled conn);
     is_readonly := Some (conn_is_readonly conn) |}.

Section Handlers.
Context {W : Type} (srv : server W).

Local Abbreviation H := (M W Page).

Definition setConnections (l : list Connection) : H unit :=
  modify (fun s => {| connections := l; loading := loading s; showModal := showModal s;
                      editingConnection := editingConnection s; formData := formData s |}).
Definition setLoading (b : bool) : H unit :=
  modify (fun s => {| connections := connections s; loading := b; showModal := showModal s;
                      editingConnection := editingConnection s; formData := formData s |}).
Definition setShowModal (b : bool) : H unit :=
  modify (fun s => {| connections := connections s; loading := loading s; showModal := b;
                      editingConnection := editingConnection s; formData := formData s |}).
Definition setEditingConnection (c : option Connection) : H unit :=
  modify (fun s => {| connections := connections s; loading := loading s;
                      showModal := showModal s;
                      editingConnection := c; formData := formData s |}).
Definition setFormData (d : ConnectionCreate) : H unit :=
  modify (fun s => {| connections := connections s; loading := loading s;
                      showModal := showModal s;
                      editingConnection := editingConnection s; formData := d |}).

Definition fetchConnections : H unit :=
  finally
    (try_catch
       (data <- connectionsApi_list srv ;; setConnections data)
       (fun err => console_error "Failed to fetch connections:"))
    (setLoading false).

Definition resetForm : H unit := setFormData empty_form.

Definition handleEdit (conn : Connection) : H unit :=
  setEditingConnection (Some conn) ;;;
  setFormData (edit_form conn) ;;;
  setShowModal true.

(** [handleSubmit]; [cl] holds the values its closure captured. *)
Definition handleSubmit (cl : Page) : H unit :=
  try_catch
    (match editingConnection cl with
     | Some editing =>
         _ <- connectionsApi_update srv (conn_id editing) (as_partial (formData cl)) ;; ret tt
     | None =>
         _ <- connectionsApi_create srv (formData cl) ;; ret tt
     end ;;;
     setShowModal false ;;;
     setEditingConnection None ;;;
     resetForm ;;;
     fetchConnections)
    (fun err => console_error "Failed to save connection:").

End Handlers.

End ConnectionsPage.

(* ===================================================================== *)
(** * The backend contract (sections 4.1, 4.5, 4.6 and 4.7)               *)
(* ===================================================================== *)

Module SafetyValidator.

(** Modelled from the spec: the two safety rejections of sections 4.5 and
    7 (the validator is not part of the client sources). *)
Inductive rejection := ReadOnlyViolation | MultiStatementRejected.

#[global] Instance rejection_eq_dec : EqDecision rejection.
Proof. solve_decision. Defined.

(** Modelled from the spec: the two ends of the validator's state machine
    [parse -> classify -> {ALLOW, REJECT}] (validator not in the client
    sources). *)
Inductive verdict := ALLOW | REJECT (reason : rejection).

#[global] Instance verdict_eq_dec : EqDecision verdict.
Proof. solve_decision. Defined.

Definition is_upper (c : ascii) : bool :=
  let n := nat_of_ascii c in (Nat.leb 65 n && Nat.leb n 90)%nat.

Definition is_lower (c : ascii) : bool :=
  let n := nat_of_ascii c in (Nat.leb 97 n && Nat.leb n 122)%nat.

Definition is_digit (c : ascii) : bool :=
  let n := nat_of_ascii c in (Nat.leb 48 n && Nat.leb n 57)%nat.

(** The characters a keyword or identifier is made of. *)
Definition is_word (c : ascii) : bool :=
  is_upper c || is_lower c || is_digit c || bool_decide (c = "_"%char).

Definition upper (c : ascii) : ascii :=
  if is_lower c then ascii_of_nat (nat_of_ascii c - 32) else c.

Fixpoint uppercase (s : string) : string :=
  match s with
  | EmptyString => EmptyString
  | String c s' => String (upper c) (uppercase s')
  end.

(** The longest prefix made of word characters. *)
Fixpoint word_prefix (s : string) : string :=
  match s with
  | EmptyString => EmptyString
  | String c s' => if is_word c then String c (word_prefix s') else EmptyString
  end.

(** Modelled from the spec: the validator's parse step, which is not part
    of the client sources. The leading operation of a statement is its
    first word, after any leading whitespace. *)
Definition leading_keyword (sql : string) : string :=
  word_prefix (Js.trim_start sql).

(** Modelled from the spec: the enumeration {SELECT, WITH, EXPLAIN} of
    section 4.5, which the validator (not part of the client sources)
    compares the leading operation with. *)
Definition read_operations : list string := ["SELECT"; "WITH"; "EXPLAIN"].

(** Modelled from the spec: the case-insensitive comparison of the
    leading operation with the enumeration (validator not in the client
    sources). *)
Definition is_read_operation (sql : string) : bool :=
  bool_decide (uppercase (leading_keyword sql) ∈ read_operations).

(** Where the terminator scan stands: in plain text, or inside a quoted
    literal opened by the given quote character. *)
Inductive scan_state := Plain | Quoted (q : ascii) | Terminated.

(** Modelled from the spec: the statement-terminator scan of section 4.5
    (validator not in the client sources). A terminator outside quoted
    text followed by anything but whitespace starts a second top-level
    statement; a doubled quote inside a literal closes and reopens it. *)
Fixpoint second_statement (st : scan_state) (s : string) : bool :=
  match s with
  | EmptyString => false
  | String c s' =>
      match st with
      | Plain =>
          if bool_decide (c = ";"%char) then second_statement Terminated s'
          else if bool_decide (c = "'"%char) || bool_decide (c = ascii_of_nat 34)
          then second_statement (Quoted c) s'
          else second_statement Plain s'
      | Quoted q =>
          if bool_decide (c = q) then second_statement Plain s'
          else second_statement (Quoted q) s'
      | Terminated =>
          if Ascii.is_space c || bool_decide (c = ";"%char)
          then second_statement Terminated s'
          else true
      end
  end.

(** Modelled from the spec: the classification of section 4.5 (validator
    not in the client sources). The checks apply in the order the section
    states them: the leading operation under the read-only policy first,
    then the scan for a second statement. *)
Definition validate (is_readonly : bool) (sql : string) : verdict :=
  if is_readonly && negb (is_read_operation sql) then REJECT ReadOnlyViolation
  else if second_statement Plain sql then REJECT MultiStatementRejected
  else ALLOW.

Fixpoint all_chars (p : ascii -> bool) (s : string) : bool :=
  match s with
  | EmptyString => true
  | String c s' => p c && all_chars p s'
  end.

Definition starts_with (p : ascii -> bool) (s : string) : bool :=
  match s with
  | EmptyString => false
  | String c _ => p c
  end.

(** Modelled from the spec: what "the statement's leading operation" of
    section 4.5 refers to (validator not in the client sources): [kw] is
    the leading keyword of [sql] when [sql] is whitespace, then [kw], then
    text that does not continue the word. *)
Definition leading_word (sql kw : string) : Prop :=
  exists blanks rest,
    sql = blanks +:+ kw +:+ rest /\
    all_chars Ascii.is_space blanks = true /\
    starts_with Ascii.is_space (kw +:+ rest) = false /\
    all_chars is_word kw = true /\
    starts_with is_word rest = false.

(** Modelled from the spec: "compared case-insensitively" (section 4.5). *)
Definition same_keyword (a b : string) : Prop := uppercase a = uppercase b.

End SafetyValidator.

Module Backend.
Import Js Types SafetyValidator.

(** Modelled from the spec: the fixed enumeration of engine kinds of
    section 3 (the registry is not part of the client sources). *)
Inductive engine_kind := postgres | mysql | sqlite | mssql.

#[global] Instance engine_kind_eq_dec : EqDecision engine_kind.
Proof. solve_decision. Defined.

Definition engine_of (db_type : string) : option engine_kind :=
  if bool_decide (db_type = "postgres") then Some postgres
  else if bool_decide (db_type = "mysql") then Some mysql
  else if bool_decide (db_type = "sqlite") then Some sqlite
  else if bool_decide (db_type = "mssql") then Some mssql
  else None.

Definition engine_name (k : engine_kind) : string :=
  match k with
  | postgres => "postgres" | mysql => "mysql" | sqlite => "sqlite" | mssql => "mssql"
  end.

(** Modelled from the spec: the stored form of a Connection (section 3),
    kept by the Connection Registry, which is not part of the client
    sources. [st_secret] is the credential as encrypted at rest. *)
Record Stored := {
  st_id : Z;
  st_name : string;
  st_kind : engine_kind;
  st_host : option string;
  st_port : option Z;
  st_database : option string;
  st_username : option string;
  st_secret : option string;
  st_ssl : bool;
  st_readonly : bool;
  st_created_at : string;
  st_last_used_at : option string
}.

(** Modelled from the spec: the error taxonomy of section 7 (the backend
    is not part of the client sources). *)
Inductive error :=
| NotFound
| ValidationError (field : string)
| ConnectivityError (diagnostic : string)
| GenerationError
| Rejected (reason : rejection)
| ExecutionError (msg : string)
| Timeout
| PoolExhausted.

(** Modelled from the spec: the status of a HistoryEntry (section 3:
    success, error or timeout). *)
Inductive status := success | failed | timeout.

(** Modelled from the spec: the HistoryEntry of section 3 (the Audit
    Recorder is not part of the client sources), without its clock
    fields. *)
Record HistoryEntry := {
  he_connection : Z;
  he_question : option string;
  he_sql : option string;
  he_row_count : option Z;
  he_status : status;
  he_error : option error;
  he_favorite : bool
}.

(** Modelled from the spec: the state the backend keeps (section 3); the
    backend is not part of the client sources. [engine_calls] lists the
    statements handed to the Execution Engine, oldest first. *)
Record State := {
  stored : gmap Z Stored;
  next_connection : Z;
  entries : gmap Z HistoryEntry;
  next_entry : Z;
  engine_calls : list (Z * string)
}.

Definition empty_state : State :=
  {| stored := ∅; next_connection := 1; entries := ∅; next_entry := 1;
     engine_calls := [] |}.

Definition with_stored (m : gmap Z Stored) (st : State) : State :=
  {| stored := m; next_connection := next_connection st; entries := entries st;
     next_entry := next_entry st; engine_calls := engine_calls st |}.

Definition with_entries (m : gmap Z HistoryEntry) (st : State) : State :=
  {| stored := stored st; next_connection := next_connection st; entries := m;
     next_entry := next_entry st; engine_calls := engine_calls st |}.

(** Modelled from the spec: the connection as it is returned, with the
    credential redacted (section 4.1): the client's [Connection] has no
    field for it. *)
Definition redact (c : Stored) : Connection :=
  {| conn_id := st_id c; conn_name := st_name c; conn_db_type := engine_name (st_kind c);
     conn_host := st_host c; conn_port := st_port c;
     conn_database_name := st_database c; conn_username := st_username c;
     conn_ssl_enabled := st_ssl c; conn_is_readonly := st_readonly c;
     conn_created_at := st_created_at c; conn_last_used_at := st_last_used_at c |}.

(** Modelled from the spec: the target a stored connection points to,
    which [test] of section 4.1 connects to. *)
Definition target_of (c : Stored)
  : engine_kind * option string * option Z * option string * option string * bool :=
  (st_kind c, st_host c, st_port c, st_database c, st_username c, st_ssl c).

(** Modelled from the spec: the credential an update descriptor supplies
    (section 4.1; the registry is not part of the client sources): the
    content of its password field, and none when the field is omitted. *)
Definition new_credential (d : PartialConnectionCreate) : option string :=
  p_password d.

(** Modelled from the spec: the required fields per engine kind of
    section 4.1 (registry not in the client sources); the result names a
    missing field. *)
Definition missing_field (k : engine_kind) (d : ConnectionCreate) : option string :=
  match k with
  | sqlite => if truthy_opt (database_name d) then None else Some "database_name"
  | _ =>
      if negb (truthy_opt (host d)) then Some "host"
      else if negb (bool_decide (is_Some (port d))) then Some "port"
      else if negb (truthy_opt (username d)) then Some "username"
      else if negb (truthy_opt (password d)) then Some "password"
      else None
  end.

Section Registry.
(** How credentials are encrypted at rest, and whether the target
    database accepts a round trip with the decrypted credential. *)
Variable encrypt : string -> string.
Variable decrypt : string -> string.
Variable connects :
  engine_kind * option string * option Z * option string * option string * bool ->
  option string -> TestResult.

(** Modelled from the spec: [register] of section 4.1 (registry not in the
    client sources). *)
Definition register (now : string) (d : ConnectionCreate) (st : State)
  : error + (State * Connection) :=
  match engine_of (db_type d) with
  | None => inl (ValidationError "db_type")
  | Some k =>
      match missing_field k d with
      | Some f => inl (ValidationError f)
      | None =>
          let c :=
            {| st_id := next_connection st; st_name := name d; st_kind := k;
               st_host := host d; st_port := port d;
               st_database := database_name d; st_username := username d;
               st_secret := encrypt <$> new_credential (as_partial d);
               st_ssl := default false (ssl_enabled d);
               st_readonly := default true (is_readonly d);
               st_created_at := now; st_last_used_at := None |} in
          inr ({| stored := <[next_connection st := c]> (stored st);
                  next_connection := next_connection st + 1;
                  entries := entries st; next_entry := next_entry st;
                  engine_calls := engine_calls st |},
               redact c)
      end
  end.

(** Modelled from the spec: the effect of [update] of section 4.1 on the
    stored connection (registry not in the client sources): supplied
    fields replace the stored ones, and the credential is encrypted anew
    only when one is supplied. *)
Definition apply_update (k : engine_kind) (d : PartialConnectionCreate) (c : Stored)
  : Stored :=
  {| st_id := st_id c;
     st_name := default (st_name c) (p_name d);
     st_kind := k;
     st_host := match p_host d with Some h => Some h | None => st_host c end;
     st_port := match p_port d with Some n => Some n | None => st_port c end;
     st_database :=
       match p_database_name d with Some n => Some n | None => st_database c end;
     st_username :=
       match p_username d with Some u => Some u | None => st_username c end;
     st_secret :=
       match new_credential d with
       | Some p => Some (encrypt p)
       | None => st_secret c
       end;
     st_ssl := default (st_ssl c) (p_ssl_enabled d);
     st_readonly := default (st_readonly c) (p_is_readonly d);
     st_created_at := st_created_at c;
     st_last_used_at := st_last_used_at c |}.

(** Modelled from the spec: [update] of section 4.1 (registry not in the
    client sources). *)
Definition update (id : Z) (d : PartialConnectionCreate) (st : State)
  : error + (State * Connection) :=
  match stored st !! id with
  | None => inl NotFound
  | Some c =>
      match p_db_type d with
      | Some t =>
          match engine_of t with
          | Some k =>
              let c' := apply_update k d c in
              inr (with_stored (<[id := c']> (stored st)) st, redact c')
          | None => inl (ValidationError "db_type")
          end
      | None =>
          let c' := apply_update (st_kind c) d c in
          inr (with_stored (<[id := c']> (stored st)) st, redact c')
      end
  end.

(** Modelled from the spec: [test] of section 4.1 (registry not in the
    client sources): a round trip to the target with the decrypted
    credential; the state is left as it is. *)
Definition test (id : Z) (st : State) : error + TestResult :=
  match stored st !! id with
  | None => inl NotFound
  | Some c => inr (connects (target_of c) (decrypt <$> st_secret c))
  end.

End Registry.

(** Modelled from the spec: the three outcomes of the Execution Engine
    (section 4.6), which is not part of the client sources. *)
Inductive execution :=
| Executed (r : QueryResult)
| TimedOut
| Errored (msg : string).

(** Modelled from the spec: [record] of section 4.7 (the Audit Recorder
    is not part of the client sources): append the attempt to the
    history. *)
Definition record (h : HistoryEntry) (st : State) : State :=
  {| stored := stored st; next_connection := next_connection st;
     entries := <[next_entry st := h]> (entries st);
     next_entry := next_entry st + 1; engine_calls := engine_calls st |}.

(** Modelled from the spec: the count of Execution Engine invocations
    that section 8 observes through a spy; here, the list of what the
    engine was handed. *)
Definition spy (id : Z) (sql : string) (st : State) : State :=
  {| stored := stored st; next_connection := next_connection st;
     entries := entries st; next_entry := next_entry st;
     engine_calls := engine_calls st ++ [(id, sql)] |}.

Section Pipeline.
(** The Execution Engine and the generation model, as the capability
    boundaries of section 9. *)
Variable engine : Stored -> string -> execution.
Variable generator : Stored -> string -> option (gmap string value) -> option (string * string).

(** Modelled from the spec: steps 4.5 to 4.7 of the pipeline for one
    candidate statement (the pipeline is not part of the client
    sources): validate, execute only what was allowed, record the
    attempt whatever its outcome. *)
Definition run_statement (c : Stored) (question : option string) (sql : string)
    (st : State) : State * (error + QueryResult) :=
  match validate (st_readonly c) sql with
  | REJECT reason =>
      (record {| he_connection := st_id c; he_question := question; he_sql := Some sql;
                 he_row_count := None; he_status := failed;
                 he_error := Some (Rejected reason); he_favorite := false |} st,
       inl (Rejected reason))
  | ALLOW =>
      let st1 := spy (st_id c) sql st in
      match engine c sql with
      | Executed r =>
          (record {| he_connection := st_id c; he_question := question;
                     he_sql := Some sql; he_row_count := Some (qr_row_count r);
                     he_status := success; he_error := None; he_favorite := false |} st1,
           inr r)
      | TimedOut =>
          (record {| he_connection := st_id c; he_question := question;
                     he_sql := Some sql; he_row_count := None;
                     he_status := timeout; he_error := Some Timeout;
                     he_favorite := false |} st1,
           inl Timeout)
      | Errored msg =>
          (record {| he_connection := st_id c; he_question := question;
                     he_sql := Some sql; he_row_count := None;
                     he_status := failed; he_error := Some (ExecutionError msg);
                     he_favorite := false |} st1,
           inl (ExecutionError msg))
      end
  end.

(** Modelled from the spec: [execute] for SQL the user submits (section
    6, POST /query/execute; the endpoint is not part of the client
    sources). *)
Definition execute (id : Z) (sql : string) (st : State)
  : State * (error + QueryResult) :=
  match stored st !! id with
  | None => (st, inl NotFound)
  | Some c => run_statement c None sql st
  end.

(** Modelled from the spec: the question path (section 6, POST
    /query/ask with [auto_execute]; the endpoint is not part of the
    client sources): generate, then the same steps on the generated
    statement. *)
Definition ask (id : Z) (question : string) (params : option (gmap string value))
    (st : State) : State * (error + (string * string * QueryResult)) :=
  match stored st !! id with
  | None => (st, inl NotFound)
  | Some c =>
      match generator c question params with
      | None =>
          (record {| he_connection := st_id c; he_question := Some question;
                     he_sql := None; he_row_count := None; he_status := failed;
                     he_error := Some GenerationError; he_favorite := false |} st,
           inl GenerationError)
      | Some (sql, explanation) =>
          match run_statement c (Some question) sql st with
          | (st', inl e) => (st', inl e)
          | (st', inr r) => (st', inr (sql, explanation, r))
          end
      end
  end.

End Pipeline.

(** Modelled from the spec: the flip of the favorite flag, the only
    mutable field of a HistoryEntry (section 3). *)
Definition flip (h : HistoryEntry) : HistoryEntry :=
  {| he_connection := he_connection h; he_question := he_question h;
     he_sql := he_sql h; he_row_count := he_row_count h; he_status := he_status h;
     he_error := he_error h; he_favorite := negb (he_favorite h) |}.

(** Modelled from the spec: [toggleFavorite] of section 4.7 (the Audit
    Recorder is not part of the client sources): flip the flag and return
    its new state. *)
Definition toggleFavorite (historyId : Z) (st : State) : State * (error + bool) :=
  match entries st !! historyId with
  | None => (st, inl NotFound)
  | Some h =>
      (with_entries (<[historyId := flip h]> (entries st)) st,
       inr (negb (he_favorite h)))
  end.

End Backend.

(* ===================================================================== *)
(** * The backend behind the API client                                   *)
(* ===================================================================== *)

Module Deployment.
Import Js Types Api.

Section Serve.
Variable encrypt : string -> string.
Variable decrypt : string -> string.
Variable connects :
  Backend.engine_kind * option string * option Z * option string * option string * bool ->
  option string -> TestResult.
Variable engine : Backend.Stored -> string -> Backend.execution.
(** The status code and the [detail] text an error is reported with. *)
Variable status_of : Backend.error -> Z.
Variable detail_of : Backend.error -> string.
(** The instant the backend stamps new connections with. *)
Variable now : string.
(** The endpoints that play no part here. *)
Variable others : server Backend.State.

Definition failure {A} (e : Backend.error) : reply A :=
  Failure (status_of e)
    {| err_sql := None; err_explanation := None; err_error := None;
       err_detail := Some (detail_of e) |}.

(** Modelled from the spec: the endpoints of section 6 in front of the
    operations of sections 4.1, 4.6 and 4.7 (the routes are not part of
    the client sources). *)
Definition respond_backend (c : call) : Backend.State -> reply (response_of c) * Backend.State :=
  match c as c0 return Backend.State -> reply (response_of c0) * Backend.State with
  | ConnectionsCreate data => fun w =>
      match Backend.register encrypt now data w with
      | inr (w', conn) => (Success conn, w')
      | inl e => (failure e, w)
      end
  | ConnectionsUpdate id data => fun w =>
      match Backend.update encrypt id data w with
      | inr (w', conn) => (Success conn, w')
      | inl e => (failure e, w)
      end
  | ConnectionsTest id => fun w =>
      match Backend.test decrypt connects id w with
      | inr r => (Success r, w)
      | inl e => (failure e, w)
      end
  | QueryExecute connectionId sql => fun w =>
      match Backend.execute engine connectionId sql w with
      | (w', inr r) => (Success r, w')
      | (w', inl e) => (failure e, w')
      end
  | QueryToggleFavorite historyId => fun w =>
      match Backend.toggleFavorite historyId w with
      | (w', inr b) => (Success {| fav_is_favorite := b |}, w')
      | (w', inl e) => (failure e, w')
      end
  | c0 => respond others c0
  end.

Definition backend_server : server Backend.State := {| respond := respond_backend |}.

End Serve.

(** A backend for the remaining endpoints that answers nothing. *)
Definition silent {W} : server W :=
  {| respond := fun c w => (NoResponse "Network Error", w) |}.

End Deployment.

(* ===================================================================== *)
(** * A small world to run the pages in                                   *)
(* ===================================================================== *)

Module Demo.
Import Js Types Api.

Definition orders_db : Connection :=
  {| conn_id := 1; conn_name := "orders"; conn_db_type := "sqlite";
     conn_host := None; conn_port := None;
     conn_database_name := Some "/tmp/t.db"; conn_username := None;
     conn_ssl_enabled := false; conn_is_readonly := true;
     conn_created_at := "2026-01-01T00:00:00Z"; conn_last_used_at := None |}.

Definition count_result : QueryResult :=
  {| qr_columns := ["count"]; qr_rows := [[VNum 3]]; qr_row_count := 1;
     qr_execution_time_ms := 4 |}.

Definition count_answer : AskResponse :=
  {| ask_sql := Some "SELECT COUNT(*) FROM orders";
     ask_explanation := Some "Counts the orders.";
     ask_columns := Some ["count"]; ask_rows := Some [[VNum 3]];
     ask_row_count := Some 1; ask_execution_time_ms := Some 4;
     ask_error := None |}.

Definition since_param : ParameterSpec :=
  {| param_name := "since"; param_label := "Since"; param_type := "date";
     param_description := None; param_default := VUndefined;
     param_required := true; param_options := None |}.

Definition limit_param : ParameterSpec :=
  {| param_name := "limit"; param_label := "Limit"; param_type := "number";
     param_description := None; param_default := VNum 10;
     param_required := false; param_options := None |}.

(** A backend without state that answers detection as told, generates
    and runs the count query, and accepts feedback. *)
Definition scripted (detection : reply DetectResult) : server unit :=
  {| respond := fun c =>
       match c as c0 return unit -> reply (response_of c0) * unit with
       | QueryDetectParameters _ _ => fun w => (detection, w)
       | QueryAsk _ _ _ _ => fun w => (Success count_answer, w)
       | QueryExecute _ _ => fun w => (Success count_result, w)
       | QuerySubmitFeedback _ => fun w => (Success tt, w)
       | VizSuggest _ _ => fun w => (Success [], w)
       | _ => fun w => (NoResponse "Network Error", w)
       end |}.

Definition no_parameters : DetectResult :=
  {| needs_parameters := false; parameters := []; clarification := None |}.

Definition nothing_to_collect : DetectResult :=
  {| needs_parameters := true; parameters := []; clarification := None |}.

Definition two_parameters : DetectResult :=
  {| needs_parameters := true; parameters := [since_param; limit_param];
     clarification := None |}.

Definition noon : JsDate.Date :=
  {| JsDate.year := 2026; JsDate.month := 11; JsDate.day := 2; JsDate.hours := 12;
     JsDate.minutes := 0; JsDate.seconds := 0; JsDate.milliseconds := 0 |}.

Definition logged_in : Browser :=
  {| localStorage := {[ "token" := "abc" ]}; href := "/query" |}.

(** The query page with a connection selected and a question typed. *)
Definition asking (q : string) : QueryPage.Page :=
  QueryPage.with_query q
    (QueryPage.with_selectedConnection (Some orders_db) QueryPage.initial_page).

(** The query page after the count query came back and the user changed
    the text in the editor. *)
Definition edited_page : QueryPage.Page :=
  QueryPage.with_isEditing true
    (QueryPage.with_editableSql "SELECT COUNT(*) FROM orders WHERE amount > 10 "
       (QueryPage.with_result (Some count_answer) (asking "how many orders are there"))).

(** A session on the query page: select the connection, type a
    question and submit it; the count query comes back. *)
Definition answered_session : QueryPage.Page * Env unit :=
  QueryPage.perform (scripted (Success no_parameters)) (QueryPage.Submit noon)
    (QueryPage.perform (scripted (Success no_parameters))
       (QueryPage.TypeQuery "how many orders are there")
       (QueryPage.perform (scripted (Success no_parameters))
          (QueryPage.SelectConnection orders_db)
          (QueryPage.initial_page, initial_env logged_in tt))).

(** The same session, continued: the user changes the SQL that came
    back. *)
Definition edited_session : QueryPage.Page * Env unit :=
  QueryPage.perform (scripted (Success no_parameters))
    (QueryPage.EditSql "SELECT COUNT(*) FROM orders WHERE amount > 10 ")
    answered_session.

(** The same session with the change taken back by hand. *)
Definition reverted_session : QueryPage.Page * Env unit :=
  QueryPage.perform (scripted (Success no_parameters))
    (QueryPage.EditSql "SELECT COUNT(*) FROM orders") edited_session.

(** A backend with one read-only connection to the orders database; its
    engine answers every statement it is handed with the count. *)
Definition orders_descriptor : ConnectionCreate :=
  {| name := "orders"; db_type := "sqlite"; host := None; port := None;
     database_name := Some "/tmp/t.db"; username := None; password := None;
     ssl_enabled := None; is_readonly := Some true |}.

Definition counting_engine (c : Backend.Stored) (sql : string) : Backend.execution :=
  Backend.Executed count_result.

Definition error_detail (e : Backend.error) : string :=
  match e with
  | Backend.NotFound => "NotFound"
  | Backend.ValidationError f => "ValidationError: " +:+ f
  | Backend.ConnectivityError d => "ConnectivityError: " +:+ d
  | Backend.GenerationError => "GenerationError"
  | Backend.Rejected SafetyValidator.ReadOnlyViolation => "ReadOnlyViolation"
  | Backend.Rejected SafetyValidator.MultiStatementRejected => "MultiStatementRejected"
  | Backend.ExecutionError m => m
  | Backend.Timeout => "Timeout"
  | Backend.PoolExhausted => "PoolExhausted"
  end.

Definition error_status (e : Backend.error) : Z :=
  match e with
  | Backend.NotFound => 404
  | _ => 400
  end.

(** A cipher to run the registry with: the credential, reversed. *)
Definition reversing : string -> string := String.rev.

Definition always_reachable
    (target : Backend.engine_kind * option string * option Z * option string
              * option string * bool)
    (credential : option string) : TestResult :=
  {| test_success := true; test_message := "Connection successful" |}.

Definition registered : Backend.State :=
  match Backend.register reversing "2026-01-01T00:00:00Z" orders_descriptor
          Backend.empty_state with
  | inr (st, _) => st
  | inl _ => Backend.empty_state
  end.

Definition deployed : server Backend.State :=
  Deployment.backend_server reversing reversing always_reachable counting_engine
    error_status error_detail "2026-01-01T00:00:00Z" Deployment.silent.

(** A networked connection with a password, and a target that lets in
    whoever presents that password. *)
Definition warehouse_descriptor : ConnectionCreate :=
  {| name := "warehouse"; db_type := "postgres"; host := Some "db.internal";
     port := Some 5432; database_name := Some "warehouse"; username := Some "reader";
     password := Some "s3cret"; ssl_enabled := Some true; is_readonly := Some true |}.

Definition password_checked
    (target : Backend.engine_kind * option string * option Z * option string
              * option string * bool)
    (credential : option string) : TestResult :=
  if bool_decide (credential = Some "s3cret")
  then {| test_success := true; test_message := "Connection successful" |}
  else {| test_success := false; test_message := "password authentication failed" |}.

Definition guarded : server Backend.State :=
  Deployment.backend_server reversing reversing password_checked counting_engine
    error_status error_detail "2026-01-01T00:00:00Z" Deployment.silent.

Definition warehouse_registered : Backend.State :=
  match Backend.register reversing "2026-01-01T00:00:00Z" warehouse_descriptor
          Backend.empty_state with
  | inr (st, _) => st
  | inl _ => Backend.empty_state
  end.

(** What the client is shown of the warehouse connection. *)
Definition warehouse : Connection :=
  {| conn_id := 1; conn_name := "warehouse"; conn_db_type := "postgres";
     conn_host := Some "db.internal"; conn_port := Some 5432;
     conn_database_name := Some "warehouse"; conn_username := Some "reader";
     conn_ssl_enabled := true; conn_is_readonly := true;
     conn_created_at := "2026-01-01T00:00:00Z"; conn_last_used_at := None |}.

(** The connections page with the warehouse connection listed. *)
Definition listing : ConnectionsPage.Page :=
  {| ConnectionsPage.connections := [warehouse];
     ConnectionsPage.loading := false; ConnectionsPage.showModal := false;
     ConnectionsPage.editingConnection := None;
     ConnectionsPage.formData := ConnectionsPage.empty_form |}.

(** The backend after the count query ran once on the orders database:
    its history holds one entry. *)
Definition with_history : Backend.State :=
  (Backend.execute counting_engine 1 "SELECT COUNT(*) FROM orders" registered).1.

Definition history_entry : QueryHistory :=
  {| hist_id := 1; hist_connection_id := 1; natural_language_query := None;
     generated_sql := Some "SELECT COUNT(*) FROM orders";
     executed_at := "2026-01-01T00:00:00Z"; hist_execution_time_ms := Some 4;
     hist_row_count := Some 1; hist_status := Some "success";
     error_message := None; is_favorite := false |}.

End Demo.

(* ===================================================================== *)
(** * components/DataTable.tsx: the order of the rows shown               *)
(* ===================================================================== *)

Module TableOrder.
Import Js.

(** Every element stands in [R] to all the elements after it. *)
Fixpoint ordered {A} (R : A -> A -> Prop) (l : list A) : Prop :=
  match l with
  | [] => True
  | x :: l' => Forall (R x) l' /\ ordered R l'
  end.

(** The order a click on a column of numbers asks for. *)
Definition in_order (c : nat) (d : DataTable.direction) (a b : list value) : Prop :=
  match index a c, index b c with
  | VNum x, VNum y =>
      match d with DataTable.asc => x <= y | DataTable.desc => y <= x end
  | _, _ => False
  end.

End TableOrder.

(* ===================================================================== *)
(** * More of the language and of the browser                             *)
(* ===================================================================== *)

Module Runtime.
Import Js Types Api.

(** [a || b] where [b] is a string. *)
Definition or_str (a : option string) (b : string) : string :=
  match a with
  | Some s => if truthy_str s then s else b
  | None => b
  end.

(** [localStorage.setItem(key, value)]. *)
Definition setItem {W S} (key value : string) : M W S unit :=
  fun s e =>
    (Return tt, s,
     {| browser := {| localStorage := <[key := value]> (localStorage (browser e));
                      href := href (browser e) |};
        backend := backend e; sent := sent e; console := console e |}).

(** An action of a store, run by a component that holds the store among
    its cells. *)
Definition zoom {W S T A} (get : T -> S) (put : S -> T -> T) (m : M W S A) : M W T A :=
  fun t e => let '(o, s', e') := m (get t) e in (o, put s' t, e').

(** What the response interceptor does to the browser for a reply. *)
Definition intercepted {A} (r : reply A) (b : Browser) : Browser :=
  match error_of_reply r with
  | Some err => response_error_interceptor err b
  | None => b
  end.

(** How a call settles on a reply. *)
Definition settle {A} (r : reply A) : outcome A :=
  match r with
  | Success data => Return data
  | Failure status data =>
      Throw {| response := Some (status, data);
               message := "Request failed with status code " +:+ pretty status |}
  | NoResponse msg => Throw {| response := None; message := msg |}
  end.

(** [await Promise.all([f1(), f2()])] for two calls of the client. Both
    calls are started before either response arrives, so both requests
    are built from the browser as it is at the start. The backend answers
    them in the order they were sent; when a call fails the whole
    [await] throws, with the error of the first call in the list that
    failed. *)
Definition all2 {W S} (srv : server W) (c1 c2 : call)
  : M W S (response_of c1 * response_of c2) :=
  fun s e =>
    let config1 := outgoing (browser e) c1 in
    let config2 := outgoing (browser e) c2 in
    let '(r1, w1) := respond srv c1 (backend e) in
    let '(r2, w2) := respond srv c2 w1 in
    let e' := {| browser := intercepted r2 (intercepted r1 (browser e));
                 backend := w2;
                 sent := sent e ++ [config1; config2];
                 console := console e |} in
    match settle r1, settle r2 with
    | Return d1, Return d2 => (Return (d1, d2), s, e')
    | Throw err, _ => (Throw err, s, e')
    | Return _, Throw err => (Throw err, s, e')
    end.

Definition authApi_me {W S} (srv : server W) : M W S User := request srv AuthMe.

End Runtime.

(* ===================================================================== *)
(** * lib/store.ts                                                        *)
(* ===================================================================== *)

Module Store.
Import Js Types Api Runtime.
Local Open Scope handler_scope.

(** The data of [useAuthStore]. *)
Record AuthState := { user : option User; token : option string }.

(** The auth store as [create] builds it when the bundle is loaded. *)
Definition useAuthStore (b : Browser) : AuthState :=
  {| user := None; token := localStorage b !! "token" |}.

Definition setAuth {W} (u : User) (t : string) : M W AuthState unit :=
  setItem "token" t ;;;
  modify (fun _ => {| user := Some u; token := Some t |}).

Definition clearAuth {W} : M W AuthState unit :=
  removeItem "token" ;;;
  modify (fun _ => {| user := None; token := None |}).

(** The data of [useAppStore]. *)
Record AppState := { darkMode : bool; selectedConnection : option Connection }.

(** The app store as [create] builds it, given [localStorage]. *)
Definition useAppStore (storage : gmap string string) : AppState :=
  {| darkMode := bool_decide (storage !! "darkMode" = Some "true");
     selectedConnection := None |}.

(** [classList.toggle(name, force)]. *)
Definition classList_toggle (classList : gset string) (name : string) (force : bool)
  : gset string :=
  if force then {[ name ]} ∪ classList else classList ∖ {[ name ]}.

(** [toggleDarkMode], on the store, [localStorage] and the class list of
    the document element. *)
Definition toggleDarkMode (state : AppState) (storage : gmap string string)
    (classList : gset string) : AppState * gmap string string * gset string :=
  let newMode := negb (darkMode state) in
  ({| darkMode := newMode; selectedConnection := selectedConnection state |},
   <["darkMode" := to_string (VBool newMode)]> storage,
   classList_toggle classList "dark" newMode).

End Store.

(* ===================================================================== *)
(** * The login page ([LoginPage])                                        *)
(* ===================================================================== *)

Module LoginPage.
Import Js Types Api Runtime Store.
Local Open Scope handler_scope.

(** The [useState] cells of the page, the auth store it uses and the
    location [navigate] sets. *)
Record Page := {
  email : string;
  password : string;
  showPassword : bool;
  loading : bool;
  error : string;
  auth : AuthState;
  pathname : string
}.

Definition with_loading (b : bool) (s : Page) : Page :=
  {| email := email s; password := password s; showPassword := showPassword s;
     loading := b; error := error s; auth := auth s; pathname := pathname s |}.

Definition with_error (msg : string) (s : Page) : Page :=
  {| email := email s; password := password s; showPassword := showPassword s;
     loading := loading s; error := msg; auth := auth s; pathname := pathname s |}.

Definition with_auth (a : AuthState) (s : Page) : Page :=
  {| email := email s; password := password s; showPassword := showPassword s;
     loading := loading s; error := error s; auth := a; pathname := pathname s |}.

Definition with_pathname (p : string) (s : Page) : Page :=
  {| email := email s; password := password s; showPassword := showPassword s;
     loading := loading s; error := error s; auth := auth s; pathname := p |}.

Section Handlers.
Context {W : Type} (srv : server W).

Local Abbreviation H := (M W Page).

Definition setLoading (b : bool) : H unit := modify (with_loading b).
Definition setError (msg : string) : H unit := modify (with_error msg).
Definition navigate (p : string) : H unit := modify (with_pathname p).

(** [handleSubmit]; [cl] holds the values its closure captured. *)
Definition handleSubmit (cl : Page) : H unit :=
  setError "" ;;;
  setLoading true ;;;
  finally
    (try_catch
       (res <- authApi_login srv (email cl) (password cl) ;;
        setItem "token" (access_token res) ;;;
        user <- authApi_me srv ;;
        zoom auth with_auth (setAuth user (access_token res)) ;;;
        navigate "/")
       (fun err => setError (or_str (error_data err ≫= err_detail) "Login failed")))
    (setLoading false).

End Handlers.

End LoginPage.

(* ===================================================================== *)
(** * components/Layout.tsx                                               *)
(* ===================================================================== *)

Module Layout.
Import Js Types Api Runtime Store.
Local Open Scope handler_scope.

(** The cell of the layout, the auth store it uses and the location
    [navigate] sets. *)
Record Shell := {
  sidebarOpen : bool;
  auth : AuthState;
  pathname : string
}.

Definition with_auth (a : AuthState) (s : Shell) : Shell :=
  {| sidebarOpen := sidebarOpen s; auth := a; pathname := pathname s |}.

Definition with_pathname (p : string) (s : Shell) : Shell :=
  {| sidebarOpen := sidebarOpen s; auth := auth s; pathname := p |}.

Section Handlers.
Context {W : Type} (srv : server W).

Definition navigate (p : string) : M W Shell unit := modify (with_pathname p).

Definition handleLogout : M W Shell unit :=
  finally
    (authApi_logout srv)
    (zoom auth with_auth clearAuth ;;;
     navigate "/login").

End Handlers.

End Layout.

(* ===================================================================== *)
(** * App.tsx: the token check on mount                                   *)
(* ===================================================================== *)

Module App.
Import Js Types Api Runtime Store.
Local Open Scope handler_scope.

Section Handlers.
Context {W : Type} (srv : server W).

(** The effect that validates the token on mount; [cl] is the auth store
    as the first render read it. *)
Definition validateToken (cl : AuthState) : M W AuthState unit :=
  match token cl with
  | Some t =>
      if truthy_str t
      then try_catch
             (user <- authApi_me srv ;; setAuth user t)
             (fun _ => clearAuth)
      else ret tt
  | None => ret tt
  end.

End Handlers.

End App.

(* ===================================================================== *)
(** * pages/Dashboard.tsx                                                 *)
(* ===================================================================== *)

Module Dashboard.
Import Js Types Api Runtime.
Local Open Scope handler_scope.

Record Page := {
  connections : list Connection;
  recentQueries : list QueryHistory;
  loading : bool
}.

Definition initial_page : Page :=
  {| connections := []; recentQueries := []; loading := true |}.

Section Handlers.
Context {W : Type} (srv : server W).

Definition setConnections (l : list Connection) : M W Page unit :=
  modify (fun s => {| connections := l; recentQueries := recentQueries s;
                      loading := loading s |}).
Definition setRecentQueries (l : list QueryHistory) : M W Page unit :=
  modify (fun s => {| connections := connections s; recentQueries := l;
                      loading := loading s |}).
Definition setLoading (b : bool) : M W Page unit :=
  modify (fun s => {| connections := connections s; recentQueries := recentQueries s;
                      loading := b |}).

Definition fetchData : M W Page unit :=
  finally
    (try_catch
       (both <- all2 srv ConnectionsList (QueryHistoryList None 5) ;;
        setConnections both.1 ;;;
        setRecentQueries both.2)
       (fun err => console_error "Failed to fetch dashboard data:"))
    (setLoading false).

End Handlers.

End Dashboard.

(* ===================================================================== *)
(** * pages/History.tsx: what the list shows                              *)
(* ===================================================================== *)

Module HistoryView.
Import Js Types Api Runtime.

Record Filter := {
  connectionId : option Z;
  onlyFavorites : bool;
  status : option string
}.

Definition initial_filter : Filter :=
  {| connectionId := None; onlyFavorites := false; status := None |}.

(** The callback of [history.filter]. *)
Definition shown (filter : Filter) (h : QueryHistory) : bool :=
  if match truthy_id (connectionId filter) with
     | Some n => negb (hist_connection_id h =? n)
     | None => false
     end
  then false
  else if onlyFavorites filter && negb (is_favorite h) then false
  else if match status filter with
          | Some st => truthy_str st && negb (bool_decide (hist_status h = Some st))
          | None => false
          end
  then false
  else true.

Definition filteredHistory (filter : Filter) (history : list QueryHistory)
  : list QueryHistory :=
  List.filter (shown filter) history.

(** The Favorites button's [onClick]. *)
Definition toggleOnlyFavorites (filter : Filter) : Filter :=
  {| connectionId := connectionId filter;
     onlyFavorites := negb (onlyFavorites filter);
     status := status filter |}.


End HistoryView.

(* ===================================================================== *)
(** * The connections page: type change, delete and test                  *)
(* ===================================================================== *)

Module ConnectionsActions.
Import Js Types Api Runtime ConnectionsPage.
Local Open Scope handler_scope.

Record DbType := { value : string; label : string; defaultPort : option Z }.

Definition DB_TYPES : list DbType :=
  [ {| value := "postgres"; label := "PostgreSQL"; defaultPort := Some 5432 |};
    {| value := "mysql"; label := "MySQL"; defaultPort := Some 3306 |};
    {| value := "sqlite"; label := "SQLite"; defaultPort := None |};
    {| value := "mssql"; label := "SQL Server"; defaultPort := Some 1433 |} ].

(** The form [handleDbTypeChange] sets; [formData] is the form its
    closure captured. *)
Definition retyped (formData : ConnectionCreate) (dbType : string) : ConnectionCreate :=
  let type := List.find (fun t => bool_decide (value t = dbType)) DB_TYPES in
  {| name := name formData;
     db_type := dbType;
     host := host formData;
     port := truthy_port (type ≫= defaultPort);
     database_name := database_name formData;
     username := username formData;
     password := password formData;
     ssl_enabled := ssl_enabled formData;
     is_readonly := is_readonly formData |}.

(** The request [handleSubmit] saves the form with. *)
Definition save_call (cl : Page) : call :=
  match editingConnection cl with
  | Some editing => ConnectionsUpdate (conn_id editing) (as_partial (formData cl))
  | None => ConnectionsCreate (formData cl)
  end.

(** The cells [handleTest] reads and writes. *)
Record Tests := {
  testResults : gmap Z TestResult;
  testing : option Z
}.

Section Handlers.
Context {W : Type} (srv : server W).

Definition handleDbTypeChange (cl : Page) (dbType : string) : M W Page unit :=
  setFormData (retyped (formData cl) dbType).

(** [handleDelete]; [confirmed] is the answer to [confirm]. *)
Definition handleDelete (confirmed : bool) (id : Z) : M W Page unit :=
  if negb confirmed then ret tt
  else
    try_catch
      (connectionsApi_delete srv id ;;;
       fetchConnections srv)
      (fun err => console_error "Failed to delete connection:").

Definition setTestResults (m : gmap Z TestResult) : M W Tests unit :=
  modify (fun s => {| testResults := m; testing := testing s |}).
Definition setTesting (t : option Z) : M W Tests unit :=
  modify (fun s => {| testResults := testResults s; testing := t |}).

(** [handleTest]; [cl] holds the [testResults] its closure captured. *)
Definition handleTest (cl : Tests) (id : Z) : M W Tests unit :=
  setTesting (Some id) ;;;
  finally
    (try_catch
       (result <- connectionsApi_test srv id ;;
        setTestResults (<[id := result]> (testResults cl)))
       (fun err =>
          setTestResults
            (<[id := {| test_success := false;
                        test_message := or_str (error_data err ≫= err_detail)
                                               "Test failed" |}]>
               (testResults cl))))
    (setTesting None).

End Handlers.

End ConnectionsActions.

(* ===================================================================== *)
(** * pages/Query.tsx: the schema tree and the chart data                 *)
(* ===================================================================== *)

Module QueryView.
Import Js Types Api.

(** [toggleTable], from the set its closure captured to the set it
    stores. *)
Definition toggleTable (expandedTables : gset string) (tableName : string) : gset string :=
  if bool_decide (tableName ∈ expandedTables)
  then expandedTables ∖ {[ tableName ]}
  else expandedTables ∪ {[ tableName ]}.

(** [columns.forEach((col, i) => { obj[col] = row[i] })], from index [i]
    on. *)
Fixpoint assign_columns (i : nat) (columns : list string) (row : list value)
    (obj : gmap string value) : gmap string value :=
  match columns with
  | [] => obj
  | col :: columns' => assign_columns (S i) columns' row (assign obj col (index row i))
  end.

Definition chartData (result : option AskResponse) : list (gmap string value) :=
  match result with
  | Some r =>
      match ask_columns r, ask_rows r with
      | Some columns, Some rows => map (fun row => assign_columns 0 columns row ∅) rows
      | _, _ => []
      end
  | None => []
  end.

End QueryView.

(* ===================================================================== *)
(** * More backends to run the pages against                              *)
(* ===================================================================== *)

Module Cases.
Import Js Types Api.

(** A backend without state that answers every call as [f] says. *)
Definition answering (f : forall c : call, reply (response_of c)) : server unit :=
  {| respond := fun c w => (f c, w) |}.

Definition offline : server unit :=
  answering (fun c => NoResponse "Network Error").

Definition failing (status : Z) (detail : option string) : server unit :=
  answering (fun c =>
    Failure status {| err_sql := None; err_explanation := None; err_error := None;
                      err_detail := detail |}).

Definition alice : User :=
  {| user_id := 7; user_email := "alice@example.com";
     user_created_at := "2026-01-01T00:00:00Z" |}.

(** A backend that lets Alice in and then goes quiet. *)
Definition letting_in (profile : reply User) : server unit :=
  answering (fun c =>
    match c as c0 return reply (response_of c0) with
    | AuthLogin _ _ => Success {| access_token := "t0k3n" |}
    | AuthMe => profile
    | AuthLogout => Success tt
    | _ => NoResponse "Network Error"
    end).

(** A backend that accepts every change to the connections and always
    lists the warehouse connection. *)
Definition keeping : server unit :=
  answering (fun c =>
    match c as c0 return reply (response_of c0) with
    | ConnectionsList => Success [Demo.warehouse]
    | ConnectionsCreate _ => Success Demo.warehouse
    | ConnectionsUpdate _ _ => Success Demo.warehouse
    | ConnectionsDelete _ => Success tt
    | ConnectionsTest _ =>
        Success {| test_success := true; test_message := "Connection successful" |}
    | _ => NoResponse "Network Error"
    end).

(** The login page with Alice's address and a password typed, showing
    [shown] as its error. *)
Definition signing_in (pwd shown : string) : LoginPage.Page :=
  {| LoginPage.email := "alice@example.com"; LoginPage.password := pwd;
     LoginPage.showPassword := false; LoginPage.loading := false;
     LoginPage.error := shown;
     LoginPage.auth := {| Store.user := None; Store.token := None |};
     LoginPage.pathname := "/login" |}.

End Cases.

(** * Part II: properties *)

(* ===================================================================== *)
(** * Properties of the data table                                        *)
(* ===================================================================== *)

Module DataTableFacts.
Import Js DataTable.

Lemma sort_insert_perm {A} (cmp : A -> A -> Z) x l :
  Permutation (sort_insert cmp x l) (x :: l).
Proof.
  induction l as [|y l IH]; simpl; [reflexivity|].
  destruct (cmp x y <=? 0); [reflexivity|].
  rewrite IH. apply perm_swap.
Qed.

Lemma sort_perm {A} (cmp : A -> A -> Z) l : Permutation (sort cmp l) l.
Proof.
  induction l as [|x l IH]; simpl; [reflexivity|].
  unfold sort in *. simpl. rewrite sort_insert_perm. by constructor.
Qed.

Lemma sort_length {A} (cmp : A -> A -> Z) l : length (sort cmp l) = length l.
Proof. apply Permutation_length, sort_perm. Qed.

Lemma slice0_length {A} (xs : list A) (n : nat) :
  length (slice0 xs (Z.of_nat n)) = Nat.min (length xs) n.
Proof.
  unfold slice0. rewrite length_take.
  destruct (Z.of_nat n <? 0) eqn:E; [lia|].
  lia.
Qed.

(** The rows shown are the first rows of a rearrangement of all rows. *)
Lemma sortedRows_prefix js_lt rows (n : nat) st :
  exists shuffled,
    Permutation shuffled rows /\
    sortedRows js_lt rows (Z.of_nat n) st = take (Nat.min (length rows) n) shuffled.
Proof.
  exists (sort (compareRows js_lt st) rows). split; [apply sort_perm|].
  unfold sortedRows, slice0. f_equal. rewrite sort_length.
  destruct (Z.of_nat n <? 0) eqn:E; lia.
Qed.

(** C10, as the code has it: for every non-empty column list, every row
    list, every sort state and every row cap [maxRows] that is a natural
    number, the table renders exactly [min(rows.length, maxRows)] body
    rows, shows the notice "Showing maxRows of rows.length rows" when
    [rows.length] exceeds [maxRows], and shows no notice otherwise. For
    an empty column list it renders only the placeholder "No data to
    display": no body row and no notice, whatever the rows, the sort
    state and the cap. *)
Theorem DataTable_body_rows_and_notice
    (js_lt : value -> value -> bool) (columns : list string)
    (rows : list (list value)) (maxRows : nat) (st : SortState) :
  match columns with
  | [] =>
      forall cap : Z,
        let view := DataTable js_lt columns rows cap st in
        view = NoData "No data to display" /\
        body_rows view = 0%nat /\
        notice_of view = None
  | _ :: _ =>
      let view := DataTable js_lt columns rows (Z.of_nat maxRows) st in
      body_rows view = Nat.min (length rows) maxRows /\
      notice_of view =
        (if decide (maxRows < length rows)%nat
         then Some [TText "Showing "; TNum (Z.of_nat maxRows); TText " of ";
                    TNum (Z.of_nat (length rows)); TText " rows"]
         else None)
  end.
Proof.
  destruct columns as [|col columns]; [done|].
  intros view. subst view. unfold DataTable.
  rewrite bool_decide_eq_false_2 by (simpl; lia).
  simpl. split.
  - rewrite length_map. unfold sortedRows.
    rewrite slice0_length, sort_length. done.
  - destruct (decide (maxRows < length rows)%nat) as [Hlt|Hge].
    + rewrite (proj2 (Z.gtb_gt _ _)) by lia. done.
    + destruct (Z.of_nat (length rows) >? Z.of_nat maxRows) eqn:E; [|done].
      apply Z.gtb_gt in E. lia.
Qed.

(** Both cases on concrete tables: three rows under two columns with a
    cap of two, and the same rows under no column. *)
Lemma DataTable_body_rows_and_notice_witness :
  (let view :=
     DataTable lt_same_type ["id"; "amount"]
       [[VNum 3; VNum 10]; [VNum 1; VNull]; [VNum 2; VNum 7]] (Z.of_nat 2)
       {| sortColumn := Some 0%nat; sortDirection := asc |} in
   body_rows view = Nat.min 3 2 /\
   notice_of view =
     Some [TText "Showing "; TNum 2; TText " of "; TNum 3; TText " rows"]) /\
  (forall cap : Z,
     let view :=
       DataTable lt_same_type []
         [[VNum 3; VNum 10]; [VNum 1; VNull]; [VNum 2; VNum 7]] cap
         {| sortColumn := Some 0%nat; sortDirection := asc |} in
     view = NoData "No data to display" /\
     body_rows view = 0%nat /\
     notice_of view = None).
Proof.
  split.
  - exact (DataTable_body_rows_and_notice lt_same_type ["id"; "amount"]
             [[VNum 3; VNum 10]; [VNum 1; VNull]; [VNum 2; VNum 7]] 2
             {| sortColumn := Some 0%nat; sortDirection := asc |}).
  - exact (DataTable_body_rows_and_notice lt_same_type []
             [[VNum 3; VNum 10]; [VNum 1; VNull]; [VNum 2; VNum 7]] 2
             {| sortColumn := Some 0%nat; sortDirection := asc |}).
Defined.

(** C10 as stated fails for an empty column list: the component returns
    the "No data to display" placeholder before it renders any row, so a
    table of one row and no column shows 0 body rows where
    [min(rows.length, maxRows)] is 1. *)
Lemma DataTable_no_columns_counterexample :
  DataTable lt_same_type [] [[VNum 1]] defaultMaxRows initial
    = NoData "No data to display" /\
  body_rows (DataTable lt_same_type [] [[VNum 1]] defaultMaxRows initial) = 0%nat /\
  Nat.min (length [[VNum 1]]) (Z.to_nat defaultMaxRows) = 1%nat.
Proof. done. Qed.

(** A sorted view: ascending on the first column. *)
Example DataTable_sorted_example :
  sortedRows lt_same_type
    [[VNum 3]; [VNum 1]; [VNum 2]] defaultMaxRows
    {| sortColumn := Some 0%nat; sortDirection := asc |}
  = [[VNum 1]; [VNum 2]; [VNum 3]].
Proof. reflexivity. Qed.

(** A negative cap counts from the end, as [slice] does. *)
Example slice0_negative_example : slice0 [1; 2; 3] (-1) = [1; 2].
Proof. reflexivity. Qed.

End DataTableFacts.

(* ===================================================================== *)
(** * Properties of the API client                                        *)
(* ===================================================================== *)

Module ApiFacts.
Import Js Types Api.

Lemma outgoing_call b c : req_call (outgoing b c) = c.
Proof.
  unfold outgoing, dispatched, request_interceptor.
  destruct (localStorage b !! "token") as [t|]; [destruct (truthy_str t)|];
    simpl; by destruct (has_body c).
Qed.

Lemma outgoing_authorization b c :
  req_headers (outgoing b c) !! "Authorization" =
    match localStorage b !! "token" with
    | Some t => if truthy_str t then Some ("Bearer " +:+ t) else None
    | None => None
    end.
Proof.
  unfold outgoing, dispatched, request_interceptor.
  destruct (localStorage b !! "token") as [t|]; [destruct (truthy_str t)|];
    simpl; destruct (has_body c); simpl;
    rewrite ?lookup_delete_ne by done; by rewrite ?lookup_insert_eq.
Qed.

(** What one request does to the page and to the environment. *)
Lemma request_inv {W S} (srv : server W) c (s : S) (e : Env W) o s' e' :
  request srv c s e = (o, s', e') ->
  s' = s /\
  sent e' = sent e ++ [outgoing (browser e) c] /\
  console e' = console e /\
  backend e' = (respond srv c (backend e)).2 /\
  match (respond srv c (backend e)).1 with
  | Success data => o = Return data /\ browser e' = browser e
  | Failure status data =>
      let err := {| response := Some (status, data);
                    message := "Request failed with status code " +:+ pretty status |} in
      o = Throw err /\ browser e' = response_error_interceptor err (browser e)
  | NoResponse msg =>
      let err := {| response := None; message := msg |} in
      o = Throw err /\ browser e' = browser e
  end.
Proof.
  unfold request.
  destruct (respond srv c (backend e)) as [r w'] eqn:Hr. simpl.
  destruct r; intros [= <- <- <-]; simpl; done.
Qed.

Lemma request_calls {W S} (srv : server W) c (s : S) (e : Env W) o s' e' :
  request srv c s e = (o, s', e') -> calls e' = calls e ++ [c].
Proof.
  intros H. apply request_inv in H as (_ & Hs & _). unfold calls.
  rewrite Hs, fmap_app. simpl. by rewrite outgoing_call.
Qed.

(** C9: every request that goes through the shared client carries the
    bearer token found in [localStorage] (a stored empty string counts as
    no token); a response with status 401 makes the call fail, removes
    the stored token and points the browser to the login page, so that
    the next request through the client carries no [Authorization]
    header. *)
Theorem api_token_attached_and_dropped_on_401
    {W S : Type} (srv : server W) (c : call) (s : S) (e : Env W) :
  let '(o, s', e') := request srv c s e in
  (exists r, sent e' = sent e ++ [r] /\ req_call r = c /\
     forall token, localStorage (browser e) !! "token" = Some token -> token <> "" ->
       req_headers r !! "Authorization" = Some ("Bearer " +:+ token)) /\
  (forall data w', respond srv c (backend e) = (Failure 401 data, w') ->
     (exists err, o = Throw err /\ error_status err = Some 401) /\
     localStorage (browser e') !! "token" = None /\
     href (browser e') = "/login" /\
     forall (c2 : call) (s2 : S),
       let '(_, _, e'') := request srv c2 s2 e' in
       exists r2, sent e'' = sent e' ++ [r2] /\ req_call r2 = c2 /\
                  req_headers r2 !! "Authorization" = None).
Proof.
  destruct (request srv c s e) as [[o s'] e'] eqn:Hreq.
  apply request_inv in Hreq as (-> & Hsent & _ & _ & Hout).
  split.
  - exists (outgoing (browser e) c). split; [done|]. split; [apply outgoing_call|].
    intros token Htok Hne. rewrite outgoing_authorization, Htok.
    unfold truthy_str. by rewrite bool_decide_eq_false_2.
  - intros data w' Hresp. rewrite Hresp in Hout. simpl in Hout.
    destruct Hout as [-> Hb].
    assert (Hls : localStorage (browser e') !! "token" = None).
    { rewrite Hb. unfold response_error_interceptor. simpl.
      apply lookup_delete_eq. }
    split; [by eexists|]. split; [done|]. split; [by rewrite Hb|].
    intros c2 s2.
    destruct (request srv c2 s2 e') as [[o2 s2'] e''] eqn:Hreq2.
    apply request_inv in Hreq2 as (_ & Hsent2 & _).
    exists (outgoing (browser e') c2). split; [done|]. split; [apply outgoing_call|].
    by rewrite outgoing_authorization, Hls.
Qed.

(** The same on a concrete exchange: a stored token is sent, the backend
    answers 401, the token is gone and the browser is at the login page. *)
Example api_401_example :
  let b := {| localStorage := {[ "token" := "abc" ]}; href := "/query" |} in
  let srv : server unit :=
    {| respond := fun c w => (Failure 401 empty_error_body, w) |} in
  let '(o, _, e') := request (S := unit) srv (QueryExecute 1 "SELECT 1") tt (initial_env b tt) in
  (req_headers <$> sent e') = [ {[ "Authorization" := "Bearer abc";
                                   "Content-Type" := "application/json" ]} ] /\
  (req_url <$> sent e') = ["/api/query/execute"] /\
  localStorage (browser e') = ∅ /\
  href (browser e') = "/login".
Proof. vm_compute. done. Qed.

(** An empty string under the key is not sent. *)
Example api_empty_token_example :
  req_headers (outgoing {| localStorage := {[ "token" := "" ]}; href := "/" |} AuthMe)
  !! "Authorization" = None.
Proof. by rewrite outgoing_authorization. Qed.

(** ** Rules for running handlers *)

Section Rules.
Context {W S : Type}.
Implicit Types (s : S) (e : Env W).

Lemma wp_ret {A} (a : A) Q s e : Q (Return a) s e -> wp (W:=W) (ret a) Q s e.
Proof. done. Qed.

Lemma wp_bind {A B} (m : M W S A) (k : A -> M W S B) Q s e :
  wp m (fun o s' e' =>
          match o with
          | Return a => wp (k a) Q s' e'
          | Throw err => Q (Throw err) s' e'
          end) s e ->
  wp (bind m k) Q s e.
Proof.
  unfold wp, bind. destruct (m s e) as [[[a|err] s'] e']; done.
Qed.

Lemma wp_try_catch {A} (m : M W S A) h Q s e :
  wp m (fun o s' e' =>
          match o with
          | Return a => Q (Return a) s' e'
          | Throw err => wp (h err) Q s' e'
          end) s e ->
  wp (try_catch m h) Q s e.
Proof.
  unfold wp, try_catch. destruct (m s e) as [[[a|err] s'] e']; done.
Qed.

Lemma wp_finally {A} (m : M W S A) f Q s e :
  wp m (fun o s' e' =>
          wp f (fun o2 s2 e2 =>
                  match o2 with
                  | Return _ => Q o s2 e2
                  | Throw err => Q (Throw err) s2 e2
                  end) s' e') s e ->
  wp (finally m f) Q s e.
Proof.
  unfold wp, finally. destruct (m s e) as [[o s'] e'].
  destruct (f s' e') as [[[a|err] s2] e2]; done.
Qed.

Lemma wp_modify (f : S -> S) Q s e : Q (Return tt) (f s) e -> wp (W:=W) (modify f) Q s e.
Proof. done. Qed.

Lemma wp_console_error msg Q s e :
  (forall e', sent e' = sent e -> backend e' = backend e -> browser e' = browser e ->
              console e' = console e ++ [msg] -> Q (Return tt) s e') ->
  wp (console_error msg) Q s e.
Proof. intros H. unfold wp, console_error. by apply H. Qed.

Lemma wp_request (srv : server W) c Q s e :
  (forall o e', exchanged srv c e o e' -> Q o s e') ->
  wp (request srv c) Q s e.
Proof.
  intros H. unfold wp.
  destruct (request srv c s e) as [[o s'] e'] eqn:Hreq.
  apply request_inv in Hreq as (-> & Hs & Hc & Hb & Ho).
  apply H. unfold exchanged. repeat split; try done.
  destruct (respond srv c (backend e)).1; simpl in *.
  - done.
  - destruct Ho as [-> ->]. by eexists.
  - destruct Ho as [-> ->]. by eexists.
Qed.

(** The rule of consequence. *)
Lemma wp_wand {A} (m : M W S A) (Q Q' : outcome A -> S -> Env W -> Prop) s e :
  wp m Q s e -> (forall o s' e', Q o s' e' -> Q' o s' e') -> wp m Q' s e.
Proof. unfold wp. destruct (m s e) as [[o s'] e']. auto. Qed.


End Rules.

Lemma exchanged_calls {W} (srv : server W) c e o e' :
  exchanged srv c e o e' -> calls e' = calls e ++ [c].
Proof.
  intros (Hs & _). unfold calls. rewrite Hs, fmap_app. simpl.
  by rewrite outgoing_call.
Qed.

(** A request that the backend answers with success returns its data. *)
Lemma exchanged_success {W} (srv : server W) c e o e' data w' :
  exchanged srv c e o e' ->
  respond srv c (backend e) = (Success data, w') ->
  o = Return data /\ backend e' = w' /\ browser e' = browser e.
Proof. intros (_ & _ & Hb & Ho) Hr. rewrite Hr in *. simpl in *. by destruct Ho. Qed.

(** A request that the backend fails throws the error of its reply. *)
Lemma exchanged_error {W} (srv : server W) c e o e' err :
  exchanged srv c e o e' ->
  error_of_reply (respond srv c (backend e)).1 = Some err ->
  o = Throw err.
Proof.
  intros (_ & _ & _ & Ho) Hr.
  destruct (respond srv c (backend e)).1; simpl in *; [done|..];
    destruct Ho as (err' & He & -> & _); congruence.
Qed.

Lemma exchanged_returned {W} (srv : server W) c e a e' :
  exchanged srv c e (Return a) e' ->
  exists w', respond srv c (backend e) = (Success a, w').
Proof.
  intros (_ & _ & _ & Ho).
  destruct (respond srv c (backend e)) as [r w'] eqn:Hr. simpl in Ho.
  destruct r; [destruct Ho as [[= ->] _]; by eexists|..];
    by destruct Ho as (? & _ & ? & _).
Qed.

Lemma exchanged_thrown {W} (srv : server W) c e err e' :
  exchanged srv c e (Throw err) e' ->
  error_of_reply (respond srv c (backend e)).1 = Some err.
Proof.
  intros (_ & _ & _ & Ho).
  destruct (respond srv c (backend e)).1; simpl in *; [by destruct Ho|..];
    destruct Ho as (? & He & [= ->] & _); done.
Qed.

Lemma new_calls_app {W} (e e' : Env W) cs :
  calls e' = calls e ++ cs -> new_calls e e' = cs.
Proof. intros H. unfold new_calls. rewrite H. by rewrite drop_app_length. Qed.

(** One step of a handler. *)
Ltac wp_step :=
  lazymatch goal with
  | |- wp (bind _ _) _ _ _ => apply wp_bind
  | |- wp (try_catch _ _) _ _ _ => apply wp_try_catch
  | |- wp (finally _ _) _ _ _ => apply wp_finally
  | |- wp (modify _) _ _ _ => apply wp_modify
  | |- wp (ret _) _ _ _ => apply wp_ret
  | |- wp (console_error _) _ _ _ => apply wp_console_error; intros ? ? ? ? ?
  | |- wp (request _ ?c) _ _ _ =>
      let o := fresh "o" in
      let e := fresh "e" in
      let H := fresh "Hex" in
      apply (wp_request _ c); intros o e H;
      pose proof (exchanged_calls _ _ _ _ _ H);
      destruct o
  | |- wp (match ?x with _ => _ end) _ _ _ => destruct x eqn:?
  end.

Ltac wp_run := repeat (wp_step; simpl).

End ApiFacts.

(* ===================================================================== *)
(** * Properties of dates                                                 *)
(* ===================================================================== *)

Module JsDateFacts.
Import JsDate.










Example today_example :
  split_head "T"
    (toISOString {| year := 2026; month := 3; day := 9; hours := 23; minutes := 5;
                    seconds := 7; milliseconds := 42 |})
  = "2026-03-09".
Proof. reflexivity. Qed.

Example toISOString_example :
  toISOString {| year := 2026; month := 3; day := 9; hours := 23; minutes := 5;
                 seconds := 7; milliseconds := 42 |}
  = "2026-03-09T23:05:07.042Z".
Proof. reflexivity. Qed.

End JsDateFacts.

(* ===================================================================== *)
(** * Properties of the query page: submitting a question                 *)
(* ===================================================================== *)

Module QueryPageFacts.
Import Js Types Api ApiFacts QueryPage.


Lemma truthy_str_true s : s <> "" -> truthy_str s = true.
Proof. intros H. unfold truthy_str. by rewrite bool_decide_eq_false_2. Qed.

Lemma truthy_str_spec s : truthy_str s = true <-> s <> "".
Proof.
  unfold truthy_str. destruct (decide (s = "")) as [->|Hne].
  - split; [discriminate | done].
  - rewrite bool_decide_eq_false_2 by done. done.
Qed.

(** ** The initial values of detected parameters *)

Lemma assign_other obj key v n : n <> key -> assign obj key v !! n = obj !! n.
Proof.
  intros Hne. unfold assign. case_bool_decide; [done|]. by rewrite lookup_insert_ne.
Qed.

Lemma assign_same obj key v : key <> "__proto__" -> assign obj key v !! key = Some v.
Proof.
  intros Hne. unfold assign. rewrite bool_decide_eq_false_2 by done.
  by rewrite lookup_insert_eq.
Qed.







(** ** Detection that asks for nothing *)

Lemma on_detected_no_parameters {W} (srv : server W) now cl r :
  parameters r = [] ->
  on_detected srv now cl r = executeWithParams srv cl (trim (query cl)) None.
Proof.
  intros Hp. unfold on_detected. rewrite Hp. simpl. by rewrite andb_false_r.
Qed.


(** ** How the handlers leave the cells they do not own *)

Ltac unfold_setters :=
  unfold queryApi_detectParameters, queryApi_ask, queryApi_execute,
    queryApi_submitFeedback, vizApi_suggest,
    setLoading, setResult, updateResult, setChartSuggestions, setChartType,
    setDetectedParams, setParamValues, setShowParamDialog, setPendingQuery,
    setEditableSql, setIsEditing, setSelectedConnection.

Lemma sync_editable_frame prev s :
  selectedConnection (sync_editable prev s) = selectedConnection s /\
  query (sync_editable prev s) = query s /\
  showParamDialog (sync_editable prev s) = showParamDialog s /\
  loading (sync_editable prev s) = loading s /\
  detectedParams (sync_editable prev s) = detectedParams s /\
  paramValues (sync_editable prev s) = paramValues s /\
  result (sync_editable prev s) = result s.
Proof. unfold sync_editable. repeat case_match; done. Qed.

Ltac frame_sync :=
  repeat match goal with
  | |- context [sync_editable ?p ?s] =>
      let H := fresh "Hsync" in
      pose proof (sync_editable_frame p s) as H; simpl in H;
      destruct H as (? & ? & ? & ? & ? & ? & ?);
      generalize dependent (sync_editable p s); intros
  end.

(** [executeWithParams] closes the dialog, ends loading and sends one ask
    request, followed at most by a request for chart suggestions. *)
Lemma executeWithParams_wp {W} (srv : server W) cl nl ps conn s e :
  selectedConnection cl = Some conn ->
  wp (executeWithParams srv cl nl ps)
     (fun o s' e' =>
        o = Return tt /\
        showParamDialog s' = false /\ loading s' = false /\
        detectedParams s' = detectedParams s /\
        exists rest, calls e' = calls e ++ QueryAsk (conn_id conn) nl true ps :: rest /\
                     Forall (fun c => is_generation c = false) rest) s e.
Proof.
  intros Hc. unfold executeWithParams. rewrite Hc. unfold_setters.
  wp_run; frame_sync;
    (split; [done|]); (split; [done|]); (split; [done|]); (split; [done|]);
    repeat match goal with H : calls _ = _ |- _ => rewrite H; clear H end;
    rewrite <- ?(assoc_L (++)); simpl; eexists; (split; [reflexivity|]);
    repeat constructor.
Qed.

(** C5: a detection result that asks for parameters but lists none is
    handled as one that asks for none: no dialog opens and the question
    goes on to generation and execution. *)
Theorem empty_parameter_list_goes_to_generation
    {W : Type} (srv : server W) (now : JsDate.Date) (cl s : Page) (e : Env W)
    (conn : Connection) (r : DetectResult) (w' : W) :
  selectedConnection cl = Some conn ->
  trim (query cl) <> "" ->
  respond srv (QueryDetectParameters (conn_id conn) (trim (query cl))) (backend e)
    = (Success r, w') ->
  needs_parameters r = true ->
  parameters r = [] ->
  on_detected srv now cl r
    = on_detected srv now cl
        {| needs_parameters := false; parameters := parameters r;
           clarification := clarification r |} /\
  let '(_, s', e') := handleSubmit srv now cl s e in
  showParamDialog s' = false /\
  detectedParams s' = [] /\
  exists rest,
    calls e' = calls e ++
      QueryDetectParameters (conn_id conn) (trim (query cl))
      :: QueryAsk (conn_id conn) (trim (query cl)) true None :: rest.
Proof.
  intros Hc Hq Hr Hn Hp. split.
  { unfold on_detected. simpl. by rewrite Hp, andb_false_r. }
  change (wp (handleSubmit srv now cl)
            (fun _ s' e' =>
               showParamDialog s' = false /\ detectedParams s' = [] /\
               exists rest,
                 calls e' = calls e ++
                   QueryDetectParameters (conn_id conn) (trim (query cl))
                   :: QueryAsk (conn_id conn) (trim (query cl)) true None :: rest) s e).
  unfold handleSubmit. rewrite Hc, (truthy_str_true _ Hq). simpl. unfold_setters.
  wp_run.
  - destruct (exchanged_success _ _ _ _ _ _ _ Hex Hr) as ([= ->] & _).
    rewrite on_detected_no_parameters by done.
    eapply wp_wand; [by apply executeWithParams_wp|].
    simpl. intros o s' e' (-> & Hd & _ & Hps & rest & Hcalls & _).
    frame_sync. split; [done|]. split; [by rewrite Hps|].
    exists rest. rewrite Hcalls, H. by rewrite <- (assoc_L (++)).
  - pose proof (exchanged_thrown _ _ _ _ _ Hex) as He. by rewrite Hr in He.
Qed.
(** C2, as the code has it: when the detection request fails, the
    submission stops there. The error is put on the page as the result
    (the SQL and explanation of the error response if it has any, and
    its error text, else its detail, else the message of the error),
    loading ends, no dialog opens, nothing is logged, and no generation
    or execution request is sent. *)
Theorem detection_failure_is_reported
    {W : Type} (srv : server W) (now : JsDate.Date) (cl s : Page) (e : Env W)
    (conn : Connection) (err : AxiosError) :
  selectedConnection cl = Some conn ->
  trim (query cl) <> "" ->
  error_of_reply
    (respond srv (QueryDetectParameters (conn_id conn) (trim (query cl))) (backend e)).1
    = Some err ->
  let '(o, s', e') := handleSubmit srv now cl s e in
  o = Return tt /\
  calls e' = calls e ++ [QueryDetectParameters (conn_id conn) (trim (query cl))] /\
  result s' = Some (error_result err) /\
  loading s' = false /\
  showParamDialog s' = false /\
  detectedParams s' = [] /\
  console e' = console e.
Proof.
  intros Hc Hq Hr.
  change (wp (handleSubmit srv now cl)
            (fun o s' e' =>
               o = Return tt /\
               calls e' = calls e ++ [QueryDetectParameters (conn_id conn) (trim (query cl))] /\
               result s' = Some (error_result err) /\
               loading s' = false /\ showParamDialog s' = false /\
               detectedParams s' = [] /\ console e' = console e) s e).
  unfold handleSubmit. rewrite Hc, (truthy_str_true _ Hq). simpl. unfold_setters.
  wp_run.
  - pose proof (exchanged_error _ _ _ _ _ _ Hex Hr). done.
  - pose proof (exchanged_error _ _ _ _ _ _ Hex Hr) as [= ->].
    destruct Hex as (_ & Hcons & _).
    frame_sync. repeat split; done.
Qed.

Lemma detection_failure_is_reported_witness :
  selectedConnection (Demo.asking "how many orders are there") = Some Demo.orders_db /\
  (let '(o, s', e') :=
     handleSubmit (Demo.scripted (NoResponse "Network Error")) Demo.noon
       (Demo.asking "how many orders are there")
       (Demo.asking "how many orders are there")
       (initial_env Demo.logged_in tt) in
   o = Return tt /\
   calls e' = [] ++ [QueryDetectParameters 1 "how many orders are there"] /\
   result s' = Some (error_result {| response := None; message := "Network Error" |}) /\
   loading s' = false /\
   showParamDialog s' = false /\
   detectedParams s' = [] /\
   console e' = []).
Proof.
  split; [reflexivity|].
  apply (detection_failure_is_reported (Demo.scripted (NoResponse "Network Error"))
           Demo.noon (Demo.asking "how many orders are there")
           (Demo.asking "how many orders are there") (initial_env Demo.logged_in tt)
           Demo.orders_db {| response := None; message := "Network Error" |});
    [reflexivity | by vm_compute | reflexivity].
Defined.

(** C2 as stated fails: with a connection selected and a question typed,
    a detection request that gets no response ends the submission. One
    request was sent, the detection; none asks for generation or
    execution, and the page shows the error. *)
Lemma detection_failure_counterexample :
  let '(_, s', e') :=
    handleSubmit (Demo.scripted (NoResponse "Network Error")) Demo.noon
      (Demo.asking "how many orders are there")
      (Demo.asking "how many orders are there")
      (initial_env Demo.logged_in tt) in
  calls e' = [QueryDetectParameters 1 "how many orders are there"] /\
  existsb is_generation (calls e') = false /\
  existsb is_execution (calls e') = false /\
  (result s' ≫= ask_error) = Some "Network Error" /\
  loading s' = false.
Proof. vm_compute. done. Qed.

(** With the same page and a detection that answers, the question does
    go on to generation. *)
Example detection_success_example :
  let '(_, s', e') :=
    handleSubmit (Demo.scripted (Success Demo.no_parameters)) Demo.noon
      (Demo.asking "how many orders are there")
      (Demo.asking "how many orders are there")
      (initial_env Demo.logged_in tt) in
  calls e' = [QueryDetectParameters 1 "how many orders are there";
              QueryAsk 1 "how many orders are there" true None;
              VizSuggest ["count"] [[VNum 3]]] /\
  result s' = Some Demo.count_answer /\
  editableSql s' = "SELECT COUNT(*) FROM orders" /\
  isEditing s' = false.
Proof. vm_compute. done. Qed.

Lemma empty_parameter_list_goes_to_generation_witness :
  selectedConnection (Demo.asking "how many orders are there") = Some Demo.orders_db /\
  on_detected (Demo.scripted (Success Demo.nothing_to_collect)) Demo.noon
    (Demo.asking "how many orders are there") Demo.nothing_to_collect
  = on_detected (Demo.scripted (Success Demo.nothing_to_collect)) Demo.noon
      (Demo.asking "how many orders are there") Demo.no_parameters /\
  (let '(_, s', e') :=
     handleSubmit (Demo.scripted (Success Demo.nothing_to_collect)) Demo.noon
       (Demo.asking "how many orders are there")
       (Demo.asking "how many orders are there")
       (initial_env Demo.logged_in tt) in
   showParamDialog s' = false /\
   detectedParams s' = [] /\
   exists rest,
     calls e' = [] ++
       QueryDetectParameters 1 "how many orders are there"
       :: QueryAsk 1 "how many orders are there" true None :: rest).
Proof.
  split; [reflexivity|].
  apply (empty_parameter_list_goes_to_generation
           (Demo.scripted (Success Demo.nothing_to_collect)) Demo.noon
           (Demo.asking "how many orders are there")
           (Demo.asking "how many orders are there") (initial_env Demo.logged_in tt)
           Demo.orders_db Demo.nothing_to_collect tt);
    [reflexivity | by vm_compute | reflexivity | reflexivity | reflexivity].
Defined.


(** The dialog for two detected parameters: the date starts at today,
    the number at its default. *)
Example detected_parameters_example :
  default_values Demo.noon [Demo.since_param; Demo.limit_param]
  = {[ "since" := VStr "2026-11-02"; "limit" := VNum 10 ]}.
Proof. by vm_compute. Qed.


(** A parameter named [__proto__] keeps no value, whatever its default. *)
Example proto_name_example :
  default_values Demo.noon
    [{| param_name := "__proto__"; param_label := "P"; param_type := "number";
        param_description := None; param_default := VNum 5;
        param_required := false; param_options := None |};
     Demo.limit_param]
  = {[ "limit" := VNum 10 ]}.
Proof. by vm_compute. Qed.

(** ** Running modified SQL *)

Lemma sync_editable_same s r' :
  result_sql r' = result_sql (result s) ->
  sync_editable (result_sql (result s)) (with_result r' s) = with_result r' s.
Proof. intros H. unfold sync_editable. simpl. by rewrite bool_decide_eq_true_2. Qed.

Lemma calls_console {W} (e e' : Env W) : sent e' = sent e -> calls e' = calls e.
Proof. unfold calls. by intros ->. Qed.

(** The requests [handleRunModifiedSql] sends: the execution of the
    trimmed text and, once that succeeded, the correction if the page was
    in editing state and the result carries SQL. *)
Lemma handleRunModifiedSql_wp {W} (srv : server W) cl s e conn :
  selectedConnection cl = Some conn ->
  trim (editableSql cl) <> "" ->
  wp (handleRunModifiedSql srv cl)
     (fun o s' e' =>
        o = Return tt /\
        calls e' = calls e ++
          QueryExecute (conn_id conn) (trim (editableSql cl))
          :: match result_sql (result cl) with
             | Some gen =>
                 if succeeded
                      (respond srv (QueryExecute (conn_id conn) (trim (editableSql cl)))
                         (backend e)).1
                    && isEditing cl && truthy_str gen
                 then [QuerySubmitFeedback (correction conn cl gen)]
                 else []
             | None => []
             end) s e.
Proof.
  intros Hc Hq. unfold handleRunModifiedSql.
  rewrite Hc, (truthy_str_true _ Hq). simpl. unfold_setters.
  destruct (respond srv (QueryExecute (conn_id conn) (trim (editableSql cl))) (backend e))
    as [rp w1] eqn:Hr.
  wp_run;
    match goal with
    | H : exchanged _ (QueryExecute _ _) _ (Return _) _ |- _ =>
        apply exchanged_returned in H as [? H]; rewrite Hr in H
    | H : exchanged _ (QueryExecute _ _) _ (Throw _) _ |- _ =>
        apply exchanged_thrown in H; rewrite Hr in H
    end;
    destruct rp; simplify_eq/=;
    (split; [done|]);
    repeat match goal with
    | H : sent ?e' = sent _ |- context [calls ?e'] => rewrite (calls_console _ _ H)
    | H : calls ?e' = _ |- context [calls ?e'] => rewrite H
    end;
    rewrite <- ?(assoc_L (++)); simpl;
    repeat match goal with H : _ && _ = _ |- _ => rewrite H end;
    first [done | by destruct (result_sql (result cl))].
Qed.

(** C7: running the edited SQL sends it, trimmed, to POST /query/execute;
    the only request that may follow is the feedback, and nothing among
    the requests asks the backend to generate SQL again. *)
Theorem modified_sql_reenters_at_execution
    {W : Type} (srv : server W) (cl s : Page) (e : Env W) (conn : Connection) :
  selectedConnection cl = Some conn ->
  trim (editableSql cl) <> "" ->
  let '(_, _, e') := handleRunModifiedSql srv cl s e in
  exists rest,
    new_calls e e' = QueryExecute (conn_id conn) (trim (editableSql cl)) :: rest /\
    method_of (QueryExecute (conn_id conn) (trim (editableSql cl))) = POST /\
    path_of (QueryExecute (conn_id conn) (trim (editableSql cl))) = "/query/execute" /\
    Forall (fun c => is_generation c = false) (new_calls e e') /\
    (rest = [] \/ exists d, rest = [QuerySubmitFeedback d]).
Proof.
  intros Hc Hq.
  pose proof (handleRunModifiedSql_wp srv cl s e conn Hc Hq) as Hwp.
  unfold wp in Hwp. destruct (handleRunModifiedSql srv cl s e) as [[o s'] e'].
  destruct Hwp as [_ Hcalls]. apply new_calls_app in Hcalls. rewrite Hcalls.
  eexists. split; [reflexivity|]. split; [done|]. split; [done|].
  destruct (result_sql (result cl)) as [gen|]; [|split; [by repeat constructor | by left]].
  case_match; (split; [by repeat constructor|]); [right; by eexists | by left].
Qed.

Lemma modified_sql_reenters_at_execution_witness :
  selectedConnection Demo.edited_page = Some Demo.orders_db /\
  (let '(_, _, e') :=
     handleRunModifiedSql (Demo.scripted (Success Demo.no_parameters)) Demo.edited_page
       Demo.edited_page (initial_env Demo.logged_in tt) in
   exists rest,
     new_calls (initial_env Demo.logged_in tt) e'
       = QueryExecute 1 "SELECT COUNT(*) FROM orders WHERE amount > 10" :: rest /\
     method_of (QueryExecute 1 "SELECT COUNT(*) FROM orders WHERE amount > 10") = POST /\
     path_of (QueryExecute 1 "SELECT COUNT(*) FROM orders WHERE amount > 10")
       = "/query/execute" /\
     Forall (fun c => is_generation c = false) (new_calls (initial_env Demo.logged_in tt) e') /\
     (rest = [] \/ exists d, rest = [QuerySubmitFeedback d])).
Proof.
  split; [reflexivity|].
  apply (modified_sql_reenters_at_execution (Demo.scripted (Success Demo.no_parameters))
           Demo.edited_page Demo.edited_page (initial_env Demo.logged_in tt) Demo.orders_db);
    [reflexivity | by vm_compute].
Defined.

(** The run of the edited count query: two requests, the execution and
    the correction, with the text trimmed in both. *)
Example run_modified_example :
  let '(_, s', e') :=
    handleRunModifiedSql (Demo.scripted (Success Demo.no_parameters)) Demo.edited_page
      Demo.edited_page (initial_env Demo.logged_in tt) in
  calls e' =
    [QueryExecute 1 "SELECT COUNT(*) FROM orders WHERE amount > 10";
     QuerySubmitFeedback
       {| fb_connection_id := 1;
          fb_natural_language := "how many orders are there";
          fb_original_sql := "SELECT COUNT(*) FROM orders";
          fb_corrected_sql := "SELECT COUNT(*) FROM orders WHERE amount > 10" |}] /\
  (req_url <$> sent e') = ["/api/query/execute"; "/api/query/feedback"] /\
  isEditing s' = false /\ loading s' = false.
Proof. vm_compute. done. Qed.

(** ** The editing state *)

Lemma edit_invariant_ext s s' :
  isEditing s' = isEditing s -> result s' = result s -> editableSql s' = editableSql s ->
  edit_invariant s -> edit_invariant s'.
Proof. unfold edit_invariant. intros -> -> ->. done. Qed.

Lemma edit_invariant_off s : edit_invariant (with_isEditing false s).
Proof. unfold edit_invariant. simpl. done. Qed.

Lemma edit_invariant_sync prev s r' :
  prev = result_sql (result s) ->
  edit_invariant s ->
  edit_invariant (sync_editable prev (with_result r' s)).
Proof.
  intros -> Hinv. unfold sync_editable. simpl.
  case_bool_decide as Hsame.
  - unfold edit_invariant in *. simpl. rewrite Hsame. done.
  - destruct (result_sql r') as [sql|] eqn:Hsql.
    + destruct (truthy_str sql) eqn:Ht; [apply edit_invariant_off|].
      unfold edit_invariant. simpl. rewrite Hsql. intros _ gen [= <-] Hne.
      apply truthy_str_true in Hne. congruence.
    + unfold edit_invariant. simpl. rewrite Hsql. done.
Qed.

Lemma edit_invariant_selectedConnection c s :
  edit_invariant s -> edit_invariant (with_selectedConnection c s).
Proof. by apply edit_invariant_ext. Qed.
Lemma edit_invariant_query q s : edit_invariant s -> edit_invariant (with_query q s).
Proof. by apply edit_invariant_ext. Qed.
Lemma edit_invariant_loading b s : edit_invariant s -> edit_invariant (with_loading b s).
Proof. by apply edit_invariant_ext. Qed.
Lemma edit_invariant_chartType t s : edit_invariant s -> edit_invariant (with_chartType t s).
Proof. by apply edit_invariant_ext. Qed.
Lemma edit_invariant_chartSuggestions l s :
  edit_invariant s -> edit_invariant (with_chartSuggestions l s).
Proof. by apply edit_invariant_ext. Qed.
Lemma edit_invariant_detectedParams l s :
  edit_invariant s -> edit_invariant (with_detectedParams l s).
Proof. by apply edit_invariant_ext. Qed.
Lemma edit_invariant_paramValues m s :
  edit_invariant s -> edit_invariant (with_paramValues m s).
Proof. by apply edit_invariant_ext. Qed.
Lemma edit_invariant_showParamDialog b s :
  edit_invariant s -> edit_invariant (with_showParamDialog b s).
Proof. by apply edit_invariant_ext. Qed.
Lemma edit_invariant_pendingQuery q s :
  edit_invariant s -> edit_invariant (with_pendingQuery q s).
Proof. by apply edit_invariant_ext. Qed.

Create HintDb edit_inv.
#[local] Hint Resolve edit_invariant_off edit_invariant_sync
  edit_invariant_selectedConnection edit_invariant_query edit_invariant_loading
  edit_invariant_chartType edit_invariant_chartSuggestions
  edit_invariant_detectedParams edit_invariant_paramValues
  edit_invariant_showParamDialog edit_invariant_pendingQuery : edit_inv.





















(** The edited session, run: one correction, from the generated SQL to
    the trimmed text of the editor, and the page leaves editing state. *)
Example edited_session_example :
  isEditing Demo.edited_session.1 = true /\
  result_sql (result Demo.edited_session.1) = Some "SELECT COUNT(*) FROM orders" /\
  let ran :=
    perform (Demo.scripted (Success Demo.no_parameters)) RunModifiedSql Demo.edited_session in
  new_calls Demo.edited_session.2 ran.2 =
    [ QueryExecute 1 "SELECT COUNT(*) FROM orders WHERE amount > 10";
      QuerySubmitFeedback
        {| fb_connection_id := 1;
           fb_natural_language := "how many orders are there";
           fb_original_sql := "SELECT COUNT(*) FROM orders";
           fb_corrected_sql := "SELECT COUNT(*) FROM orders WHERE amount > 10" |} ] /\
  isEditing ran.1 = false.
Proof. vm_compute. done. Qed.

(** An edit taken back leaves the editing state, and with it the Run
    button: a click changes nothing; were the handler run all the same,
    it would execute the SQL and submit nothing. *)
Example reverted_session_example :
  isEditing Demo.reverted_session.1 = false /\
  perform (Demo.scripted (Success Demo.no_parameters)) RunModifiedSql Demo.reverted_session
    = Demo.reverted_session /\
  let '(_, _, e') :=
    handleRunModifiedSql (Demo.scripted (Success Demo.no_parameters))
      Demo.reverted_session.1 Demo.reverted_session.1 Demo.reverted_session.2 in
  new_calls Demo.reverted_session.2 e' = [QueryExecute 1 "SELECT COUNT(*) FROM orders"].
Proof. vm_compute. done. Qed.

(** A run the backend refuses submits nothing. *)
Example refused_run_example :
  let srv := Cases.failing 400 (Some "syntax error at or near FROM") in
  let ran := perform srv RunModifiedSql Demo.edited_session in
  new_calls Demo.edited_session.2 ran.2
    = [QueryExecute 1 "SELECT COUNT(*) FROM orders WHERE amount > 10"].
Proof. vm_compute. done. Qed.

End QueryPageFacts.
(* ===================================================================== *)
(** * Properties of the safety validator and the pipeline                 *)
(* ===================================================================== *)

Module SafetyFacts.
Import Js Types SafetyValidator Backend.

Lemma app_cons c a b : String c a +:+ b = String c (a +:+ b).
Proof. reflexivity. Qed.

Lemma app_nil b : "" +:+ b = b.
Proof. reflexivity. Qed.

Lemma trim_start_blanks blanks t :
  all_chars Ascii.is_space blanks = true ->
  trim_start (blanks +:+ t) = trim_start t.
Proof.
  induction blanks as [|c blanks IH]; rewrite ?app_cons, ?app_nil; simpl; [done|].
  intros [Hc Hb]%andb_true_iff. rewrite Hc. by apply IH.
Qed.

Lemma trim_start_id t : starts_with Ascii.is_space t = false -> trim_start t = t.
Proof. destruct t as [|c t]; simpl; [done|]. by intros ->. Qed.

Lemma word_prefix_app kw rest :
  all_chars is_word kw = true ->
  starts_with is_word rest = false ->
  word_prefix (kw +:+ rest) = kw.
Proof.
  intros Hkw Hrest. induction kw as [|c kw IH]; rewrite ?app_cons, ?app_nil; simpl in *.
  - destruct rest as [|c rest]; simpl in *; [done|]. by rewrite Hrest.
  - apply andb_true_iff in Hkw as [Hc Hkw]. rewrite Hc. f_equal. by apply IH.
Qed.

(** The validator's parse step finds the leading keyword. *)
Lemma leading_keyword_spec sql kw : leading_word sql kw -> leading_keyword sql = kw.
Proof.
  intros (blanks & rest & -> & Hb & Hs & Hkw & Hrest). unfold leading_keyword.
  rewrite trim_start_blanks by done. rewrite trim_start_id by done.
  by apply word_prefix_app.
Qed.

Lemma all_chars_word_prefix s : all_chars is_word (word_prefix s) = true.
Proof.
  induction s as [|c s IH]; simpl; [done|].
  destruct (is_word c) eqn:Hc; simpl; [by rewrite Hc|done].
Qed.

Lemma word_prefix_split s :
  exists rest, s = word_prefix s +:+ rest /\ starts_with is_word rest = false.
Proof.
  induction s as [|c s (rest & Hs & Hrest)]; simpl.
  - by exists "".
  - destruct (is_word c) eqn:Hc.
    + exists rest. rewrite app_cons. split; [by f_equal|done].
    + exists (String c s). by rewrite app_nil.
Qed.

Lemma trim_start_split s :
  exists blanks, s = blanks +:+ trim_start s /\
                 all_chars Ascii.is_space blanks = true /\
                 starts_with Ascii.is_space (trim_start s) = false.
Proof.
  induction s as [|c s (blanks & Hs & Hb & Ht)]; simpl.
  - by exists "".
  - destruct (Ascii.is_space c) eqn:Hc.
    + exists (String c blanks). rewrite app_cons. simpl. rewrite Hc.
      split; [by f_equal|done].
    + exists "". rewrite app_nil. simpl. by rewrite Hc.
Qed.

(** Every statement has a leading keyword, possibly empty. *)
Lemma leading_keyword_leading_word sql : leading_word sql (leading_keyword sql).
Proof.
  unfold leading_keyword.
  destruct (trim_start_split sql) as (blanks & Hsql & Hb & Ht).
  destruct (word_prefix_split (trim_start sql)) as (rest & Hw & Hrest).
  exists blanks, rest. rewrite <- Hw. repeat split; try done.
  apply all_chars_word_prefix.
Qed.

Lemma read_operations_upper op : op ∈ read_operations -> uppercase op = op.
Proof.
  unfold read_operations. rewrite !elem_of_cons, elem_of_nil.
  intros [-> | [-> | [-> | []]]]; reflexivity.
Qed.

Lemma is_read_operation_spec sql kw :
  leading_word sql kw ->
  is_read_operation sql = true <-> exists op, op ∈ read_operations /\ same_keyword kw op.
Proof.
  intros Hkw%leading_keyword_spec. unfold is_read_operation, same_keyword. rewrite Hkw.
  rewrite bool_decide_eq_true. split.
  - intros Hin. exists (uppercase kw). split; [done|].
    by rewrite (read_operations_upper _ Hin).
  - intros (op & Hin & ->). by rewrite (read_operations_upper _ Hin).
Qed.

(** C1: on a connection whose read-only flag is set, a statement whose
    leading keyword is none of SELECT, WITH and EXPLAIN, whatever its
    letter case, is rejected with ReadOnlyViolation, whether the user
    submitted it or the generator produced it; the attempt is recorded
    as failed and the Execution Engine is handed nothing. *)
Theorem read_only_rejects_other_operations
    (engine : Stored -> string -> execution)
    (generator : Stored -> string -> option (gmap string value) -> option (string * string))
    (st : State) (id : Z) (c : Stored) (sql kw : string) :
  stored st !! id = Some c ->
  st_readonly c = true ->
  leading_word sql kw ->
  (forall op, op ∈ read_operations -> ~ same_keyword kw op) ->
  validate (st_readonly c) sql = REJECT ReadOnlyViolation /\
  (exists st',
     execute engine id sql st = (st', inl (Rejected ReadOnlyViolation)) /\
     engine_calls st' = engine_calls st /\
     (he_status <$> entries st' !! next_entry st) = Some failed) /\
  (forall question params explanation,
     generator c question params = Some (sql, explanation) ->
     exists st',
       ask engine generator id question params st
         = (st', inl (Rejected ReadOnlyViolation)) /\
       engine_calls st' = engine_calls st /\
       (he_status <$> entries st' !! next_entry st) = Some failed).
Proof.
  intros Hc Hro Hkw Hnot.
  assert (Hv : validate (st_readonly c) sql = REJECT ReadOnlyViolation).
  { unfold validate. rewrite Hro. simpl.
    destruct (is_read_operation sql) eqn:Hop; [|done].
    apply (is_read_operation_spec sql kw Hkw) in Hop as (op & Hin & Hsame).
    by destruct (Hnot op Hin). }
  split; [done|]. split.
  - unfold execute. rewrite Hc. unfold run_statement. rewrite Hv.
    eexists. split; [done|]. split; [done|]. simpl. by rewrite lookup_insert_eq.
  - intros question params explanation Hgen.
    unfold ask. rewrite Hc, Hgen. unfold run_statement. rewrite Hv.
    eexists. split; [done|]. split; [done|]. simpl. by rewrite lookup_insert_eq.
Qed.

Lemma read_only_rejects_other_operations_witness :
  stored Demo.registered !! 1 =
    Some {| st_id := 1; st_name := "orders"; st_kind := sqlite; st_host := None;
            st_port := None; st_database := Some "/tmp/t.db"; st_username := None;
            st_secret := None; st_ssl := false; st_readonly := true;
            st_created_at := "2026-01-01T00:00:00Z"; st_last_used_at := None |} /\
  leading_word "  delete from orders" "delete" /\
  validate true "  delete from orders" = REJECT ReadOnlyViolation /\
  (exists st',
     execute Demo.counting_engine 1 "  delete from orders" Demo.registered
       = (st', inl (Rejected ReadOnlyViolation)) /\
     engine_calls st' = [] /\
     (he_status <$> entries st' !! 1) = Some failed).
Proof.
  assert (Hst : stored Demo.registered !! 1 =
    Some {| st_id := 1; st_name := "orders"; st_kind := sqlite; st_host := None;
            st_port := None; st_database := Some "/tmp/t.db"; st_username := None;
            st_secret := None; st_ssl := false; st_readonly := true;
            st_created_at := "2026-01-01T00:00:00Z"; st_last_used_at := None |})
    by (by vm_compute).
  assert (Hkw : leading_word "  delete from orders" "delete").
  { exists "  ", " from orders". by vm_compute. }
  split; [exact Hst|]. split; [exact Hkw|].
  pose proof (read_only_rejects_other_operations Demo.counting_engine
                (fun _ _ _ => None) Demo.registered 1 _ "  delete from orders" "delete"
                Hst eq_refl Hkw) as H.
  destruct H as (Hv & Hex & _).
  { intros op. unfold read_operations. rewrite !elem_of_cons, elem_of_nil.
    intros [-> | [-> | [-> | []]]]; by vm_compute. }
  split; [exact Hv|]. exact Hex.
Defined.

(** What the validator lets through and what it stops. *)
Example validate_examples :
  validate true "select * from orders" = ALLOW /\
  validate true "  With t as (select 1) select * from t" = ALLOW /\
  validate true "EXPLAIN select 1;" = ALLOW /\
  validate true "DELETE FROM orders" = REJECT ReadOnlyViolation /\
  validate true "selected" = REJECT ReadOnlyViolation /\
  validate true "drop table a; drop table b" = REJECT ReadOnlyViolation /\
  validate false "DELETE FROM orders" = ALLOW /\
  validate false "select 1; drop table orders" = REJECT MultiStatementRejected /\
  validate true "select ';' from orders" = ALLOW.
Proof. by vm_compute. Qed.

(** Section 8's scenario: on the read-only connection the user runs
    DELETE FROM orders from the SQL editor. The backend answers with the
    violation, the page shows it, the history has a failed entry, and the
    engine was handed nothing. *)
Example delete_on_read_only_example :
  let page :=
    QueryPage.with_isEditing true
      (QueryPage.with_editableSql "DELETE FROM orders"
         (QueryPage.with_result (Some Demo.count_answer)
            (Demo.asking "how many orders are there"))) in
  let '(_, s', e') :=
    QueryPage.handleRunModifiedSql Demo.deployed page page
      (Api.initial_env Demo.logged_in Demo.registered) in
  (QueryPage.result s' ≫= ask_error) = Some "ReadOnlyViolation" /\
  Api.calls e' = [Api.QueryExecute 1 "DELETE FROM orders"] /\
  engine_calls (Api.backend e') = [] /\
  (he_status <$> entries (Api.backend e') !! 1) = Some failed.
Proof. by vm_compute. Qed.

End SafetyFacts.
(* ===================================================================== *)
(** * Properties of the connection registry and the edit form             *)
(* ===================================================================== *)

Module RegistryFacts.
Import Js Types Api ApiFacts Backend.

Lemma apply_update_secret encrypt k d c :
  p_password d = None -> st_secret (apply_update encrypt k d c) = st_secret c.
Proof. intros H. unfold apply_update, new_credential. simpl. by rewrite H. Qed.

(** C4: an update whose descriptor has no password field succeeds on a
    registered connection, leaves the stored encrypted credential as it
    was and sets every other field it supplies; a test of the connection
    then gives what it gave before the update whenever the update left
    the target alone. *)
Theorem update_without_password_keeps_credential
    (encrypt decrypt : string -> string)
    (connects : engine_kind * option string * option Z * option string
                * option string * bool -> option string -> TestResult)
    (st : State) (id : Z) (c : Stored) (d : PartialConnectionCreate) :
  stored st !! id = Some c ->
  p_password d = None ->
  (forall t, p_db_type d = Some t -> is_Some (engine_of t)) ->
  exists st' c',
    update encrypt id d st = inr (st', redact c') /\
    stored st' !! id = Some c' /\
    (forall j, j <> id -> stored st' !! j = stored st !! j) /\
    st_secret c' = st_secret c /\
    st_name c' = default (st_name c) (p_name d) /\
    st_kind c' = default (st_kind c) (p_db_type d ≫= engine_of) /\
    st_host c' = from_option Some (st_host c) (p_host d) /\
    st_port c' = from_option Some (st_port c) (p_port d) /\
    st_database c' = from_option Some (st_database c) (p_database_name d) /\
    st_username c' = from_option Some (st_username c) (p_username d) /\
    st_ssl c' = default (st_ssl c) (p_ssl_enabled d) /\
    st_readonly c' = default (st_readonly c) (p_is_readonly d) /\
    (target_of c' = target_of c ->
     test decrypt connects id st' = test decrypt connects id st).
Proof.
  intros Hc Hcred Hkind.
  unfold update. rewrite Hc.
  assert (Hgo : forall k,
            default (st_kind c) (p_db_type d ≫= engine_of) = k ->
            exists st' c',
              inr (with_stored (<[id := apply_update encrypt k d c]> (stored st)) st,
                   redact (apply_update encrypt k d c))
                = inr (A:=error) (st', redact c') /\
              stored st' !! id = Some c' /\
              (forall j, j <> id -> stored st' !! j = stored st !! j) /\
              st_secret c' = st_secret c /\
              st_name c' = default (st_name c) (p_name d) /\
              st_kind c' = default (st_kind c) (p_db_type d ≫= engine_of) /\
              st_host c' = from_option Some (st_host c) (p_host d) /\
              st_port c' = from_option Some (st_port c) (p_port d) /\
              st_database c' = from_option Some (st_database c) (p_database_name d) /\
              st_username c' = from_option Some (st_username c) (p_username d) /\
              st_ssl c' = default (st_ssl c) (p_ssl_enabled d) /\
              st_readonly c' = default (st_readonly c) (p_is_readonly d) /\
              (target_of c' = target_of c ->
               test decrypt connects id st' = test decrypt connects id st)).
  { intros k Hk. eexists _, _. split; [reflexivity|].
    split; [simpl; by rewrite lookup_insert_eq|].
    split; [intros j Hj; simpl; by rewrite lookup_insert_ne|].
    split; [by apply apply_update_secret|].
    split; [done|]. split; [by rewrite Hk|].
    split; [simpl; by destruct (p_host d)|].
    split; [simpl; by destruct (p_port d)|].
    split; [simpl; by destruct (p_database_name d)|].
    split; [simpl; by destruct (p_username d)|].
    split; [done|]. split; [done|].
    intros Ht. unfold test. simpl. rewrite lookup_insert_eq, Hc, Ht.
    by rewrite apply_update_secret. }
  destruct (p_db_type d) as [t|] eqn:Ht; simpl in *.
  - destruct (Hkind t eq_refl) as [k Hk]. rewrite Hk in Hgo |- *. by apply Hgo.
  - by apply Hgo.
Qed.

(** The round trip on the warehouse connection: registered with the
    password "s3cret", then renamed and moved to another port by an
    update that has no password field. The stored credential is the one
    from registration, and the target, which lets in whoever presents
    that password, still accepts the test. *)
Lemma update_without_password_keeps_credential_witness :
  let d :=
    {| p_name := Some "warehouse (replica)"; p_db_type := None; p_host := None;
       p_port := Some 5433; p_database_name := None; p_username := None;
       p_password := None; p_ssl_enabled := None; p_is_readonly := None |} in
  register Demo.reversing "2026-01-01T00:00:00Z" Demo.warehouse_descriptor empty_state
    = inr (Demo.warehouse_registered, Demo.warehouse) /\
  exists c st' c',
    stored Demo.warehouse_registered !! 1 = Some c /\
    st_secret c = Some "terc3s" /\
    update Demo.reversing 1 d Demo.warehouse_registered = inr (st', redact c') /\
    stored st' !! 1 = Some c' /\
    st_secret c' = Some "terc3s" /\
    st_name c' = "warehouse (replica)" /\
    st_port c' = Some 5433 /\
    test Demo.reversing Demo.password_checked 1 st'
      = inr {| test_success := true; test_message := "Connection successful" |}.
Proof.
  intros d. split; [by vm_compute|].
  assert (Hst : stored Demo.warehouse_registered !! 1 =
    Some {| st_id := 1; st_name := "warehouse"; st_kind := postgres;
            st_host := Some "db.internal"; st_port := Some 5432;
            st_database := Some "warehouse"; st_username := Some "reader";
            st_secret := Some "terc3s"; st_ssl := true; st_readonly := true;
            st_created_at := "2026-01-01T00:00:00Z"; st_last_used_at := None |})
    by (by vm_compute).
  destruct (update_without_password_keeps_credential Demo.reversing Demo.reversing
              Demo.password_checked Demo.warehouse_registered 1 _ d Hst eq_refl)
    as (st' & c' & Hup & Hl & _ & Hsec & Hname & _ & _ & Hport & _).
  { intros t Ht. discriminate Ht. }
  eexists _, st', c'. split; [exact Hst|]. split; [reflexivity|].
  split; [exact Hup|]. split; [exact Hl|]. split; [exact Hsec|].
  split; [exact Hname|]. split; [exact Hport|].
  unfold test. rewrite Hl, Hsec. reflexivity.
Defined.

(** What the page sends: the form the edit dialog opens with does carry
    a password field, holding the empty string, and saving it as it is
    sends that form in one update request. What the registry does with
    an empty password the contract of section 4.1 does not say. *)
Example edit_and_save_example :
  let env := initial_env Demo.logged_in tt in
  let '(_, p1, e1) := ConnectionsPage.handleEdit (W:=unit) Demo.warehouse Demo.listing env in
  let '(_, p2, e2) := ConnectionsPage.handleSubmit Cases.keeping p1 p1 e1 in
  password (ConnectionsPage.formData p1) = Some "" /\
  p_password (as_partial (ConnectionsPage.edit_form Demo.warehouse)) = Some "" /\
  calls e2 = [ConnectionsUpdate 1 (as_partial (ConnectionsPage.edit_form Demo.warehouse));
              ConnectionsList].
Proof. by vm_compute. Qed.

(** A password typed into the form does replace the stored credential. *)
Example new_password_example :
  let d :=
    {| p_name := None; p_db_type := None; p_host := None; p_port := None;
       p_database_name := None; p_username := None; p_password := Some "other";
       p_ssl_enabled := None; p_is_readonly := None |} in
  match update Demo.reversing 1 d Demo.warehouse_registered with
  | inr (st', _) =>
      (st_secret <$> stored st' !! 1) = Some (Some "rehto") /\
      test Demo.reversing Demo.password_checked 1 st'
        = inr {| test_success := false;
                 test_message := "password authentication failed" |}
  | inl _ => False
  end.
Proof. by vm_compute. Qed.

End RegistryFacts.
(* ===================================================================== *)
(** * Properties of the favorite flag                                     *)
(* ===================================================================== *)

Module FavoriteFacts.
Import Js Types Api ApiFacts Backend.

Lemma flip_flip h : flip (flip h) = h.
Proof. destruct h. unfold flip. simpl. by rewrite negb_involutive. Qed.

(** One toggle of an entry of the backend. *)
Lemma toggleFavorite_entry st id h :
  entries st !! id = Some h ->
  toggleFavorite id st
    = (with_entries (<[id := flip h]> (entries st)) st, inr (negb (he_favorite h))).
Proof. intros H. unfold toggleFavorite. by rewrite H. Qed.

Lemma toggleFavorite_twice st id h :
  entries st !! id = Some h ->
  (toggleFavorite id (toggleFavorite id st).1) = (st, inr (he_favorite h)).
Proof.
  intros H. rewrite (toggleFavorite_entry _ _ _ H). simpl.
  unfold toggleFavorite. simpl. rewrite lookup_insert_eq. simpl.
  rewrite negb_involutive. f_equal.
  rewrite insert_insert_eq, flip_flip, insert_id by done.
  by destruct st.
Qed.

(** What the page shows after its handler stored the flag [b]. *)
Lemma shown_favorite_map b id l :
  HistoryPage.shown_favorite
    {| HistoryPage.history :=
         map (fun h => if bool_decide (hist_id h = id)
                       then HistoryPage.with_is_favorite b h else h) l |} id
  = (fun _ => b) <$> HistoryPage.shown_favorite {| HistoryPage.history := l |} id.
Proof.
  unfold HistoryPage.shown_favorite. simpl.
  induction l as [|h l IH]; simpl; [done|].
  rewrite !filter_cons. case_bool_decide as Hid.
  - simpl. rewrite !decide_True by done. done.
  - rewrite !decide_False by done. apply IH.
Qed.

Section Deployed.
Variable encrypt : string -> string.
Variable decrypt : string -> string.
Variable connects :
  engine_kind * option string * option Z * option string * option string * bool ->
  option string -> TestResult.
Variable engine : Stored -> string -> execution.
Variable status_of : error -> Z.
Variable detail_of : error -> string.
Variable now : string.
Variable others : server State.

Local Abbreviation srv :=
  (Deployment.backend_server encrypt decrypt connects engine status_of detail_of now others).

(** One run of the page's handler against the backend. *)
Lemma page_toggle (p : HistoryPage.Page) (e : Env State) id h :
  entries (backend e) !! id = Some h ->
  exists e',
    HistoryPage.toggleFavorite srv p id p e
      = (Return tt,
         {| HistoryPage.history :=
              map (fun x => if bool_decide (hist_id x = id)
                            then HistoryPage.with_is_favorite (negb (he_favorite h)) x
                            else x) (HistoryPage.history p) |},
         e') /\
    backend e' = (toggleFavorite id (backend e)).1 /\
    calls e' = calls e ++ [QueryToggleFavorite id] /\
    console e' = console e /\
    browser e' = browser e.
Proof.
  intros Hh. unfold HistoryPage.toggleFavorite, queryApi_toggleFavorite.
  unfold try_catch, bind, request, modify. simpl.
  unfold Deployment.respond_backend. rewrite (toggleFavorite_entry _ _ _ Hh). simpl.
  eexists. split; [reflexivity|]. simpl. repeat split; try done.
  unfold calls. simpl. rewrite fmap_app. simpl. do 2 f_equal.
  exact (outgoing_call (browser e) (QueryToggleFavorite id)).
Qed.

(** C8: for every entry of the history, a toggle flips its favorite flag
    and returns the new state; a second toggle returns the opposite
    value and leaves the backend as it was before the first. Neither call
    fails. The history page, which stores what each call returns, shows
    the flipped flag after the first click and the original one after the
    second. *)
Theorem toggle_favorite_twice_restores
    (st : State) (id : Z) (h : HistoryEntry) (p : HistoryPage.Page) (e : Env State) :
  entries st !! id = Some h ->
  backend e = st ->
  let '(st1, r1) := toggleFavorite id st in
  let '(st2, r2) := toggleFavorite id st1 in
  r1 = inr (negb (he_favorite h)) /\
  (he_favorite <$> entries st1 !! id) = Some (negb (he_favorite h)) /\
  r2 = inr (he_favorite h) /\
  st2 = st /\
  let '(o1, p1, e1) := HistoryPage.toggleFavorite srv p id p e in
  let '(o2, p2, e2) := HistoryPage.toggleFavorite srv p1 id p1 e1 in
  o1 = Return tt /\ o2 = Return tt /\
  console e2 = console e /\
  calls e2 = calls e ++ [QueryToggleFavorite id; QueryToggleFavorite id] /\
  backend e1 = st1 /\ backend e2 = st /\
  HistoryPage.shown_favorite p1 id
    = (fun _ => negb (he_favorite h)) <$> HistoryPage.shown_favorite p id /\
  HistoryPage.shown_favorite p2 id
    = (fun _ => he_favorite h) <$> HistoryPage.shown_favorite p id.
Proof.
  intros Hh <-.
  pose proof (toggleFavorite_twice _ _ _ Hh) as Htwice.
  rewrite (toggleFavorite_entry _ _ _ Hh) in Htwice |- *. simpl in Htwice.
  rewrite Htwice.
  split; [done|]. split; [simpl; by rewrite lookup_insert_eq|].
  split; [done|]. split; [done|].
  destruct (page_toggle p e id h Hh) as (e1 & Hrun1 & Hb1 & Hc1 & Hl1 & _).
  rewrite Hrun1.
  rewrite (toggleFavorite_entry _ _ _ Hh) in Hb1. simpl in Hb1.
  assert (Hh1 : entries (backend e1) !! id = Some (flip h)).
  { rewrite Hb1. simpl. by rewrite lookup_insert_eq. }
  match goal with |- context [HistoryPage.toggleFavorite _ ?p1 id ?p1 e1] =>
    destruct (page_toggle p1 e1 id (flip h) Hh1) as (e2 & Hrun2 & Hb2 & Hc2 & Hl2 & _)
  end.
  rewrite Hrun2.
  split; [done|]. split; [done|].
  split; [by rewrite Hl2, Hl1|].
  split; [by rewrite Hc2, Hc1, <- (assoc_L (++))|].
  split; [done|].
  split; [rewrite Hb2, Hb1; exact (f_equal fst Htwice)|].
  destruct p as [l]. split; [apply shown_favorite_map|].
  simpl. rewrite negb_involutive. rewrite shown_favorite_map, shown_favorite_map.
  by destruct (HistoryPage.shown_favorite {| HistoryPage.history := l |} id).
Qed.

End Deployed.

Lemma toggle_favorite_twice_restores_witness :
  (he_favorite <$> entries Demo.with_history !! 1) = Some false /\
  (let '(st1, r1) := toggleFavorite 1 Demo.with_history in
   let '(st2, r2) := toggleFavorite 1 st1 in
   r1 = inr true /\
   (he_favorite <$> entries st1 !! 1) = Some true /\
   r2 = inr false /\
   st2 = Demo.with_history).
Proof.
  assert (Hh : entries Demo.with_history !! 1 =
    Some {| he_connection := 1; he_question := None;
            he_sql := Some "SELECT COUNT(*) FROM orders"; he_row_count := Some 1;
            he_status := success; he_error := None; he_favorite := false |})
    by (by vm_compute).
  split; [by rewrite Hh|].
  pose proof (toggle_favorite_twice_restores Demo.reversing Demo.reversing
                Demo.always_reachable Demo.counting_engine Demo.error_status
                Demo.error_detail "2026-01-01T00:00:00Z" Deployment.silent
                Demo.with_history 1 _ {| HistoryPage.history := [Demo.history_entry] |}
                (initial_env Demo.logged_in Demo.with_history) Hh eq_refl) as H.
  destruct (toggleFavorite 1 Demo.with_history) as [st1 r1].
  destruct (toggleFavorite 1 st1) as [st2 r2].
  destruct H as (H1 & H2 & H3 & H4 & _). done.
Defined.

(** Two clicks on the star of the only history entry. *)
Example star_twice_example :
  let p := {| HistoryPage.history := [Demo.history_entry] |} in
  let e := initial_env Demo.logged_in Demo.with_history in
  let '(_, p1, e1) := HistoryPage.toggleFavorite Demo.deployed p 1 p e in
  let '(_, p2, e2) := HistoryPage.toggleFavorite Demo.deployed p1 1 p1 e1 in
  HistoryPage.shown_favorite p1 1 = Some true /\
  HistoryPage.shown_favorite p2 1 = Some false /\
  (req_url <$> sent e2) = ["/api/query/history/1/favorite"; "/api/query/history/1/favorite"] /\
  (req_method <$> sent e2) = [PUT; PUT] /\
  console e2 = [].
Proof. by vm_compute. Qed.

(** A toggle of an entry that does not exist is an error, which the page
    logs. *)
Example star_missing_example :
  let p := {| HistoryPage.history := [Demo.history_entry] |} in
  let '(_, p1, e1) :=
    HistoryPage.toggleFavorite Demo.deployed p 7 p
      (initial_env Demo.logged_in Demo.with_history) in
  toggleFavorite 7 Demo.with_history = (Demo.with_history, inl NotFound) /\
  p1 = p /\ console e1 = ["Failed to toggle favorite:"].
Proof. by vm_compute. Qed.

End FavoriteFacts.

(* ===================================================================== *)
(** * More on the data table: sorting                                     *)
(* ===================================================================== *)

Module SortFacts.
Import Js DataTable TableOrder.

(** X1: a click on a column header makes that column the sorted one and
    the only one that shows an indicator; a second click on it reverses
    the direction and a third click brings back the state after the
    first, so the clicks on one header alternate between the two
    directions. *)
Theorem handleSort_cycles (st : SortState) (c : nat) :
  sortColumn (handleSort st c) = Some c /\
  sortColumn (handleSort (handleSort st c) c) = Some c /\
  sortDirection (handleSort (handleSort st c) c) <> sortDirection (handleSort st c) /\
  handleSort (handleSort (handleSort st c) c) c = handleSort st c /\
  forall i col,
    indicator (render_header (handleSort st c) i col) =
      if bool_decide (i = c) then Some (sortDirection (handleSort st c)) else None.
Proof.
  assert (H1 : sortColumn (handleSort st c) = Some c).
  { unfold handleSort. by case_bool_decide. }
  assert (H2 : forall st', sortColumn st' = Some c ->
            handleSort st' c =
              {| sortColumn := Some c;
                 sortDirection := match sortDirection st' with asc => desc | desc => asc end |}).
  { intros st' E. unfold handleSort. rewrite bool_decide_eq_true_2 by done. by rewrite E. }
  split; [done|]. rewrite (H2 _ H1). simpl.
  split; [done|]. split; [by destruct (sortDirection (handleSort st c))|].
  split.
  - rewrite H2 by done. simpl.
    destruct (handleSort st c) as [col d]. simpl in *. subst col. by destruct d.
  - intros i col. unfold render_header. simpl. rewrite H1.
    repeat case_bool_decide; simplify_eq; done.
Qed.

Lemma sort_constant {A} (cmp : A -> A -> Z) (l : list A) :
  (forall x y, cmp x y = 0) -> sort cmp l = l.
Proof.
  intros H. induction l as [|x l IH]; [done|].
  unfold sort in *. simpl. rewrite IH.
  destruct l as [|y l]; [done|]. simpl. by rewrite H.
Qed.

(** X2: while no column is sorted the table keeps the rows in the order
    it was given them: it shows the first [maxRows] rows of [rows], for
    either direction and any comparison of cell values. *)
Theorem unsorted_table_keeps_order (js_lt : value -> value -> bool)
    (rows : list (list value)) (maxRows : nat) (d : direction) :
  sortedRows js_lt rows (Z.of_nat maxRows) {| sortColumn := None; sortDirection := d |}
    = take maxRows rows.
Proof.
  unfold sortedRows. rewrite sort_constant by done. unfold slice0.
  rewrite (proj2 (Z.ltb_ge _ _)) by lia.
  destruct (decide (maxRows <= length rows)%nat).
  - rewrite Z.min_l by lia. by rewrite Nat2Z.id.
  - rewrite Z.min_r by lia. rewrite Nat2Z.id.
    rewrite !take_ge; [done | lia | lia].
Qed.

(** X3: the table invents no row and repeats none: whatever the sort
    state and the comparison, the rows shown are rows of the input, each
    at most as often as the input has it; and when the cap is not below
    the number of rows, the rows shown are all the rows, rearranged. *)
Theorem table_shows_only_given_rows (js_lt : value -> value -> bool)
    (rows : list (list value)) (maxRows : Z) (spare : nat) (st : SortState) :
  sortedRows js_lt rows maxRows st ⊆+ rows /\
  sortedRows js_lt rows (Z.of_nat (length rows + spare)) st ≡ₚ rows.
Proof.
  unfold sortedRows, slice0. split.
  - etrans; [apply sublist_submseteq, sublist_take|].
    apply Permutation_submseteq, DataTableFacts.sort_perm.
  - rewrite (proj2 (Z.ltb_ge _ _)) by lia.
    rewrite take_ge; [apply DataTableFacts.sort_perm|].
    rewrite DataTableFacts.sort_length. lia.
Qed.

Lemma ordered_take {A} (R : A -> A -> Prop) k l : ordered R l -> ordered R (take k l).
Proof.
  revert k. induction l as [|x l IH]; intros [|k]; simpl; try done.
  intros [H1 H2]. split; [|by apply IH].
  apply Forall_forall. intros y Hy.
  apply (proj1 (Forall_forall _ _) H1). by apply (subseteq_take k).
Qed.

Lemma sort_insert_ordered {A} (cmp : A -> A -> Z) (R : A -> A -> Prop) x l :
  (forall y, y ∈ l -> (cmp x y <= 0 -> R x y) /\ (0 < cmp x y -> R y x)) ->
  (forall y z, y ∈ l -> z ∈ l -> R x y -> R y z -> R x z) ->
  ordered R l -> ordered R (sort_insert cmp x l).
Proof.
  intros Hc Ht. induction l as [|y l IH]; simpl; [done|].
  intros [Hy Hl].
  destruct (cmp x y <=? 0) eqn:E.
  - apply Z.leb_le in E. simpl. split; [|done].
    assert (Rxy : R x y) by (apply Hc; [left | done]).
    constructor; [done|].
    apply Forall_forall. intros z Hz.
    apply (Ht y z); [left | by right | done |].
    by apply (proj1 (Forall_forall _ _) Hy).
  - apply Z.leb_gt in E. simpl. split.
    + apply Forall_forall. intros z Hz.
      rewrite (DataTableFacts.sort_insert_perm cmp x l) in Hz.
      apply elem_of_cons in Hz as [-> | Hz].
      * apply Hc; [left | done].
      * by apply (proj1 (Forall_forall _ _) Hy).
    + apply IH; [| |done].
      * intros z Hz. apply Hc. by right.
      * intros z1 z2 H1 H2. apply Ht; by right.
Qed.

(** X4: a click on a column that holds a number in every row puts the
    rows in the order of those numbers, ascending or descending as the
    indicator says: of any two rows shown, the upper one has the number
    that comes first or an equal one. *)
Theorem numeric_column_is_sorted
    (rows : list (list value)) (maxRows : Z) (c : nat) (d : direction) :
  Forall (fun row => exists n, index row c = VNum n) rows ->
  ordered (in_order c d)
    (sortedRows lt_same_type rows maxRows {| sortColumn := Some c; sortDirection := d |}).
Proof.
  intros Hnum. unfold sortedRows, slice0. apply ordered_take.
  induction rows as [|x rows IH]; [done|].
  apply Forall_cons in Hnum as [[n Hx] Hnum].
  set (cmp := compareRows lt_same_type {| sortColumn := Some c; sortDirection := d |}) in *.
  change (sort cmp (x :: rows)) with (sort_insert cmp x (sort cmp rows)).
  assert (Hin : forall y, y ∈ sort cmp rows -> exists m, index y c = VNum m).
  { intros y Hy. rewrite (DataTableFacts.sort_perm cmp rows) in Hy.
    by apply (proj1 (Forall_forall _ _) Hnum). }
  apply sort_insert_ordered; [| |by apply IH].
  - intros y Hy. destruct (Hin y Hy) as [m Hm].
    unfold cmp, compareRows, in_order. simpl. rewrite Hx, Hm. simpl.
    destruct (n <? m) eqn:E1; [apply Z.ltb_lt in E1|apply Z.ltb_ge in E1];
      (destruct (m <? n) eqn:E2; [apply Z.ltb_lt in E2|apply Z.ltb_ge in E2]);
      destruct d; simpl; split; lia.
  - intros y z Hy Hz. destruct (Hin y Hy) as [m Hm]. destruct (Hin z Hz) as [k Hk].
    unfold in_order. rewrite Hx, Hm, Hk. destruct d; lia.
Qed.

Lemma numeric_column_is_sorted_witness :
  Forall (fun row => exists n, index row 1 = VNum n)
    [[VStr "a"; VNum 3]; [VStr "b"; VNum 1]; [VStr "c"; VNum 2]] /\
  ordered (in_order 1 desc)
    (sortedRows lt_same_type
       [[VStr "a"; VNum 3]; [VStr "b"; VNum 1]; [VStr "c"; VNum 2]] 2
       {| sortColumn := Some 1%nat; sortDirection := desc |}).
Proof.
  assert (H : Forall (fun row => exists n, index row 1 = VNum n)
                [[VStr "a"; VNum 3]; [VStr "b"; VNum 1]; [VStr "c"; VNum 2]]).
  { repeat constructor; by eexists. }
  split; [exact H|].
  exact (numeric_column_is_sorted _ 2 1%nat desc H).
Defined.

End SortFacts.

(* ===================================================================== *)
(** * More on the API client                                              *)
(* ===================================================================== *)

Module ClientFacts.
Import Js Types Api ApiFacts Runtime.

Lemma outgoing_url b c : req_url (outgoing b c) = baseURL +:+ path_of c.
Proof.
  unfold outgoing, dispatched, request_interceptor.
  destruct (localStorage b !! "token") as [t|]; [destruct (truthy_str t)|];
    simpl; by destruct (has_body c).
Qed.

Lemma outgoing_method b c : req_method (outgoing b c) = method_of c.
Proof.
  unfold outgoing, dispatched, request_interceptor.
  destruct (localStorage b !! "token") as [t|]; [destruct (truthy_str t)|];
    simpl; by destruct (has_body c).
Qed.

(** X5: the request interceptor touches nothing but the [Authorization]
    header: method, URL and payload of the request and every other header
    leave it as they came, so every request of the client goes to
    [/api] + its path with the method of its call, and carries the JSON
    content type when it has a body and no content type when it has
    none. *)
Theorem request_interceptor_only_adds_authorization
    (b : Browser) (config : Request) (c : call) :
  req_method (request_interceptor b config) = req_method config /\
  req_url (request_interceptor b config) = req_url config /\
  req_call (request_interceptor b config) = req_call config /\
  (forall key, key <> "Authorization" ->
     req_headers (request_interceptor b config) !! key = req_headers config !! key) /\
  req_method (outgoing b c) = method_of c /\
  req_url (outgoing b c) = "/api" +:+ path_of c /\
  req_headers (outgoing b c) !! "Content-Type" =
    (if has_body c then Some "application/json" else None).
Proof.
  assert (F : req_method (request_interceptor b config) = req_method config /\
              req_url (request_interceptor b config) = req_url config /\
              req_call (request_interceptor b config) = req_call config /\
              forall key, key <> "Authorization" ->
                req_headers (request_interceptor b config) !! key
                  = req_headers config !! key).
  { unfold request_interceptor.
    destruct (localStorage b !! "token") as [t|]; [|done].
    destruct (truthy_str t); [|done]. simpl.
    repeat split. intros key Hk. by rewrite lookup_insert_ne. }
  destruct F as (F1 & F2 & F3 & F4).
  split; [done|]. split; [done|]. split; [done|]. split; [done|].
  split; [apply outgoing_method|]. split; [apply outgoing_url|].
  unfold outgoing, dispatched, request_interceptor.
  destruct (localStorage b !! "token") as [t|]; [destruct (truthy_str t)|];
    simpl; destruct (has_body c); simpl;
    rewrite ?lookup_delete_eq, ?lookup_insert_ne by done; done.
Qed.

(** The profile request has no body and goes out without a content
    type; the execute request has one. *)
Example content_type_example :
  req_headers (outgoing Demo.logged_in AuthMe)
    = {[ "Authorization" := "Bearer abc" ]} /\
  req_headers (outgoing Demo.logged_in (QueryExecute 1 "SELECT 1"))
    = {[ "Authorization" := "Bearer abc"; "Content-Type" := "application/json" ]}.
Proof. by vm_compute. Qed.

(** X6: an error other than a 401 response (another status, or no
    response at all) makes the call throw that error and leaves the
    stored token and the location of the browser as they were. *)
Theorem other_errors_keep_the_session
    {W S : Type} (srv : server W) (c : call) (s : S) (e : Env W) (err : AxiosError) :
  error_of_reply (respond srv c (backend e)).1 = Some err ->
  error_status err <> Some 401 ->
  let '(o, s', e') := request srv c s e in
  o = Throw err /\ s' = s /\ browser e' = browser e /\
  sent e' = sent e ++ [outgoing (browser e) c].
Proof.
  intros Herr Hst.
  destruct (request srv c s e) as [[o s'] e'] eqn:Hreq.
  apply request_inv in Hreq as (-> & Hs & _ & _ & Ho).
  destruct (respond srv c (backend e)).1 as [d|st d|msg]; simpl in *; [done|..].
  - destruct Ho as [-> Hb]. injection Herr as <-.
    rewrite Hb. unfold response_error_interceptor.
    by rewrite bool_decide_eq_false_2.
  - destruct Ho as [-> Hb]. by injection Herr as <-.
Qed.

Lemma other_errors_keep_the_session_witness :
  let err := {| response := Some (500, empty_error_body);
                message := "Request failed with status code 500" |} in
  let '(o, s', e') :=
    request (Cases.failing 500 None) ConnectionsList tt (initial_env Demo.logged_in tt) in
  o = Throw err /\ s' = tt /\ browser e' = Demo.logged_in /\
  sent e' = [] ++ [outgoing Demo.logged_in ConnectionsList].
Proof.
  apply (other_errors_keep_the_session (Cases.failing 500 None) ConnectionsList tt
           (initial_env Demo.logged_in tt)
           {| response := Some (500, empty_error_body);
              message := "Request failed with status code 500" |}).
  - reflexivity.
  - simpl. discriminate.
Defined.

(** ** More rules for running handlers *)

Section Rules.
Context {W S : Type}.
Implicit Types (s : S) (e : Env W).

Lemma wp_setItem key v (Q : outcome unit -> S -> Env W -> Prop) s e :
  Q (Return tt) s
    {| browser := {| localStorage := <[key := v]> (localStorage (browser e));
                     href := href (browser e) |};
       backend := backend e; sent := sent e; console := console e |} ->
  wp (setItem key v) Q s e.
Proof. done. Qed.

Lemma wp_removeItem key (Q : outcome unit -> S -> Env W -> Prop) s e :
  Q (Return tt) s
    {| browser := {| localStorage := delete key (localStorage (browser e));
                     href := href (browser e) |};
       backend := backend e; sent := sent e; console := console e |} ->
  wp (removeItem key) Q s e.
Proof. done. Qed.

Lemma wp_zoom {T A} (get : S -> T) (put : T -> S -> S) (m : M W T A) Q s e :
  wp m (fun o t' e' => Q o (put t' s) e') (get s) e ->
  wp (zoom get put m) Q s e.
Proof. unfold wp, zoom. by destruct (m (get s) e) as [[o t'] e']. Qed.

End Rules.

Ltac wp_step' :=
  lazymatch goal with
  | |- wp (setItem _ _) _ _ _ => apply wp_setItem
  | |- wp (removeItem _) _ _ _ => apply wp_removeItem
  | |- wp (zoom _ _ _) _ _ _ => apply wp_zoom
  | _ => wp_step
  end.

Ltac wp_go := repeat (wp_step'; simpl).

(** What a reply that is an error does to the stored token. *)
Lemma intercepted_token {A} (r : reply A) b :
  localStorage (intercepted r b) !! "token" = None \/
  intercepted r b = b.
Proof.
  unfold intercepted. destruct (error_of_reply r) as [err|]; [|by right].
  unfold response_error_interceptor. case_bool_decide; [|by right].
  left. simpl. apply lookup_delete_eq.
Qed.

End ClientFacts.

(* ===================================================================== *)
(** * The stores, the login page and the layout                           *)
(* ===================================================================== *)

Module SessionFacts.
Import Js Types Api ApiFacts Runtime ClientFacts Store.

(** X7: what [setAuth] stores survives a reload and is what the client
    sends: after [setAuth(user, token)] a store created afresh from the
    browser starts with that token and no user, and the next request
    carries it as bearer token when it is not empty; after [clearAuth]
    a fresh store starts without a token and the next request carries
    no [Authorization] header. *)
Theorem auth_store_round_trip
    {W : Type} (u : User) (t : string) (s : AuthState) (e : Env W) (c : call) :
  (let '(o, s', e') := setAuth u t s e in
   o = Return tt /\
   s' = {| user := Some u; token := Some t |} /\
   useAuthStore (browser e') = {| user := None; token := Some t |} /\
   req_headers (outgoing (browser e') c) !! "Authorization"
     = (if truthy_str t then Some ("Bearer " +:+ t) else None) /\
   sent e' = sent e) /\
  (let '(o, s', e') := clearAuth s e in
   o = Return tt /\
   s' = {| user := None; token := None |} /\
   useAuthStore (browser e') = s' /\
   req_headers (outgoing (browser e') c) !! "Authorization" = None /\
   sent e' = sent e).
Proof.
  split.
  - unfold setAuth, setItem, bind, modify, useAuthStore. simpl.
    rewrite outgoing_authorization. simpl. rewrite !lookup_insert_eq. done.
  - unfold clearAuth, removeItem, bind, modify, useAuthStore. simpl.
    rewrite outgoing_authorization. simpl. rewrite !lookup_delete_eq. done.
Qed.

(** X8: the dark mode switch is persistent and an involution: after
    [toggleDarkMode] the mode is the opposite one, the document element
    has the class [dark] exactly in dark mode, a store created afresh
    from [localStorage] starts in the new mode, and no other key of
    [localStorage], class of the document or field of the store has
    changed; a second toggle brings back the first mode. *)
Theorem dark_mode_round_trip
    (state : AppState) (storage : gmap string string) (classList : gset string) :
  let '(state1, storage1, classList1) := toggleDarkMode state storage classList in
  let '(state2, storage2, classList2) := toggleDarkMode state1 storage1 classList1 in
  darkMode state1 = negb (darkMode state) /\
  darkMode (useAppStore storage1) = darkMode state1 /\
  ("dark" ∈ classList1 <-> darkMode state1 = true) /\
  selectedConnection state1 = selectedConnection state /\
  (forall key, key <> "darkMode" -> storage1 !! key = storage !! key) /\
  (forall name, name <> "dark" -> name ∈ classList1 <-> name ∈ classList) /\
  state2 = state /\
  darkMode (useAppStore storage2) = darkMode state /\
  ("dark" ∈ classList2 <-> darkMode state = true).
Proof.
  unfold toggleDarkMode, useAppStore, classList_toggle. simpl.
  rewrite !lookup_insert_eq. rewrite negb_involutive.
  destruct state as [dm sel]. simpl.
  destruct dm; simpl; repeat split; try done;
    try (intros key Hk; by rewrite lookup_insert_ne);
    rewrite ?elem_of_union, ?elem_of_difference, ?elem_of_singleton;
    intuition congruence.
Qed.

Lemma or_str_truthy a b : b <> "" -> or_str a b <> "".
Proof.
  intros Hb. unfold or_str. destruct a as [x|]; [|done].
  unfold truthy_str. case_bool_decide; simpl; done.
Qed.

(** ** The login page *)

Ltac unfold_login :=
  unfold LoginPage.handleSubmit, LoginPage.setError, LoginPage.setLoading,
    LoginPage.navigate, authApi_login, authApi_me, setAuth, clearAuth.

(** X9: a login the backend accepts signs the user in: the token of
    the response is stored, the profile request that follows carries it
    as bearer token whatever was stored before, the auth store holds
    the profile and the token, the page shows no error, is no longer
    loading, and the router is sent to the dashboard. Exactly the login
    and the profile request are sent. *)
Theorem login_signs_in
    {W : Type} (srv : server W) (cl s : LoginPage.Page) (e : Env W)
    (res : LoginResult) (w1 : W) (u : User) (w2 : W) :
  respond srv (AuthLogin (LoginPage.email cl) (LoginPage.password cl)) (backend e)
    = (Success res, w1) ->
  respond srv AuthMe w1 = (Success u, w2) ->
  access_token res <> "" ->
  let '(o, s', e') := LoginPage.handleSubmit srv cl s e in
  o = Return tt /\
  LoginPage.auth s' = {| user := Some u; token := Some (access_token res) |} /\
  LoginPage.pathname s' = "/" /\
  LoginPage.error s' = "" /\
  LoginPage.loading s' = false /\
  localStorage (browser e') !! "token" = Some (access_token res) /\
  calls e' = calls e ++ [AuthLogin (LoginPage.email cl) (LoginPage.password cl); AuthMe] /\
  (exists r1 r2, sent e' = sent e ++ [r1; r2] /\
     req_headers r2 !! "Authorization" = Some ("Bearer " +:+ access_token res)) /\
  backend e' = w2.
Proof.
  intros H1 H2 Ht.
  unfold_login.
  unfold bind, finally, try_catch, modify, zoom, setItem, request. simpl.
  rewrite H1. simpl. rewrite H2. simpl.
  rewrite lookup_insert_eq.
  repeat split; try done.
  - unfold calls. simpl. rewrite <- (assoc_L (++)), fmap_app. simpl.
    by rewrite !outgoing_call.
  - eexists _, _. rewrite <- (assoc_L (++)). split; [reflexivity|].
    rewrite outgoing_authorization. simpl. rewrite lookup_insert_eq.
    unfold truthy_str. by rewrite bool_decide_eq_false_2.
Qed.

Lemma login_signs_in_witness :
  let page :=
    Cases.signing_in "pw" "Login failed" in
  let '(o, s', e') :=
    LoginPage.handleSubmit (Cases.letting_in (Success Cases.alice)) page page
      (initial_env {| localStorage := ∅; href := "/login" |} tt) in
  o = Return tt /\
  LoginPage.auth s' = {| user := Some Cases.alice; token := Some "t0k3n" |} /\
  LoginPage.pathname s' = "/" /\
  LoginPage.error s' = "" /\
  LoginPage.loading s' = false /\
  localStorage (browser e') !! "token" = Some "t0k3n" /\
  calls e' = [] ++ [AuthLogin "alice@example.com" "pw"; AuthMe] /\
  (exists r1 r2, sent e' = [] ++ [r1; r2] /\
     req_headers r2 !! "Authorization" = Some ("Bearer " +:+ "t0k3n")) /\
  backend e' = tt.
Proof.
  apply (login_signs_in (Cases.letting_in (Success Cases.alice))
           (Cases.signing_in "pw" "Login failed")
           (Cases.signing_in "pw" "Login failed")
           (initial_env {| localStorage := ∅; href := "/login" |} tt)
           {| access_token := "t0k3n" |} tt Cases.alice tt);
    [reflexivity | reflexivity | done].
Defined.

(** X10: a login that fails with anything but a 401 or a 422 response
    (another error status whose body carries a string as detail or no
    detail, or no response at all) is reported on the page and changes
    nothing else: the page shows the detail of the error response, or
    "Login failed" when there is none, and never an empty message;
    loading ends, the auth store, the location of the router and the
    browser stay as they were, no profile request is sent, and the
    handler does not throw. *)
Theorem refused_login_is_reported
    {W : Type} (srv : server W) (cl s : LoginPage.Page) (e : Env W) (err : AxiosError) :
  error_of_reply
    (respond srv (AuthLogin (LoginPage.email cl) (LoginPage.password cl)) (backend e)).1
    = Some err ->
  error_status err <> Some 401 ->
  error_status err <> Some 422 ->
  let '(o, s', e') := LoginPage.handleSubmit srv cl s e in
  o = Return tt /\
  LoginPage.error s' = or_str (error_data err ≫= err_detail) "Login failed" /\
  LoginPage.error s' <> "" /\
  LoginPage.loading s' = false /\
  LoginPage.auth s' = LoginPage.auth s /\
  LoginPage.pathname s' = LoginPage.pathname s /\
  calls e' = calls e ++ [AuthLogin (LoginPage.email cl) (LoginPage.password cl)] /\
  browser e' = browser e.
Proof.
  intros Herr H401 _.
  change (wp (LoginPage.handleSubmit srv cl)
            (fun o s' e' =>
               o = Return tt /\
               LoginPage.error s' = or_str (error_data err ≫= err_detail) "Login failed" /\
               LoginPage.error s' <> "" /\
               LoginPage.loading s' = false /\
               LoginPage.auth s' = LoginPage.auth s /\
               LoginPage.pathname s' = LoginPage.pathname s /\
               calls e' = calls e ++
                 [AuthLogin (LoginPage.email cl) (LoginPage.password cl)] /\
               browser e' = browser e) s e).
  unfold_login. wp_go.
  - pose proof (exchanged_error _ _ _ _ _ _ Hex Herr). done.
  - pose proof (exchanged_error _ _ _ _ _ _ Hex Herr). done.
  - pose proof (exchanged_error _ _ _ _ _ _ Hex Herr) as [= ->].
    destruct Hex as (_ & _ & _ & Ho).
    repeat split; try done.
    + by apply or_str_truthy.
    + destruct (respond srv _ (backend e)).1; simpl in *; [done|..];
        destruct Ho as (err' & He & _ & Hb); rewrite Hb; simplify_eq;
        unfold response_error_interceptor; by rewrite ?bool_decide_eq_false_2.
Qed.

Lemma refused_login_is_reported_witness :
  let page :=
    Cases.signing_in "pw" "" in
  let err :=
    {| response := Some (403, {| err_sql := None; err_explanation := None;
                                 err_error := None;
                                 err_detail := Some "Account disabled" |});
       message := "Request failed with status code 403" |} in
  let '(o, s', e') :=
    LoginPage.handleSubmit (Cases.failing 403 (Some "Account disabled")) page page
      (initial_env {| localStorage := ∅; href := "/login" |} tt) in
  o = Return tt /\
  LoginPage.error s' = or_str (error_data err ≫= err_detail) "Login failed" /\
  LoginPage.error s' <> "" /\
  LoginPage.loading s' = false /\
  LoginPage.auth s' = {| user := None; token := None |} /\
  LoginPage.pathname s' = "/login" /\
  calls e' = [] ++ [AuthLogin "alice@example.com" "pw"] /\
  browser e' = {| localStorage := ∅; href := "/login" |}.
Proof.
  apply (refused_login_is_reported (Cases.failing 403 (Some "Account disabled"))
           (Cases.signing_in "pw" "")
           (Cases.signing_in "pw" "")
           (initial_env {| localStorage := ∅; href := "/login" |} tt)
           {| response := Some (403, {| err_sql := None; err_explanation := None;
                                        err_error := None;
                                        err_detail := Some "Account disabled" |});
              message := "Request failed with status code 403" |}).
  - reflexivity.
  - simpl. discriminate.
  - simpl. discriminate.
Defined.

(** The two messages the page can show: the detail of the response, and
    the fallback when the backend cannot be reached. *)
Example refused_login_example :
  let page := Cases.signing_in "pw" "" in
  let env := initial_env {| localStorage := ∅; href := "/login" |} tt in
  LoginPage.error (LoginPage.handleSubmit (Cases.failing 403 (Some "Account disabled"))
                     page page env).1.2 = "Account disabled" /\
  LoginPage.error (LoginPage.handleSubmit Cases.offline page page env).1.2 = "Login failed".
Proof. by vm_compute. Qed.

(** X11: when the login succeeds but the profile request that follows
    fails, the page reports the failure and the auth store stays as it
    was, yet the handler has already stored the token: unless the
    failure is a 401 response, the token of the login remains in
    [localStorage], so a store created afresh from the browser starts
    with it. *)
Theorem login_without_profile_keeps_token
    {W : Type} (srv : server W) (cl s : LoginPage.Page) (e : Env W)
    (res : LoginResult) (w1 : W) (err : AxiosError) :
  respond srv (AuthLogin (LoginPage.email cl) (LoginPage.password cl)) (backend e)
    = (Success res, w1) ->
  error_of_reply (respond srv AuthMe w1).1 = Some err ->
  error_status err <> Some 401 ->
  let '(o, s', e') := LoginPage.handleSubmit srv cl s e in
  o = Return tt /\
  LoginPage.error s' = or_str (error_data err ≫= err_detail) "Login failed" /\
  LoginPage.loading s' = false /\
  LoginPage.auth s' = LoginPage.auth s /\
  LoginPage.pathname s' = LoginPage.pathname s /\
  token (useAuthStore (browser e')) = Some (access_token res) /\
  calls e' = calls e ++ [AuthLogin (LoginPage.email cl) (LoginPage.password cl); AuthMe].
Proof.
  intros H1 H2 Hst.
  unfold_login.
  unfold bind, finally, try_catch, modify, zoom, setItem, request. simpl.
  rewrite H1. simpl.
  destruct (respond srv AuthMe w1) as [r w2]. simpl in H2.
  assert (Hcalls : forall (x y : Request) l,
            req_call x = AuthLogin (LoginPage.email cl) (LoginPage.password cl) ->
            req_call y = AuthMe ->
            req_call <$> ((l ++ [x]) ++ [y]) =
              (req_call <$> l) ++
                [AuthLogin (LoginPage.email cl) (LoginPage.password cl); AuthMe]).
  { intros x y l Hx Hy. rewrite <- (assoc_L (++)), fmap_app. simpl. by rewrite Hx, Hy. }
  destruct r as [d|st d|msg]; simpl in *; [done|..]; injection H2 as <-.
  - unfold response_error_interceptor, useAuthStore.
    rewrite bool_decide_eq_false_2 by done. simpl.
    rewrite lookup_insert_eq. repeat split; try done.
    unfold calls. simpl. apply Hcalls; apply outgoing_call.
  - unfold response_error_interceptor, useAuthStore. simpl.
    rewrite lookup_insert_eq. repeat split; try done.
    unfold calls. simpl. apply Hcalls; apply outgoing_call.
Qed.

Lemma login_without_profile_keeps_token_witness :
  let page :=
    Cases.signing_in "pw" "" in
  let err := {| response := None; message := "Network Error" |} in
  let '(o, s', e') :=
    LoginPage.handleSubmit (Cases.letting_in (NoResponse "Network Error")) page page
      (initial_env {| localStorage := ∅; href := "/login" |} tt) in
  o = Return tt /\
  LoginPage.error s' = or_str (error_data err ≫= err_detail) "Login failed" /\
  LoginPage.loading s' = false /\
  LoginPage.auth s' = {| user := None; token := None |} /\
  LoginPage.pathname s' = "/login" /\
  token (useAuthStore (browser e')) = Some "t0k3n" /\
  calls e' = [] ++ [AuthLogin "alice@example.com" "pw"; AuthMe].
Proof.
  apply (login_without_profile_keeps_token (Cases.letting_in (NoResponse "Network Error"))
           (Cases.signing_in "pw" "")
           (Cases.signing_in "pw" "")
           (initial_env {| localStorage := ∅; href := "/login" |} tt)
           {| access_token := "t0k3n" |} tt
           {| response := None; message := "Network Error" |});
    [reflexivity | reflexivity | simpl; discriminate].
Defined.

(** ** The layout and the token check *)

(** X12: logging out always ends the session on the client: whatever
    the backend answers to the logout request, and also when it does
    not answer, the token is gone from [localStorage], the auth store
    is empty and the router is sent to the login page. One request is
    sent, and the handler throws exactly when that request failed. *)
Theorem logout_always_ends_the_session
    {W : Type} (srv : server W) (s : Layout.Shell) (e : Env W) :
  let '(o, s', e') := Layout.handleLogout srv s e in
  localStorage (browser e') !! "token" = None /\
  Layout.auth s' = {| user := None; token := None |} /\
  Layout.pathname s' = "/login" /\
  Layout.sidebarOpen s' = Layout.sidebarOpen s /\
  calls e' = calls e ++ [AuthLogout] /\
  (o = Return tt <-> succeeded (respond srv AuthLogout (backend e)).1 = true).
Proof.
  change (wp (Layout.handleLogout srv)
            (fun o s' e' =>
               localStorage (browser e') !! "token" = None /\
               Layout.auth s' = {| user := None; token := None |} /\
               Layout.pathname s' = "/login" /\
               Layout.sidebarOpen s' = Layout.sidebarOpen s /\
               calls e' = calls e ++ [AuthLogout] /\
               (o = Return tt <->
                succeeded (respond srv AuthLogout (backend e)).1 = true)) s e).
  unfold Layout.handleLogout, Layout.navigate, authApi_logout, clearAuth.
  wp_go.
  - rewrite lookup_delete_eq. repeat split; try done.
    intros _. by apply exchanged_returned in Hex as [w' ->].
  - rewrite lookup_delete_eq. repeat split; try done.
    apply exchanged_thrown in Hex.
    destruct (respond srv AuthLogout (backend e)) as [[d|st d|msg] w'];
      simpl in *; intros; discriminate.
Qed.

Ltac unfold_check :=
  unfold App.validateToken, useAuthStore, authApi_me, setAuth, clearAuth.

(** X13: a stored token the profile request does not confirm is
    dropped, whatever the reason: when the request made on mount fails,
    with an error response or with no response at all, the auth store
    is emptied and the token is removed from [localStorage]. The
    request carried the stored token, and the effect does not throw. *)
Theorem unconfirmed_token_is_dropped
    {W : Type} (srv : server W) (e : Env W) (t : string) (err : AxiosError) :
  localStorage (browser e) !! "token" = Some t ->
  t <> "" ->
  error_of_reply (respond srv AuthMe (backend e)).1 = Some err ->
  let '(o, s', e') :=
    App.validateToken srv (useAuthStore (browser e)) (useAuthStore (browser e)) e in
  o = Return tt /\
  s' = {| user := None; token := None |} /\
  localStorage (browser e') !! "token" = None /\
  calls e' = calls e ++ [AuthMe] /\
  exists r, sent e' = sent e ++ [r] /\
            req_headers r !! "Authorization" = Some ("Bearer " +:+ t).
Proof.
  intros Ht Hne Herr.
  change (wp (App.validateToken srv (useAuthStore (browser e)))
            (fun o s' e' =>
               o = Return tt /\
               s' = {| user := None; token := None |} /\
               localStorage (browser e') !! "token" = None /\
               calls e' = calls e ++ [AuthMe] /\
               exists r, sent e' = sent e ++ [r] /\
                         req_headers r !! "Authorization" = Some ("Bearer " +:+ t))
            (useAuthStore (browser e)) e).
  unfold_check. simpl. rewrite Ht.
  rewrite (proj2 (QueryPageFacts.truthy_str_spec t) Hne).
  wp_go.
  - pose proof (exchanged_error _ _ _ _ _ _ Hex Herr). done.
  - rewrite lookup_delete_eq. destruct Hex as (Hs & _).
    repeat split; try done.
    eexists. split; [exact Hs|].
    rewrite outgoing_authorization, Ht.
    by rewrite (proj2 (QueryPageFacts.truthy_str_spec t) Hne).
Qed.

Lemma unconfirmed_token_is_dropped_witness :
  let '(o, s', e') :=
    App.validateToken Cases.offline (useAuthStore Demo.logged_in)
      (useAuthStore Demo.logged_in) (initial_env Demo.logged_in tt) in
  o = Return tt /\
  s' = {| user := None; token := None |} /\
  localStorage (browser e') !! "token" = None /\
  calls e' = [] ++ [AuthMe] /\
  exists r, sent e' = [] ++ [r] /\
            req_headers r !! "Authorization" = Some ("Bearer " +:+ "abc").
Proof.
  apply (unconfirmed_token_is_dropped Cases.offline (initial_env Demo.logged_in tt)
           "abc" {| response := None; message := "Network Error" |});
    [reflexivity | done | reflexivity].
Defined.

(** The token check on mount leaves the auth store and
    [localStorage] in step: after it, the token of the store is the
    token in [localStorage]; the store holds a user only if the backend
    answered the profile request with that user; and without a
    non-empty stored token the check sends nothing and changes
    nothing. *)
Theorem token_check_keeps_store_in_step
    {W : Type} (srv : server W) (e : Env W) :
  let '(o, s', e') :=
    App.validateToken srv (useAuthStore (browser e)) (useAuthStore (browser e)) e in
  o = Return tt /\
  token s' = localStorage (browser e') !! "token" /\
  (forall u, user s' = Some u -> (respond srv AuthMe (backend e)).1 = Success u) /\
  (truthy_opt (localStorage (browser e) !! "token") = false ->
   s' = useAuthStore (browser e) /\ e' = e).
Proof.
  change (wp (App.validateToken srv (useAuthStore (browser e)))
            (fun o s' e' =>
               o = Return tt /\
               token s' = localStorage (browser e') !! "token" /\
               (forall u, user s' = Some u ->
                          (respond srv AuthMe (backend e)).1 = Success u) /\
               (truthy_opt (localStorage (browser e) !! "token") = false ->
                s' = useAuthStore (browser e) /\ e' = e))
            (useAuthStore (browser e)) e).
  unfold_check. simpl.
  destruct (localStorage (browser e) !! "token") as [t|] eqn:Ht; simpl.
  - destruct (truthy_str t) eqn:Htr.
    + wp_go.
      * rewrite lookup_insert_eq. repeat split; try done.
        intros u' [= <-]. by apply exchanged_returned in Hex as [w' ->].
      * rewrite lookup_delete_eq. repeat split; done.
    + wp_go. repeat split; done.
  - wp_go. repeat split; done.
Qed.

End SessionFacts.

(* ===================================================================== *)
(** * The dashboard and the history list                                  *)
(* ===================================================================== *)

Module ListingFacts.
Import Js Types Api ApiFacts Runtime ClientFacts.

(** X14: the dashboard loads its two lists together or not at all. Its
    effect sends the request for the connections and the request for
    the five latest history entries, both built from the browser as it
    was at the start; when both succeed the page holds both answers,
    and when either fails the page keeps both lists as they were, also
    the one whose request succeeded, and logs one message. In every
    case loading ends and the effect does not throw. *)
Theorem dashboard_loads_all_or_nothing
    {W : Type} (srv : server W) (s : Dashboard.Page) (e : Env W) :
  let '(o, s', e') := Dashboard.fetchData srv s e in
  let first := respond srv ConnectionsList (backend e) in
  let second := respond srv (QueryHistoryList None 5) first.2 in
  o = Return tt /\
  Dashboard.loading s' = false /\
  sent e' = sent e ++ [outgoing (browser e) ConnectionsList;
                       outgoing (browser e) (QueryHistoryList None 5)] /\
  req_url (outgoing (browser e) (QueryHistoryList None 5)) = "/api/query/history?limit=5" /\
  backend e' = second.2 /\
  match first.1, second.1 with
  | Success conns, Success history =>
      Dashboard.connections s' = conns /\
      Dashboard.recentQueries s' = history /\
      console e' = console e
  | _, _ =>
      Dashboard.connections s' = Dashboard.connections s /\
      Dashboard.recentQueries s' = Dashboard.recentQueries s /\
      console e' = console e ++ ["Failed to fetch dashboard data:"]
  end.
Proof.
  assert (Hurl : req_url (outgoing (browser e) (QueryHistoryList None 5))
                 = "/api/query/history?limit=5").
  { by rewrite outgoing_url. }
  unfold Dashboard.fetchData, Dashboard.setConnections, Dashboard.setRecentQueries,
    Dashboard.setLoading, all2, finally, try_catch, bind, modify, console_error.
  simpl.
  destruct (respond srv ConnectionsList (backend e)) as [r1 w1]. simpl.
  destruct (respond srv (QueryHistoryList None 5) w1) as [r2 w2]. simpl.
  destruct r1, r2; simpl; repeat split; done.
Qed.

(** The dashboard without a network: both lists stay empty, loading
    ends and one message is logged for the two failed requests. *)
Example dashboard_offline_example :
  let '(o, s', e') :=
    Dashboard.fetchData Cases.offline Dashboard.initial_page
      (initial_env Demo.logged_in tt) in
  o = Return tt /\
  s' = {| Dashboard.connections := []; Dashboard.recentQueries := [];
          Dashboard.loading := false |} /\
  (req_url <$> sent e') = ["/api/connections"; "/api/query/history?limit=5"] /\
  console e' = ["Failed to fetch dashboard data:"].
Proof. by vm_compute. Qed.

(** ** The history list *)

Lemma filter_sublist {A} (f : A -> bool) (l : list A) : sublist (List.filter f l) l.
Proof.
  induction l as [|x l IH]; simpl; [constructor|].
  destruct (f x); by constructor.
Qed.

Lemma filter_pointwise {A} (f g : A -> bool) (l : list A) :
  (forall x, f x = g x) -> List.filter f l = List.filter g l.
Proof. intros H. induction l as [|x l IH]; simpl; [done|]. by rewrite H, IH. Qed.

(** X15: the filters of the history page only hide entries. With the
    filters the page starts with, the whole history is listed; under any
    filter the entries listed are entries of the history, in their
    order; under the favorites filter every entry listed is a favorite;
    a connection filter of 0 and a status filter of the empty string
    hide nothing; and two clicks on the Favorites button show the list
    of before. *)
Theorem history_filters_only_hide
    (filter : HistoryView.Filter) (history : list QueryHistory) :
  HistoryView.filteredHistory HistoryView.initial_filter history = history /\
  sublist (HistoryView.filteredHistory filter history) history /\
  Forall (fun h => HistoryView.onlyFavorites filter = true -> is_favorite h = true)
    (HistoryView.filteredHistory filter history) /\
  HistoryView.filteredHistory
    {| HistoryView.connectionId := Some 0;
       HistoryView.onlyFavorites := HistoryView.onlyFavorites filter;
       HistoryView.status := Some "" |} history
  = HistoryView.filteredHistory
      {| HistoryView.connectionId := None;
         HistoryView.onlyFavorites := HistoryView.onlyFavorites filter;
         HistoryView.status := None |} history /\
  HistoryView.filteredHistory
    (HistoryView.toggleOnlyFavorites (HistoryView.toggleOnlyFavorites filter)) history
  = HistoryView.filteredHistory filter history.
Proof.
  unfold HistoryView.filteredHistory.
  split; [|split; [|split; [|split]]].
  - induction history as [|h l IH]; simpl; [done|]. by rewrite IH.
  - apply filter_sublist.
  - apply Forall_forall. intros h Hh Hf.
    apply list_elem_of_In, filter_In in Hh as [_ Hh].
    unfold HistoryView.shown in Hh. rewrite Hf in Hh. simpl in Hh.
    destruct (is_favorite h); [done|]. simpl in Hh.
    by destruct (match truthy_id _ with Some _ => _ | None => _ end).
  - by apply filter_pointwise.
  - apply filter_pointwise. intros h. unfold HistoryView.shown. simpl.
    by rewrite negb_involutive.
Qed.

(** X16: taking the star off an entry removes it from the list of
    favorites: when the backend answers a toggle with "not a favorite"
    while the favorites filter is on, no entry with that id is listed
    afterwards, and the entries with other ids are listed as before. *)
Theorem unstarred_entry_leaves_favorites
    {W : Type} (srv : server W) (cl s : HistoryPage.Page) (e : Env W) (id : Z) (w' : W)
    (filter : HistoryView.Filter) :
  respond srv (QueryToggleFavorite id) (backend e)
    = (Success {| fav_is_favorite := false |}, w') ->
  HistoryView.onlyFavorites filter = true ->
  let '(_, s', _) := HistoryPage.toggleFavorite srv cl id s e in
  Forall (fun h => hist_id h <> id)
    (HistoryView.filteredHistory filter (HistoryPage.history s')) /\
  HistoryView.filteredHistory filter (HistoryPage.history s')
  = List.filter (fun h => negb (hist_id h =? id))
      (HistoryView.filteredHistory filter (HistoryPage.history cl)).
Proof.
  intros Hr Hf.
  unfold HistoryPage.toggleFavorite, queryApi_toggleFavorite, try_catch, bind, modify,
    request. rewrite Hr. simpl.
  unfold HistoryView.filteredHistory.
  assert (E : List.filter (HistoryView.shown filter)
                (map (fun h => if bool_decide (hist_id h = id)
                               then HistoryPage.with_is_favorite false h else h)
                     (HistoryPage.history cl))
              = List.filter (fun h => negb (hist_id h =? id))
                  (List.filter (HistoryView.shown filter) (HistoryPage.history cl))).
  { induction (HistoryPage.history cl) as [|h l IH]; simpl; [done|].
    case_bool_decide as Hid.
    - unfold HistoryView.shown at 1. simpl. rewrite Hf.
      destruct (match truthy_id _ with Some _ => _ | None => _ end) eqn:Hc; simpl.
      + rewrite IH. unfold HistoryView.shown at 2. by rewrite Hc.
      + rewrite IH. destruct (HistoryView.shown filter h); [|done].
        simpl. by rewrite (proj2 (Z.eqb_eq _ _) Hid).
    - destruct (HistoryView.shown filter h); simpl; [|done].
      rewrite (proj2 (Z.eqb_neq _ _) Hid). simpl. by rewrite IH. }
  rewrite E. split; [|done].
  apply Forall_forall. intros h Hh.
  apply list_elem_of_In, filter_In in Hh as [_ Hh].
  apply negb_true_iff, Z.eqb_neq in Hh. done.
Qed.

Lemma unstarred_entry_leaves_favorites_witness :
  let starred := HistoryPage.with_is_favorite true Demo.history_entry in
  let favorites :=
    {| HistoryView.connectionId := None; HistoryView.onlyFavorites := true;
       HistoryView.status := None |} in
  let '(_, s', _) :=
    HistoryPage.toggleFavorite
      (Cases.answering (fun c =>
         match c as c0 return reply (response_of c0) with
         | QueryToggleFavorite _ => Success {| fav_is_favorite := false |}
         | _ => NoResponse "Network Error"
         end))
      {| HistoryPage.history := [starred] |} 1
      {| HistoryPage.history := [starred] |} (initial_env Demo.logged_in tt) in
  Forall (fun h => hist_id h <> 1)
    (HistoryView.filteredHistory favorites (HistoryPage.history s')) /\
  HistoryView.filteredHistory favorites (HistoryPage.history s')
  = List.filter (fun h => negb (hist_id h =? 1))
      (HistoryView.filteredHistory favorites [starred]).
Proof.
  apply (unstarred_entry_leaves_favorites
           (Cases.answering (fun c =>
              match c as c0 return reply (response_of c0) with
              | QueryToggleFavorite _ => Success {| fav_is_favorite := false |}
              | _ => NoResponse "Network Error"
              end))
           {| HistoryPage.history :=
                [HistoryPage.with_is_favorite true Demo.history_entry] |}
           {| HistoryPage.history :=
                [HistoryPage.with_is_favorite true Demo.history_entry] |}
           (initial_env Demo.logged_in tt) 1 tt
           {| HistoryView.connectionId := None; HistoryView.onlyFavorites := true;
              HistoryView.status := None |});
    reflexivity.
Defined.

Lemma with_is_favorite_twice a b h :
  HistoryPage.with_is_favorite a (HistoryPage.with_is_favorite b h)
  = HistoryPage.with_is_favorite a h.
Proof. done. Qed.

(** X17: a click on a star changes nothing but favorite flags. When the
    backend answers, the list keeps its entries in their order with all
    their other fields, every entry with the id of the click shows the
    flag of the answer, and every other entry is untouched; when the
    request fails, the list on the page stays as it is and one message
    is logged. One request is sent and the handler never throws. *)
Theorem star_click_changes_only_the_flag
    {W : Type} (srv : server W) (cl s : HistoryPage.Page) (e : Env W) (id : Z) :
  let '(o, s', e') := HistoryPage.toggleFavorite srv cl id s e in
  o = Return tt /\
  calls e' = calls e ++ [QueryToggleFavorite id] /\
  match (respond srv (QueryToggleFavorite id) (backend e)).1 with
  | Success answer =>
      map (HistoryPage.with_is_favorite false) (HistoryPage.history s')
        = map (HistoryPage.with_is_favorite false) (HistoryPage.history cl) /\
      Forall2 (fun h h' =>
                 if bool_decide (hist_id h = id)
                 then is_favorite h' = fav_is_favorite answer
                 else h' = h)
        (HistoryPage.history cl) (HistoryPage.history s') /\
      console e' = console e
  | _ =>
      s' = s /\
      console e' = console e ++ ["Failed to toggle favorite:"]
  end.
Proof.
  unfold HistoryPage.toggleFavorite, queryApi_toggleFavorite, try_catch, bind, modify,
    request, console_error, calls.
  destruct (respond srv (QueryToggleFavorite id) (backend e)) as [[answer|st d|msg] w'];
    simpl; rewrite fmap_app; simpl; rewrite outgoing_call;
    (split; [done|]); (split; [done|]); [|done..].
  split; [|split; [|done]].
  - induction (HistoryPage.history cl) as [|h l IH]; simpl; [done|].
    rewrite IH. f_equal. by case_bool_decide.
  - induction (HistoryPage.history cl) as [|h l IH]; simpl; constructor; [|done].
    by case_bool_decide.
Qed.


End ListingFacts.

(* ===================================================================== *)
(** * The connections page: save, delete, test and type change            *)
(* ===================================================================== *)

Module ConnectionsFacts.
Import Js Types Api ApiFacts Runtime ClientFacts ConnectionsPage ConnectionsActions.

Ltac unfold_connections :=
  unfold handleSubmit, handleDelete, handleTest, handleDbTypeChange, fetchConnections,
    resetForm, setConnections, setLoading, setShowModal, setEditingConnection,
    setFormData, setTestResults, setTesting,
    connectionsApi_list, connectionsApi_create, connectionsApi_update,
    connectionsApi_delete, connectionsApi_test.

(** X19: a save that fails leaves the dialog as the user filled it:
    when the create or update request fails, the page is exactly as
    before (the dialog stays open with the form data and the connection
    being edited), the list is not fetched again, one message is logged
    and the handler does not throw. *)
Theorem failed_save_keeps_the_form
    {W : Type} (srv : server W) (cl s : Page) (e : Env W) (err : AxiosError) :
  error_of_reply (respond srv (save_call cl) (backend e)).1 = Some err ->
  let '(o, s', e') := handleSubmit srv cl s e in
  o = Return tt /\
  s' = s /\
  calls e' = calls e ++ [save_call cl] /\
  console e' = console e ++ ["Failed to save connection:"].
Proof.
  intros Herr.
  change (wp (handleSubmit srv cl)
            (fun o s' e' =>
               o = Return tt /\ s' = s /\
               calls e' = calls e ++ [save_call cl] /\
               console e' = console e ++ ["Failed to save connection:"]) s e).
  unfold save_call in *. unfold_connections.
  destruct (editingConnection cl) as [editing|]; wp_go;
    try (pose proof (exchanged_error _ _ _ _ _ _ Hex Herr); done);
    destruct Hex as (_ & Hc & _);
    (split; [done|]); (split; [done|]);
    (split; [by rewrite (QueryPageFacts.calls_console _ _ H0) | by rewrite H3, Hc]).
Qed.

Lemma failed_save_keeps_the_form_witness :
  let err := {| response := None; message := "Network Error" |} in
  let '(o, s', e') :=
    handleSubmit Cases.offline Demo.listing Demo.listing (initial_env Demo.logged_in tt) in
  o = Return tt /\
  s' = Demo.listing /\
  calls e' = [] ++ [save_call Demo.listing] /\
  console e' = [] ++ ["Failed to save connection:"].
Proof.
  apply (failed_save_keeps_the_form Cases.offline Demo.listing Demo.listing
           (initial_env Demo.logged_in tt)
           {| response := None; message := "Network Error" |}).
  reflexivity.
Defined.

(** X20: a save that succeeds closes the dialog and reloads the list:
    the dialog is closed, no connection is being edited, the form is
    back to its initial values, and the list request follows the save
    request; the page shows the list of the answer, or keeps its list
    when that request fails. Loading has ended and nothing is thrown. *)
Theorem successful_save_resets_and_reloads
    {W : Type} (srv : server W) (cl s : Page) (e : Env W) :
  succeeded (respond srv (save_call cl) (backend e)).1 = true ->
  let '(o, s', e') := handleSubmit srv cl s e in
  let saved := (respond srv (save_call cl) (backend e)).2 in
  o = Return tt /\
  showModal s' = false /\
  editingConnection s' = None /\
  formData s' = empty_form /\
  loading s' = false /\
  calls e' = calls e ++ [save_call cl; ConnectionsList] /\
  connections s' =
    match (respond srv ConnectionsList saved).1 with
    | Success listed => listed
    | _ => connections s
    end.
Proof.
  intros Hok.
  unfold save_call in *. unfold_connections.
  unfold finally, try_catch, bind, modify, ret, console_error, request, calls.
  destruct (editingConnection cl) as [editing|]; simpl in *.
  - destruct (respond srv (ConnectionsUpdate _ _) (backend e)) as [[d|st d|msg] w1];
      simpl in *; try done.
    destruct (respond srv ConnectionsList w1) as [[l|st d'|msg] w2]; simpl;
      rewrite <- (assoc_L (++)), fmap_app; simpl; rewrite !outgoing_call; done.
  - destruct (respond srv (ConnectionsCreate _) (backend e)) as [[d|st d|msg] w1];
      simpl in *; try done.
    destruct (respond srv ConnectionsList w1) as [[l|st d'|msg] w2]; simpl;
      rewrite <- (assoc_L (++)), fmap_app; simpl; rewrite !outgoing_call; done.
Qed.

Lemma successful_save_resets_and_reloads_witness :
  let '(o, s', e') :=
    handleSubmit Cases.keeping Demo.listing Demo.listing (initial_env Demo.logged_in tt) in
  o = Return tt /\
  showModal s' = false /\
  editingConnection s' = None /\
  formData s' = empty_form /\
  loading s' = false /\
  calls e' = [] ++ [save_call Demo.listing; ConnectionsList] /\
  connections s' = [Demo.warehouse].
Proof.
  apply (successful_save_resets_and_reloads Cases.keeping Demo.listing Demo.listing
           (initial_env Demo.logged_in tt)).
  reflexivity.
Defined.

(** X21: nothing is deleted without the user's confirmation: when the
    confirmation is declined the handler sends no request and changes
    nothing; when it is given the delete request is sent, and the list
    is fetched again exactly when the delete succeeded. The dialog and
    the form are never touched, and the handler does not throw. *)
Theorem delete_asks_first
    {W : Type} (srv : server W) (confirmed : bool) (id : Z) (s : Page) (e : Env W) :
  let '(o, s', e') := handleDelete srv confirmed id s e in
  o = Return tt /\
  calls e' = calls e ++
    (if confirmed
     then ConnectionsDelete id ::
          (if succeeded (respond srv (ConnectionsDelete id) (backend e)).1
           then [ConnectionsList] else [])
     else []) /\
  (if confirmed then True else s' = s /\ e' = e) /\
  showModal s' = showModal s /\
  editingConnection s' = editingConnection s /\
  formData s' = formData s.
Proof.
  unfold_connections.
  unfold finally, try_catch, bind, modify, ret, console_error, request, calls.
  destruct confirmed; simpl; [|by rewrite app_nil_r].
  destruct (respond srv (ConnectionsDelete id) (backend e)) as [[d|st d|msg] w1]; simpl.
  - destruct (respond srv ConnectionsList w1) as [[l|st d'|msg] w2]; simpl;
      rewrite <- (assoc_L (++)), fmap_app; simpl; rewrite !outgoing_call; done.
  - rewrite fmap_app. simpl. by rewrite outgoing_call.
  - rewrite fmap_app. simpl. by rewrite outgoing_call.
Qed.

(** X22: a connection test always ends with a result on the page: the
    handler sends one test request and records under the id of the
    connection the answer of the backend or, when the request fails, a
    failure whose message is the detail of the error response or "Test
    failed"; a failed request is never shown as a success or with an
    empty message. The results of other connections are those the
    handler's closure captured, the spinner is cleared and nothing is
    thrown. *)
Theorem test_always_records_a_result
    {W : Type} (srv : server W) (cl s : Tests) (id : Z) (e : Env W) :
  let '(o, s', e') := handleTest srv cl id s e in
  o = Return tt /\
  testing s' = None /\
  calls e' = calls e ++ [ConnectionsTest id] /\
  (forall other, other <> id -> testResults s' !! other = testResults cl !! other) /\
  match (respond srv (ConnectionsTest id) (backend e)).1 with
  | Success answer => testResults s' !! id = Some answer
  | failure =>
      exists err shown,
        error_of_reply failure = Some err /\
        testResults s' !! id = Some shown /\
        test_success shown = false /\
        test_message shown = or_str (error_data err ≫= err_detail) "Test failed" /\
        test_message shown <> ""
  end.
Proof.
  unfold_connections.
  unfold finally, try_catch, bind, modify, ret, request, calls.
  destruct (respond srv (ConnectionsTest id) (backend e)) as [[d|st d|msg] w1]; simpl;
    rewrite fmap_app; simpl; rewrite outgoing_call, lookup_insert_eq;
    (split; [done|]); (split; [done|]); (split; [done|]);
    (split; [intros other Ho; by rewrite lookup_insert_ne|]); [done|..].
  - eexists _, _. split; [done|]. split; [done|]. split; [done|]. split; [done|].
    by apply SessionFacts.or_str_truthy.
  - eexists _, _. split; [done|]. split; [done|]. split; [done|]. split; [done|].
    done.
Qed.

(** Choosing a database type in the form sets the port that goes
    with it: for each type the page offers, the form gets that type and
    its default port (none for SQLite); for any other type it gets no
    port; the port entered before is discarded and no other field of the
    form changes. *)
Theorem type_change_sets_default_port (formData : ConnectionCreate) (dbType : string) :
  let form := retyped formData dbType in
  db_type form = dbType /\
  (forall t, t ∈ DB_TYPES -> port (retyped formData (value t)) = defaultPort t) /\
  (Forall (fun t => value t <> dbType) DB_TYPES -> port form = None) /\
  retyped form dbType = form /\
  (name form, host form, database_name form, username form, password form,
   ssl_enabled form, is_readonly form)
  = (name formData, host formData, database_name formData, username formData,
     password formData, ssl_enabled formData, is_readonly formData).
Proof.
  simpl. split; [done|]. split; [|split; [|done]].
  - intros t Ht. unfold DB_TYPES in Ht.
    repeat (apply elem_of_cons in Ht as [-> | Ht]; [done|]).
    by apply elem_of_nil in Ht.
  - intros Hall. unfold retyped. simpl.
    repeat (apply Forall_cons in Hall as [? Hall]). simpl in *.
    repeat (rewrite bool_decide_eq_false_2 by done). done.
Qed.

End ConnectionsFacts.

(* ===================================================================== *)
(** * More on the query page                                              *)
(* ===================================================================== *)

Module QueryFlowFacts.
Import Js Types Api ApiFacts Runtime ClientFacts QueryPage QueryPageFacts QueryView.

(** X23: without a selected connection, or with nothing typed, the
    handlers of the query page do nothing: submitting the question,
    running the edited SQL and submitting the parameter dialog send no
    request, change no cell and write nothing to the console. *)
Theorem nothing_runs_without_input
    {W : Type} (srv : server W) (now : JsDate.Date) (cl s : Page) (e : Env W) :
  selectedConnection cl = None \/
  (trim (query cl) = "" /\ trim (editableSql cl) = "" /\ pendingQuery cl = "") ->
  handleSubmit srv now cl s e = (Return tt, s, e) /\
  handleRunModifiedSql srv cl s e = (Return tt, s, e) /\
  handleParamSubmit srv cl s e = (Return tt, s, e).
Proof.
  unfold handleSubmit, handleRunModifiedSql, handleParamSubmit, executeWithParams.
  intros [Hc | (Hq & Hs & Hp)].
  - rewrite Hc. by destruct (truthy_str (pendingQuery cl)).
  - rewrite Hq, Hs, Hp. simpl. by destruct (selectedConnection cl).
Qed.

Lemma nothing_runs_without_input_witness :
  handleSubmit (Demo.scripted (Success Demo.no_parameters)) Demo.noon
    (Demo.asking "   ") (Demo.asking "   ") (initial_env Demo.logged_in tt)
    = (Return tt, Demo.asking "   ", initial_env Demo.logged_in tt) /\
  handleRunModifiedSql (Demo.scripted (Success Demo.no_parameters))
    (Demo.asking "   ") (Demo.asking "   ") (initial_env Demo.logged_in tt)
    = (Return tt, Demo.asking "   ", initial_env Demo.logged_in tt) /\
  handleParamSubmit (Demo.scripted (Success Demo.no_parameters))
    (Demo.asking "   ") (Demo.asking "   ") (initial_env Demo.logged_in tt)
    = (Return tt, Demo.asking "   ", initial_env Demo.logged_in tt).
Proof.
  apply (nothing_runs_without_input (Demo.scripted (Success Demo.no_parameters)) Demo.noon
           (Demo.asking "   ") (Demo.asking "   ") (initial_env Demo.logged_in tt)).
  right. by vm_compute.
Defined.

Lemma or_else_truthy a b : truthy_opt b = true -> truthy_opt (or_else a b) = true.
Proof. intros Hb. unfold or_else. by destruct (truthy_opt a) eqn:E. Qed.

(** An error on the question path always reaches the page with a
    message: the result built from a thrown error carries a non-empty
    error text (the error or the detail of the response, else the
    message of the error, else "Query failed"), and SQL and explanation
    that are strings; so the page shows the error view, and the SQL
    editor appears in it exactly when the error response carried
    SQL. *)
Theorem error_result_has_a_message (err : AxiosError) (s : Page) (conn : Connection) :
  let shown := with_result (Some (error_result err))
                 (with_selectedConnection (Some conn) s) in
  truthy_opt (ask_error (error_result err)) = true /\
  ask_sql (error_result err) = Some (or_str (error_data err ≫= err_sql) "") /\
  ask_explanation (error_result err)
    = Some (or_str (error_data err ≫= err_explanation) "") /\
  ask_rows (error_result err) = None /\
  textarea_of shown =
    (if truthy_opt (error_data err ≫= err_sql) then Some (error_result err) else None).
Proof.
  intros shown. subst shown.
  assert (Hmsg : truthy_opt (ask_error (error_result err)) = true).
  { unfold error_result. simpl. by repeat apply or_else_truthy. }
  assert (Hor : forall a, default "" (or_else a (Some "")) = or_str a "").
  { intros [x|]; [|done]. unfold or_else, or_str. simpl. by destruct (truthy_str x). }
  assert (Hsql : ask_sql (error_result err) = Some (or_str (error_data err ≫= err_sql) "")).
  { unfold error_result. simpl. by rewrite Hor. }
  split; [done|]. split; [done|].
  split; [unfold error_result; simpl; by rewrite Hor|].
  split; [done|].
  unfold textarea_of.
  cbn [with_result with_selectedConnection selectedConnection result].
  rewrite Hmsg, Hsql.
  destruct (error_data err ≫= err_sql) as [x|]; [|done].
  simpl. unfold truthy_str at 1. unfold or_str.
  destruct (truthy_str x) eqn:E; [|done].
  apply negb_true_iff, bool_decide_eq_false in E.
  by rewrite bool_decide_eq_false_2.
Qed.

(** ** The editor and the result *)

Lemma sync_editable_none prev s :
  result_sql (result s) = None -> sync_editable prev s = s.
Proof. intros H. unfold sync_editable. rewrite H. by case_bool_decide. Qed.

Lemma sync_editable_fresh prev s sql :
  result_sql (result s) = Some sql -> sql <> "" -> prev <> Some sql ->
  sync_editable prev s = with_isEditing false (with_editableSql sql s).
Proof.
  intros H Hne Hp. unfold sync_editable. rewrite H.
  rewrite bool_decide_eq_false_2 by congruence.
  by rewrite (truthy_str_true _ Hne).
Qed.

Lemma executeWithParams_answer_wp {W} (srv : server W) cl nl ps conn s e answer w2 sql :
  selectedConnection cl = Some conn ->
  respond srv (QueryAsk (conn_id conn) nl true ps) (backend e) = (Success answer, w2) ->
  ask_sql answer = Some sql ->
  sql <> "" ->
  result_sql (result s) <> Some sql ->
  wp (executeWithParams srv cl nl ps)
     (fun o s' e' =>
        o = Return tt /\ result s' = Some answer /\ editableSql s' = sql /\
        isEditing s' = false /\ loading s' = false /\ showParamDialog s' = false) s e.
Proof.
  intros Hc Ha Hsql Hne Hprev. unfold executeWithParams. rewrite Hc. unfold_setters.
  wp_run;
    match goal with
    | H : exchanged _ (QueryAsk _ _ _ _) _ (Return _) _ |- _ =>
        destruct (exchanged_success _ _ _ _ _ _ _ H Ha) as ([= ->] & _)
    | H : exchanged _ (QueryAsk _ _ _ _) _ (Throw _) _ |- _ =>
        apply exchanged_thrown in H; by rewrite Ha in H
    end;
    rewrite (sync_editable_fresh _ _ sql) by done; done.
Qed.

(** X24: an answered question puts its SQL into the editor: when
    detection asks for no parameter and the ask request is answered
    with non-empty SQL, the page holds the answer as its result, the
    editor holds exactly that SQL and is not in editing state, whatever
    the editor held before; loading has ended and no dialog is open. *)
Theorem answer_fills_the_editor
    {W : Type} (srv : server W) (now : JsDate.Date) (cl s : Page) (e : Env W)
    (conn : Connection) (d : DetectResult) (w1 : W) (answer : AskResponse) (w2 : W)
    (sql : string) :
  selectedConnection cl = Some conn ->
  trim (query cl) <> "" ->
  respond srv (QueryDetectParameters (conn_id conn) (trim (query cl))) (backend e)
    = (Success d, w1) ->
  needs_parameters d = false ->
  respond srv (QueryAsk (conn_id conn) (trim (query cl)) true None) w1
    = (Success answer, w2) ->
  ask_sql answer = Some sql ->
  sql <> "" ->
  let '(o, s', e') := handleSubmit srv now cl s e in
  o = Return tt /\
  result s' = Some answer /\
  editableSql s' = sql /\
  isEditing s' = false /\
  loading s' = false /\
  showParamDialog s' = false.
Proof.
  intros Hc Hq Hd Hn Ha Hsql Hne.
  change (wp (handleSubmit srv now cl)
            (fun o s' e' =>
               o = Return tt /\ result s' = Some answer /\ editableSql s' = sql /\
               isEditing s' = false /\ loading s' = false /\
               showParamDialog s' = false) s e).
  unfold handleSubmit. rewrite Hc, (truthy_str_true _ Hq). simpl. unfold_setters.
  wp_run.
  - destruct (exchanged_success _ _ _ _ _ _ _ Hex Hd) as ([= ->] & Hw1 & _).
    unfold on_detected. rewrite Hn. simpl.
    rewrite <- Hw1 in Ha.
    eapply wp_wand.
    { eapply (executeWithParams_answer_wp srv cl _ _ conn _ e0 answer w2 sql);
        [done..|]. simpl. by rewrite sync_editable_none. }
    simpl. by intros o s' e' (-> & H').
  - pose proof (exchanged_thrown _ _ _ _ _ Hex) as He. by rewrite Hd in He.
Qed.

Lemma answer_fills_the_editor_witness :
  let '(o, s', e') :=
    handleSubmit (Demo.scripted (Success Demo.no_parameters)) Demo.noon
      (Demo.asking "how many orders are there") Demo.edited_page
      (initial_env Demo.logged_in tt) in
  o = Return tt /\
  result s' = Some Demo.count_answer /\
  editableSql s' = "SELECT COUNT(*) FROM orders" /\
  isEditing s' = false /\
  loading s' = false /\
  showParamDialog s' = false.
Proof.
  apply (answer_fills_the_editor (Demo.scripted (Success Demo.no_parameters)) Demo.noon
           (Demo.asking "how many orders are there") Demo.edited_page
           (initial_env Demo.logged_in tt) Demo.orders_db Demo.no_parameters tt
           Demo.count_answer tt "SELECT COUNT(*) FROM orders");
    try reflexivity; by vm_compute.
Defined.

(** X25: a failed question is shown as an error and nothing else
    happens: when the ask request fails, the result of the page is the
    error result built from the thrown error, with an error text that
    is not empty; no chart suggestion is requested, the chart settings
    stay as they were, the dialog is closed, loading ends and the
    handler does not throw. *)
Theorem failed_question_shows_the_error
    {W : Type} (srv : server W) (cl s : Page) (e : Env W) (conn : Connection)
    (naturalLanguage : string) (params : option (gmap string value)) (err : AxiosError) :
  selectedConnection cl = Some conn ->
  error_of_reply
    (respond srv (QueryAsk (conn_id conn) naturalLanguage true params) (backend e)).1
    = Some err ->
  let '(o, s', e') := executeWithParams srv cl naturalLanguage params s e in
  o = Return tt /\
  result s' = Some (error_result err) /\
  truthy_opt (result s' ≫= ask_error) = true /\
  loading s' = false /\
  showParamDialog s' = false /\
  chartSuggestions s' = chartSuggestions s /\
  chartType s' = chartType s /\
  calls e' = calls e ++ [QueryAsk (conn_id conn) naturalLanguage true params] /\
  console e' = console e.
Proof.
  intros Hc Herr.
  change (wp (executeWithParams srv cl naturalLanguage params)
            (fun o s' e' =>
               o = Return tt /\ result s' = Some (error_result err) /\
               truthy_opt (result s' ≫= ask_error) = true /\
               loading s' = false /\ showParamDialog s' = false /\
               chartSuggestions s' = chartSuggestions s /\
               chartType s' = chartType s /\
               calls e' = calls e ++ [QueryAsk (conn_id conn) naturalLanguage true params] /\
               console e' = console e) s e).
  unfold executeWithParams. rewrite Hc. unfold_setters.
  wp_step; simpl. wp_step; simpl. wp_step; simpl. wp_step; simpl.
  wp_step; simpl. wp_step; simpl. wp_step; simpl.
  wp_step; simpl.
  { pose proof (exchanged_error _ _ _ _ _ _ Hex Herr). done. }
  pose proof (exchanged_error _ _ _ _ _ _ Hex Herr) as [= ->].
  destruct Hex as (_ & Hcons & _).
  wp_run.
  assert (Hf : forall prev p,
            chartSuggestions (sync_editable prev p) = chartSuggestions p /\
            chartType (sync_editable prev p) = chartType p).
  { intros prev p. unfold sync_editable. repeat case_match; done. }
  match goal with
  | |- context [sync_editable ?p ?q] => destruct (Hf p q) as [Hf1 Hf2]
  end.
  simpl in Hf1, Hf2. frame_sync.
  assert (Hmsg : truthy_opt (ask_error (error_result err)) = true).
  { unfold error_result. simpl. by repeat apply or_else_truthy. }
  repeat split; try done.
  match goal with H : result _ = Some (error_result err) |- _ => by rewrite H end.
Qed.

Lemma failed_question_shows_the_error_witness :
  let err := {| response := None; message := "Network Error" |} in
  let '(o, s', e') :=
    executeWithParams Cases.offline (Demo.asking "how many orders are there")
      "how many orders are there" None Demo.edited_page
      (initial_env Demo.logged_in tt) in
  o = Return tt /\
  result s' = Some (error_result err) /\
  truthy_opt (result s' ≫= ask_error) = true /\
  loading s' = false /\
  showParamDialog s' = false /\
  chartSuggestions s' = [] /\
  chartType s' = "bar" /\
  calls e' = [] ++ [QueryAsk 1 "how many orders are there" true None] /\
  console e' = [].
Proof.
  apply (failed_question_shows_the_error Cases.offline
           (Demo.asking "how many orders are there") Demo.edited_page
           (initial_env Demo.logged_in tt) Demo.orders_db
           "how many orders are there" None
           {| response := None; message := "Network Error" |});
    reflexivity.
Defined.

(** X26: what the parameter dialog collects is what is sent. When
    detection lists parameters, submitting the question opens the
    dialog, ends loading and sends nothing but the detection request;
    submitting the dialog as it opened then sends the ask request for
    the trimmed question with the initial values of the parameters,
    closes the dialog and ends loading. *)
Theorem dialog_values_are_sent
    {W : Type} (srv : server W) (now : JsDate.Date) (s : Page) (e : Env W)
    (conn : Connection) (d : DetectResult) (w1 : W) :
  selectedConnection s = Some conn ->
  trim (query s) <> "" ->
  respond srv (QueryDetectParameters (conn_id conn) (trim (query s))) (backend e)
    = (Success d, w1) ->
  needs_parameters d = true ->
  parameters d <> [] ->
  let '(_, s1, e1) := handleSubmit srv now s s e in
  let '(o, s2, e2) := handleParamSubmit srv s1 s1 e1 in
  dialog_shown s1 = true /\
  loading s1 = false /\
  calls e1 = calls e ++ [QueryDetectParameters (conn_id conn) (trim (query s))] /\
  o = Return tt /\
  (exists rest,
     new_calls e1 e2 =
       QueryAsk (conn_id conn) (trim (query s)) true
         (Some (default_values now (parameters d))) :: rest) /\
  showParamDialog s2 = false /\
  loading s2 = false.
Proof.
  intros Hc Hq Hd Hn Hp.
  assert (H1 : wp (handleSubmit srv now s)
            (fun _ s1 e1 =>
               selectedConnection s1 = Some conn /\
               pendingQuery s1 = trim (query s) /\
               paramValues s1 = default_values now (parameters d) /\
               dialog_shown s1 = true /\ loading s1 = false /\
               calls e1 = calls e ++
                 [QueryDetectParameters (conn_id conn) (trim (query s))]) s e).
  { unfold handleSubmit. rewrite Hc, (truthy_str_true _ Hq). simpl. unfold_setters.
    wp_run.
    - destruct (exchanged_success _ _ _ _ _ _ _ Hex Hd) as ([= ->] & _).
      unfold on_detected. rewrite Hn. unfold_setters.
      destruct (parameters d) as [|p ps] eqn:Hps; [done|]. simpl.
      wp_run. frame_sync. repeat split; try done. congruence.
    - pose proof (exchanged_thrown _ _ _ _ _ Hex) as He. by rewrite Hd in He. }
  unfold wp in H1. destruct (handleSubmit srv now s s e) as [[o1 s1] e1].
  destruct H1 as (Hc1 & Hpq & Hpv & Hdlg & Hl & Hcalls).
  pose proof (executeWithParams_wp srv s1 (pendingQuery s1) (Some (paramValues s1))
                conn s1 e1 Hc1) as H2.
  assert (Ht : truthy_str (pendingQuery s1) = true).
  { rewrite Hpq. by apply truthy_str_true. }
  unfold handleParamSubmit. rewrite Ht.
  unfold wp in H2.
  destruct (executeWithParams srv s1 (pendingQuery s1) (Some (paramValues s1)) s1 e1)
    as [[o s2] e2].
  destruct H2 as (-> & Hd2 & Hl2 & _ & rest & Hcalls2 & _).
  repeat split; try done.
  exists rest. rewrite <- Hpq, <- Hpv. by apply new_calls_app.
Qed.

Lemma dialog_values_are_sent_witness :
  let '(_, s1, e1) :=
    handleSubmit (Demo.scripted (Success Demo.two_parameters)) Demo.noon
      (Demo.asking "orders since a date") (Demo.asking "orders since a date")
      (initial_env Demo.logged_in tt) in
  let '(o, s2, e2) :=
    handleParamSubmit (Demo.scripted (Success Demo.two_parameters)) s1 s1 e1 in
  dialog_shown s1 = true /\
  loading s1 = false /\
  calls e1 = [] ++ [QueryDetectParameters 1 "orders since a date"] /\
  o = Return tt /\
  (exists rest,
     new_calls e1 e2 =
       QueryAsk 1 "orders since a date" true
         (Some (default_values Demo.noon [Demo.since_param; Demo.limit_param])) :: rest) /\
  showParamDialog s2 = false /\
  loading s2 = false.
Proof.
  apply (dialog_values_are_sent (Demo.scripted (Success Demo.two_parameters)) Demo.noon
           (Demo.asking "orders since a date") (initial_env Demo.logged_in tt)
           Demo.orders_db Demo.two_parameters tt);
    try reflexivity; by vm_compute.
Defined.

(** ** Running and resetting the edited SQL *)

(** X27: a failed run of the edited SQL keeps the edit: when the
    execute request fails, the result keeps its SQL, explanation and
    rows and gets a non-empty error text (the detail of the response,
    else the message of the error, else "Execution failed"); the text
    in the editor and the editing state are untouched, so the user can
    correct the SQL and run it again; no correction is submitted,
    loading ends and the handler does not throw. *)
Theorem failed_run_keeps_the_edit
    {W : Type} (srv : server W) (cl s : Page) (e : Env W) (conn : Connection)
    (err : AxiosError) :
  selectedConnection cl = Some conn ->
  trim (editableSql cl) <> "" ->
  error_of_reply
    (respond srv (QueryExecute (conn_id conn) (trim (editableSql cl))) (backend e)).1
    = Some err ->
  let '(o, s', e') := handleRunModifiedSql srv cl s e in
  o = Return tt /\
  result s' =
    Some (with_error
            (or_else (error_data err ≫= err_detail)
               (or_else (Some (message err)) (Some "Execution failed")))
            (result s)) /\
  truthy_opt (result s' ≫= ask_error) = true /\
  result_sql (result s') = result_sql (result s) /\
  editableSql s' = editableSql s /\
  isEditing s' = isEditing s /\
  loading s' = false /\
  calls e' = calls e ++ [QueryExecute (conn_id conn) (trim (editableSql cl))] /\
  console e' = console e.
Proof.
  intros Hc Hq Herr.
  change (wp (handleRunModifiedSql srv cl)
            (fun o s' e' =>
               o = Return tt /\
               result s' =
                 Some (with_error
                         (or_else (error_data err ≫= err_detail)
                            (or_else (Some (message err)) (Some "Execution failed")))
                         (result s)) /\
               truthy_opt (result s' ≫= ask_error) = true /\
               result_sql (result s') = result_sql (result s) /\
               editableSql s' = editableSql s /\
               isEditing s' = isEditing s /\
               loading s' = false /\
               calls e' = calls e ++
                 [QueryExecute (conn_id conn) (trim (editableSql cl))] /\
               console e' = console e) s e).
  unfold handleRunModifiedSql. rewrite Hc, (truthy_str_true _ Hq). simpl.
  unfold_setters.
  wp_step; simpl. wp_step; simpl. wp_step; simpl. wp_step; simpl. wp_step; simpl.
  wp_step; simpl.
  { pose proof (exchanged_error _ _ _ _ _ _ Hex Herr). done. }
  pose proof (exchanged_error _ _ _ _ _ _ Hex Herr) as [= ->].
  destruct Hex as (_ & Hcons & _).
  wp_run.
  rewrite (sync_editable_same (with_loading true s)) by done. simpl.
  repeat split; try done.
  by repeat apply or_else_truthy.
Qed.

Lemma failed_run_keeps_the_edit_witness :
  let err := {| response := None; message := "Network Error" |} in
  let '(o, s', e') :=
    handleRunModifiedSql Cases.offline Demo.edited_page Demo.edited_page
      (initial_env Demo.logged_in tt) in
  o = Return tt /\
  result s' =
    Some (with_error
            (or_else (error_data err ≫= err_detail)
               (or_else (Some (message err)) (Some "Execution failed")))
            (result Demo.edited_page)) /\
  truthy_opt (result s' ≫= ask_error) = true /\
  result_sql (result s') = result_sql (result Demo.edited_page) /\
  editableSql s' = editableSql Demo.edited_page /\
  isEditing s' = isEditing Demo.edited_page /\
  loading s' = false /\
  calls e' = [] ++ [QueryExecute 1 (trim (editableSql Demo.edited_page))] /\
  console e' = [].
Proof.
  apply (failed_run_keeps_the_edit Cases.offline Demo.edited_page Demo.edited_page
           (initial_env Demo.logged_in tt) Demo.orders_db
           {| response := None; message := "Network Error" |});
    [reflexivity | by vm_compute | reflexivity].
Defined.

(** X28: a successful run of the edited SQL replaces the data and
    nothing else of the result: columns, rows, row count and time are
    those of the execution and the error is cleared, while the SQL and
    the explanation of the result stay those that were generated; the
    editor keeps the text that was run, the editing state ends (the Run
    and Reset buttons go away), loading ends and nothing is thrown. *)
Theorem successful_run_replaces_the_data
    {W : Type} (srv : server W) (cl s : Page) (e : Env W) (conn : Connection)
    (execResult : QueryResult) (w1 : W) :
  selectedConnection cl = Some conn ->
  trim (editableSql cl) <> "" ->
  respond srv (QueryExecute (conn_id conn) (trim (editableSql cl))) (backend e)
    = (Success execResult, w1) ->
  let '(o, s', e') := handleRunModifiedSql srv cl s e in
  o = Return tt /\
  result s' = Some (with_execution execResult (result s)) /\
  result_sql (result s') = result_sql (result s) /\
  (result s' ≫= ask_explanation) = (result s ≫= ask_explanation) /\
  (result s' ≫= ask_rows) = Some (qr_rows execResult) /\
  (result s' ≫= ask_columns) = Some (qr_columns execResult) /\
  (result s' ≫= ask_error) = None /\
  editableSql s' = editableSql s /\
  isEditing s' = false /\
  edit_buttons_of s' = None /\
  loading s' = false.
Proof.
  intros Hc Hq Hr.
  change (wp (handleRunModifiedSql srv cl)
            (fun o s' e' =>
               o = Return tt /\
               result s' = Some (with_execution execResult (result s)) /\
               result_sql (result s') = result_sql (result s) /\
               (result s' ≫= ask_explanation) = (result s ≫= ask_explanation) /\
               (result s' ≫= ask_rows) = Some (qr_rows execResult) /\
               (result s' ≫= ask_columns) = Some (qr_columns execResult) /\
               (result s' ≫= ask_error) = None /\
               editableSql s' = editableSql s /\
               isEditing s' = false /\
               edit_buttons_of s' = None /\
               loading s' = false) s e).
  unfold handleRunModifiedSql. rewrite Hc, (truthy_str_true _ Hq). simpl.
  unfold_setters.
  wp_step; simpl. wp_step; simpl. wp_step; simpl. wp_step; simpl. wp_step; simpl.
  wp_step; simpl.
  2:{ pose proof (exchanged_thrown _ _ _ _ _ Hex) as He. by rewrite Hr in He. }
  destruct (exchanged_success _ _ _ _ _ _ _ Hex Hr) as ([= ->] & _).
  wp_step; simpl. wp_step; simpl.
  rewrite (sync_editable_same (with_loading true s)) by done.
  wp_run; repeat split; done.
Qed.

Lemma successful_run_replaces_the_data_witness :
  let '(o, s', e') :=
    handleRunModifiedSql (Demo.scripted (Success Demo.no_parameters)) Demo.edited_page
      Demo.edited_page (initial_env Demo.logged_in tt) in
  o = Return tt /\
  result s' = Some (with_execution Demo.count_result (result Demo.edited_page)) /\
  result_sql (result s') = result_sql (result Demo.edited_page) /\
  (result s' ≫= ask_explanation) = (result Demo.edited_page ≫= ask_explanation) /\
  (result s' ≫= ask_rows) = Some (qr_rows Demo.count_result) /\
  (result s' ≫= ask_columns) = Some (qr_columns Demo.count_result) /\
  (result s' ≫= ask_error) = None /\
  editableSql s' = editableSql Demo.edited_page /\
  isEditing s' = false /\
  edit_buttons_of s' = None /\
  loading s' = false.
Proof.
  apply (successful_run_replaces_the_data (Demo.scripted (Success Demo.no_parameters))
           Demo.edited_page Demo.edited_page (initial_env Demo.logged_in tt)
           Demo.orders_db Demo.count_result tt);
    [reflexivity | by vm_compute | reflexivity].
Defined.

(** X29: Reset undoes an edit: after any change of the text in the
    editor, a click on Reset puts the SQL of the result back and ends
    the editing state, and the two handlers touch no other cell and
    send nothing; the editing state after the change says whether the
    text differs from the SQL of the result. On a page whose editor was
    in step with the result, edit and reset together change nothing. *)
Theorem reset_undoes_the_edit
    {W : Type} (r : AskResponse) (sql v : string) (s : Page) (e : Env W) :
  ask_sql r = Some sql ->
  sql <> "" ->
  let '(_, s1, e1) := onChangeSql r v s e in
  let '(o, s2, e2) := onResetSql r s1 e1 in
  o = Return tt /\
  editableSql s1 = v /\
  (isEditing s1 = true <-> v <> sql) /\
  editableSql s2 = sql /\
  isEditing s2 = false /\
  s2 = with_isEditing false (with_editableSql sql s) /\
  e2 = e /\
  (editableSql s = sql -> isEditing s = false -> s2 = s).
Proof.
  intros Hsql Hne.
  unfold onChangeSql, onResetSql, setEditableSql, setIsEditing, bind, modify. simpl.
  rewrite Hsql. unfold or_else. simpl. rewrite (truthy_str_true _ Hne). simpl.
  repeat split; try done.
  - intros H ->. by rewrite bool_decide_eq_true_2 in H.
  - intros H. rewrite bool_decide_eq_false_2; [done|]. congruence.
  - intros <- Hed. destruct s. simpl in *. by subst.
Qed.

Lemma reset_undoes_the_edit_witness :
  let '(_, s1, e1) :=
    onChangeSql Demo.count_answer "SELECT 1" Demo.edited_page
      (initial_env Demo.logged_in tt) in
  let '(o, s2, e2) := onResetSql Demo.count_answer s1 e1 in
  o = Return tt /\
  editableSql s1 = "SELECT 1" /\
  (isEditing s1 = true <-> "SELECT 1" <> "SELECT COUNT(*) FROM orders") /\
  editableSql s2 = "SELECT COUNT(*) FROM orders" /\
  isEditing s2 = false /\
  s2 = with_isEditing false
         (with_editableSql "SELECT COUNT(*) FROM orders" Demo.edited_page) /\
  e2 = initial_env Demo.logged_in tt /\
  (editableSql Demo.edited_page = "SELECT COUNT(*) FROM orders" ->
   isEditing Demo.edited_page = false -> s2 = Demo.edited_page).
Proof.
  apply (reset_undoes_the_edit (W := unit) Demo.count_answer "SELECT COUNT(*) FROM orders"
           "SELECT 1" Demo.edited_page (initial_env Demo.logged_in tt));
    [reflexivity | done].
Defined.

End QueryFlowFacts.

(* ===================================================================== *)
(** * The schema tree and the chart data of the query page                *)
(* ===================================================================== *)

Module QueryViewFacts.
Import Js Types Api QueryView.

(** A click on a table of the schema tree flips that table and no
    other: afterwards the table is expanded exactly if it was not
    before, every other table is as it was, and a second click brings
    back the set of expanded tables. *)
Theorem toggleTable_flips_one_table (expandedTables : gset string) (tableName : string) :
  (tableName ∈ toggleTable expandedTables tableName <-> tableName ∉ expandedTables) /\
  (forall other, other <> tableName ->
     other ∈ toggleTable expandedTables tableName <-> other ∈ expandedTables) /\
  toggleTable (toggleTable expandedTables tableName) tableName = expandedTables.
Proof.
  assert (H1 : tableName ∈ toggleTable expandedTables tableName
               <-> tableName ∉ expandedTables).
  { unfold toggleTable. case_bool_decide as Hin.
    - rewrite elem_of_difference, elem_of_singleton. tauto.
    - rewrite elem_of_union, elem_of_singleton. tauto. }
  assert (H2 : forall X other, other <> tableName ->
                 other ∈ toggleTable X tableName <-> other ∈ X).
  { intros X other Hne. unfold toggleTable. case_bool_decide.
    - rewrite elem_of_difference, elem_of_singleton. tauto.
    - rewrite elem_of_union, elem_of_singleton. tauto. }
  split; [done|]. split; [by apply H2|].
  apply set_eq. intros x. destruct (decide (x = tableName)) as [->|Hne].
  - assert (H3 : tableName ∈ toggleTable (toggleTable expandedTables tableName) tableName
                 <-> tableName ∉ toggleTable expandedTables tableName).
    { unfold toggleTable at 1. case_bool_decide as Hin.
      - rewrite elem_of_difference, elem_of_singleton. tauto.
      - rewrite elem_of_union, elem_of_singleton. tauto. }
    rewrite H3, H1. destruct (decide (tableName ∈ expandedTables)); tauto.
  - by rewrite !H2.
Qed.

Lemma assign_columns_other i columns row obj col :
  col ∉ columns -> assign_columns i columns row obj !! col = obj !! col.
Proof.
  revert i obj. induction columns as [|c cs IH]; intros i obj Hc; simpl; [done|].
  apply not_elem_of_cons in Hc as [Hne Hc].
  rewrite IH by done. by apply QueryPageFacts.assign_other.
Qed.

Lemma assign_columns_proto i columns row obj :
  assign_columns i columns row obj !! "__proto__" = obj !! "__proto__".
Proof.
  revert i obj. induction columns as [|c cs IH]; intros i obj; simpl; [done|].
  rewrite IH. unfold assign. case_bool_decide; [done|]. by rewrite lookup_insert_ne.
Qed.

Lemma assign_columns_lookup i columns row obj k col :
  NoDup columns -> columns !! k = Some col -> col <> "__proto__" ->
  assign_columns i columns row obj !! col = Some (index row (i + k)).
Proof.
  revert i obj k. induction columns as [|c cs IH]; intros i obj k Hnd Hk Hp; [done|].
  apply NoDup_cons in Hnd as [Hc Hnd]. simpl. destruct k as [|k]; simpl in Hk.
  - injection Hk as ->. rewrite assign_columns_other by done.
    rewrite QueryPageFacts.assign_same by done. by rewrite Nat.add_0_r.
  - rewrite (IH (S i) _ k) by done. do 2 f_equal. lia.
Qed.

(** X30: the chart gets every cell under the name of its column: for a
    result whose column names are distinct, the chart data has one
    object per row, in the order of the rows, and the object of a row
    holds under each column name the cell of that row in that column
    ([undefined] where the row is too short) and holds nothing under
    any other name. The one name an object keeps nothing under is
    [__proto__]: the cell of a column of that name is left out. A
    result without columns or without rows gives no chart data. *)
Theorem chartData_holds_the_cells
    (r : AskResponse) (columns : list string) (rows : list (list value)) :
  ask_columns r = Some columns ->
  ask_rows r = Some rows ->
  NoDup columns ->
  length (chartData (Some r)) = length rows /\
  forall n row obj,
    rows !! n = Some row ->
    chartData (Some r) !! n = Some obj ->
    (forall k col, columns !! k = Some col ->
       obj !! col = if bool_decide (col = "__proto__") then None
                    else Some (index row k)) /\
    (forall name, name ∉ columns -> obj !! name = None).
Proof.
  intros Hc Hr Hnd. unfold chartData. rewrite Hc, Hr.
  split; [by rewrite length_map|].
  intros n row obj Hn Hobj.
  rewrite list_lookup_fmap, Hn in Hobj. injection Hobj as <-.
  split.
  - intros k col Hk. case_bool_decide as Hp.
    + subst col. by rewrite assign_columns_proto.
    + by rewrite (assign_columns_lookup 0 columns row ∅ k col).
  - intros name Hname. by rewrite assign_columns_other.
Qed.

Lemma chartData_holds_the_cells_witness :
  length (chartData (Some Demo.count_answer)) = length [[VNum 3]] /\
  forall n row obj,
    [[VNum 3]] !! n = Some row ->
    chartData (Some Demo.count_answer) !! n = Some obj ->
    (forall k col, ["count"] !! k = Some col ->
       obj !! col = if bool_decide (col = "__proto__") then None
                    else Some (index row k)) /\
    (forall name, name ∉ ["count"] -> obj !! name = None).
Proof.
  apply (chartData_holds_the_cells Demo.count_answer ["count"] [[VNum 3]]);
    [reflexivity | reflexivity |].
  apply NoDup_singleton.
Defined.

(** A column named [__proto__] leaves no entry in the chart data. *)
Example chartData_proto_example :
  chartData
    (Some {| ask_sql := Some "SELECT 1"; ask_explanation := None;
             ask_columns := Some ["__proto__"; "n"];
             ask_rows := Some [[VNum 1; VNum 2]];
             ask_row_count := Some 1; ask_execution_time_ms := Some 1;
             ask_error := None |})
  = [ {[ "n" := VNum 2 ]} ].
Proof. by vm_compute. Qed.

(** Without columns or rows there is nothing to draw. *)
Example chartData_empty_example :
  chartData None = [] /\
  chartData (Some (QueryPage.error_result {| response := None; message := "x" |})) = [].
Proof. done. Qed.

End QueryViewFacts.
